(** * Menupedia: the meal/heading REST backend of [server.js]

    [server.js] holds two variants of the same Express application:
    - the document-collection variant (Mongoose models [Meal] and [Heading]),
    - the flat-file variant ([data.json], read and rewritten as a whole).

    Both are embedded here as executable state-passing functions over a
    small model of the disk (the data file, the uploaded asset files) and of
    the collection.  Route handlers run in a state-and-exception monad: a
    JavaScript [throw] keeps the side effects made so far and is turned into
    a response by the handler's [catch]. *)

From Stdlib Require Import ZArith Ascii String.
From stdpp Require Import gmap strings list pretty.

Local Open Scope string_scope.
Local Open Scope Z_scope.

#[local] Set Warnings "-register-all".

(** ** JSON values

    What [JSON.parse] returns.  Objects are finite maps from keys to values
    (a parsed object never has two properties of one name); numbers are the
    integers, which is all the handlers need of them (only their being zero
    or not is ever inspected). *)

Inductive json : Type :=
  | JNull
  | JBool (b : bool)
  | JNum (z : Z)
  | JStr (s : string)
  | JArr (l : list json)
  | JObj (m : gmap string json).

(** JavaScript truthiness of a JSON value ([if (v)], [!v]). *)
Definition truthy (v : json) : bool :=
  match v with
  | JNull => false
  | JBool b => b
  | JNum z => negb (z =? 0)
  | JStr s => negb (String.eqb s "")
  | JArr _ | JObj _ => true
  end.

(** Truthiness of a property read, [None] standing for [undefined]. *)
Definition truthy_opt (v : option json) : bool :=
  match v with Some x => truthy x | None => false end.

(** ** Exceptions and responses *)

Inductive exn : Type :=
  | SyntaxError            (* JSON.parse on text that is not JSON, or on undefined *)
  | TypeError              (* property access on null, path.join on a non-string *)
  | FsError                (* fs.unlinkSync failing on an existing file *)
  | CastError              (* Mongoose: id not castable to ObjectId *)
  | ValidationError        (* Mongoose: a document failing validation on save *)
  | ObjectParameterError   (* Mongoose: new Model(non-object) *)
  | MongoError             (* the database operation was rejected *)
  | DocumentNotFoundError  (* Mongoose: save() of a loaded document matched nothing *)
  | MulterError (code : string)
  | Error (msg : string).  (* new Error(msg) thrown by server.js itself *)

Inductive result (A : Type) : Type :=
  | Ok (a : A)
  | Throw (e : exn).
Arguments Ok {A} a.
Arguments Throw {A} e.

(** The JSON body of an error answer: [{error: '...'}] with a literal text,
    or [{error: error.message}] for a caught exception; [ErrorPage] is the
    page Express' own final handler sends when a middleware passes an error
    that no route treats. *)
Inductive payload (E : Type) : Type :=
  | Entity (e : E)
  | ErrorText (msg : string)
  | ErrorMessage (e : exn)
  | ErrorPage (e : exn).
Arguments Entity {E} e.
Arguments ErrorText {E} msg.
Arguments ErrorMessage {E} e.
Arguments ErrorPage {E} e.

Record response (E : Type) : Type := Response {
  status : nat;
  body : payload E
}.
Arguments Response {E} status body.
Arguments status {E} r.
Arguments body {E} r.

(** [res.json(e)] answers 200; [res.status(n).json({error: ...})]. *)
Definition res_json {E} (e : E) : response E := Response 200%nat (Entity e).
Definition res_status_error {E} (n : nat) (msg : string) : response E :=
  Response n (ErrorText msg).
Definition res_status_message {E} (n : nat) (e : exn) : response E :=
  Response n (ErrorMessage e).

(** ** The handler monad: state, exceptions and a log of array accesses

    [reads] records every indexed access of the [meals] array (a read, an
    assignment, a splice) as the index used and the array's length at that
    moment. *)

Record access : Type := Access { index : Z; len : nat }.

Definition in_bounds (a : access) : Prop := 0 <= index a < Z.of_nat (len a).

#[global] Instance in_bounds_dec a : Decision (in_bounds a).
Proof. unfold in_bounds. apply _. Defined.

Record outcome (S A : Type) : Type := Outcome {
  res : result A;
  final : S;
  reads : list access
}.
Arguments Outcome {S A} res final reads.
Arguments res {S A} o.
Arguments final {S A} o.
Arguments reads {S A} o.

Definition M (S A : Type) : Type := S -> outcome S A.

Definition ret {S A} (a : A) : M S A := fun s => Outcome (Ok a) s [].
Definition throw {S A} (e : exn) : M S A := fun s => Outcome (Throw e) s [].

Definition bind {S A B} (m : M S A) (f : A -> M S B) : M S B :=
  fun s =>
    let o := m s in
    match res o with
    | Ok a => let o' := f a (final o) in
              Outcome (res o') (final o') (reads o ++ reads o')
    | Throw e => Outcome (Throw e) (final o) (reads o)
    end.

Definition get {S} : M S S := fun s => Outcome (Ok s) s [].
Definition put {S} (s : S) : M S unit := fun _ => Outcome (Ok tt) s [].
Definition log_access {S} (i : Z) (n : nat) : M S unit :=
  fun s => Outcome (Ok tt) s [Access i n].
Definition lift_result {S A} (r : result A) : M S A :=
  fun s => Outcome r s [].

Notation "x <- m ;; k" := (bind m (fun x => k))
  (at level 100, m at next level, right associativity).
Notation "'run' m ;; k" := (bind m (fun _ => k))
  (at level 100, m at next level, right associativity).

(** [try { body } catch (error) { res.status(n).json({error: error.message}) }] *)
Definition try_catch {S E} (m : M S (response E)) (n : nat) (s : S)
  : outcome S (response E) :=
  let o := m s in
  match res o with
  | Ok r => o
  | Throw e => Outcome (Ok (res_status_message n e)) (final o) (reads o)
  end.

(** [try { body } catch (error) { res.status(n).json({error: 'text'}) }] *)
Definition try_catch_text {S E} (m : M S (response E)) (n : nat) (msg : string)
    (s : S) : outcome S (response E) :=
  let o := m s in
  match res o with
  | Ok r => o
  | Throw _ => Outcome (Ok (res_status_error n msg)) (final o) (reads o)
  end.

Definition answer {S E} (o : outcome S (response E)) : option (response E) :=
  match res o with Ok r => Some r | Throw _ => None end.

Definition status_of {S E} (o : outcome S (response E)) : option nat :=
  status <$> answer o.

(** ** Property access on parsed values

    [v.k] for the keys the handlers use ([name], [description], [photo]):
    reading a property of [null] throws; a number, string, boolean or array
    has no such property ([undefined]). *)
Definition get_field (v : json) (k : string) : result (option json) :=
  match v with
  | JNull => Throw TypeError
  | JObj m => Ok (m !! k)
  | _ => Ok None
  end.

(** [v.k = x] as seen through [JSON.stringify] (which is how the flat-file
    variant both stores and answers): on [null] it throws; on a number,
    string or boolean it is silently dropped (the file runs in sloppy mode);
    on an array the property is set but never serialised; on an object it is
    set, and a property holding [undefined] is not serialised. *)
Definition set_field (v : json) (k : string) (x : option json) : result json :=
  match v with
  | JNull => Throw TypeError
  | JObj m => Ok (JObj (match x with
                        | Some y => <[k := y]> m
                        | None => delete k m
                        end))
  | _ => Ok v
  end.

(** [JSON.parse(req.body.meal)]: the request carries the outcome of parsing
    its [meal] field, [None] when the field is absent or is not JSON text. *)
Definition JSON_parse (m : option json) : result json :=
  match m with Some v => Ok v | None => Throw SyntaxError end.

(** ** [validateMeal] (defined in both variants) *)

Definition requiredFields : list string := ["name"; "description"].

Fixpoint validate_fields (meal : json) (fields : list string) : result bool :=
  match fields with
  | [] => Ok true
  | field :: rest =>
      match get_field meal field with
      | Throw e => Throw e
      | Ok v =>
          if negb (truthy_opt v)
          then Throw (Error ("Missing required field: " +:+ field))
          else validate_fields meal rest
      end
  end.

Definition validateMeal (meal : json) : result bool :=
  validate_fields meal requiredFields.

(** ** The asset files and the photo-removal step

    Asset files are named by their path below the application directory, in
    the form the handlers build it: ['/uploads/' + filename]; the server is
    taken to run from that directory, so that the [uploads/] of the upload
    middleware and [path.join(__dirname, '/uploads/...')] are one place, and
    references are compared as written (no normalisation of the path).
    [locked] is the set of paths on which [fs.unlinkSync] fails (permission
    denied, disk error). *)

Record assets : Type := Assets {
  files : gset string;
  locked : gset string
}.

(** [path.join(__dirname, p)]: throws on anything but a string. *)
Definition path_join_dirname (p : option json) : result string :=
  match p with
  | Some (JStr s) => Ok s
  | _ => Throw TypeError
  end.

Definition existsSync (p : string) (a : assets) : bool :=
  bool_decide (p ∈ files a).

Definition unlinkSync (p : string) : M assets unit :=
  fun a =>
    if bool_decide (p ∈ files a) && negb (bool_decide (p ∈ locked a))
    then Outcome (Ok tt) (Assets (files a ∖ {[p]}) (locked a)) []
    else Outcome (Throw FsError) a [].

(** The step shared by the four PUT and DELETE handlers:
    [if (photo) { const p = path.join(__dirname, photo);
                  if (fs.existsSync(p)) { fs.unlinkSync(p); } }] *)
Definition removePhoto (photo : option json) : M assets unit :=
  if truthy_opt photo then
    p <- lift_result (path_join_dirname photo) ;;
    a <- get ;;
    if existsSync p a then unlinkSync p else ret tt
  else ret tt.

(** Running a computation on a component of the state. *)
Definition zoom {S T A} (proj : S -> T) (upd : T -> S -> S) (m : M T A) : M S A :=
  fun s =>
    let o := m (proj s) in
    Outcome (res o) (upd (final o) s) (reads o).

(** ** The upload middleware ([multer], [upload.single('photo')])

    [filename] is the name the [filename] callback of the disk storage
    generated for this upload (time stamp, random suffix, extension);
    [size] is the length of the content in bytes. *)

Record upload : Type := Upload {
  originalname : string;
  mimetype : string;
  size : Z;
  filename : string
}.

Definition fileFilter (file : upload) : bool :=
  String.prefix "image/" (mimetype file).

Definition fileSize : Z := 5 * 1024 * 1024.

Definition photo_path (file : upload) : string := "/uploads/" +:+ filename file.

(** The middleware stores an accepted file under [uploads/] before the
    handler runs; a file refused by [fileFilter], or longer than the
    [fileSize] limit, leaves no file and passes an error on instead of
    calling the handler. *)
Definition upload_single (file : option upload) : M assets unit :=
  match file with
  | None => ret tt
  | Some f =>
      if negb (fileFilter f) then throw (Error "Only image files are allowed!")
      else if fileSize <? size f then throw (MulterError "LIMIT_FILE_SIZE")
      else a <- get ;; put (Assets ({[photo_path f]} ∪ files a) (locked a))
  end.

(** A route [app.METHOD(path, upload.single('photo'), handler)].  Neither
    variant installs an error-handling middleware, so an error passed on by
    the upload middleware reaches Express' final handler, which answers 500
    for an error that carries no status of its own. *)
Definition route_with_upload {S E} (mw : M S unit)
    (handler : S -> outcome S (response E)) (s : S) : outcome S (response E) :=
  let o := mw s in
  match res o with
  | Ok _ => let o' := handler (final o) in
            Outcome (res o') (final o') (reads o ++ reads o')
  | Throw e => Outcome (Ok (Response 500%nat (ErrorPage e))) (final o) (reads o)
  end.

(** ** [parseInt(string)] with no radix

    Leading white space is skipped, then an optional sign, then an optional
    [0x]/[0X] prefix selecting radix 16; the longest run of digits of the
    radix is read; [None] is [NaN] (no digit).  Strings are ASCII. *)

Definition is_white_space (c : ascii) : bool :=
  match N_of_ascii c with
  | 9%N | 10%N | 11%N | 12%N | 13%N | 32%N => true
  | _ => false
  end.

Fixpoint trim_start (s : string) : string :=
  match s with
  | String c rest => if is_white_space c then trim_start rest else s
  | EmptyString => s
  end.

Definition digit_value (c : ascii) : option Z :=
  let n := Z.of_N (N_of_ascii c) in
  if (48 <=? n) && (n <=? 57) then Some (n - 48)
  else if (97 <=? n) && (n <=? 122) then Some (n - 87)
  else if (65 <=? n) && (n <=? 90) then Some (n - 55)
  else None.

Definition radix_digit (R : Z) (c : ascii) : option Z :=
  match digit_value c with
  | Some d => if d <? R then Some d else None
  | None => None
  end.

Fixpoint parse_digits (R : Z) (s : string) (acc : option Z) : option Z :=
  match s with
  | String c rest =>
      match radix_digit R c with
      | Some d => parse_digits R rest (Some (default 0 acc * R + d))
      | None => acc
      end
  | EmptyString => acc
  end.

Definition parseInt (s : string) : option Z :=
  let s1 := trim_start s in
  let '(sign, s2) :=
    match s1 with
    | String "-" rest => (-1, rest)
    | String "+" rest => (1, rest)
    | _ => (1, s1)
    end in
  let '(R, s3) :=
    match s2 with
    | String "0" (String "x" rest) => (16, rest)
    | String "0" (String "X" rest) => (16, rest)
    | _ => (10, s2)
    end in
  Z.mul sign <$> parse_digits R s3 None.

(** What a client sends: the [:id] path segment, the outcome of parsing the
    multipart [meal] field, the [heading] field, the [photo] file part, and
    (document-collection variant) the ObjectId the driver generates should
    the request create a document. *)
Record request : Type := Request {
  params_id : string;
  body_meal : option json;
  body_heading : option string;
  file : option upload;
  generated_id : string
}.

(** * The flat-file variant *)

Module FlatFile.

(** The document held by [data.json]: [{meals: [...], headings: ...}], the
    shape the server itself writes; the elements of [meals] are whatever
    JSON values were stored. *)
Record document : Type := Document {
  meals : list json;
  headings : option json
}.

Definition initialData : document := Document [] (Some (JArr [])).

(** [data_file] is [None] when [data.json] is missing, unreadable or does
    not hold a JSON document; [writable] tells whether
    [fs.writeFileSync(DATA_FILE, ...)] succeeds. *)
Record world : Type := World {
  data_file : option document;
  writable : bool;
  disk : assets
}.

Inductive entity : Type :=
  | EMeal (meal : json)
  | EData (data : document).

Definition on_disk {A} (m : M assets A) : M world A :=
  zoom disk (fun a w => World (data_file w) (writable w) a) m.

Definition writeData (data : document) : M world bool :=
  fun w =>
    if writable w
    then Outcome (Ok true) (World (Some data) (writable w) (disk w)) []
    else Outcome (Ok false) w [].

Definition readData : M world document :=
  w <- get ;;
  match data_file w with
  | Some parsedData => ret parsedData
  | None =>
      let initialData := initialData in
      run writeData initialData ;;
      ret initialData
  end.

(** [data.meals[i]], logged; [None] is [undefined]. *)
Definition meals_at (data : document) (i : Z) : M world (option json) :=
  run log_access i (length (meals data)) ;;
  ret (if i <? 0 then None else meals data !! Z.to_nat i).

(** [data.meals[i].photo] *)
Definition photo_at (data : document) (i : Z) : M world (option json) :=
  e <- meals_at data i ;;
  match e with
  | Some meal => lift_result (get_field meal "photo")
  | None => throw TypeError
  end.

(** [data.meals[i] = meal], logged. *)
Definition meals_set (data : document) (i : Z) (meal : json) : M world document :=
  run log_access i (length (meals data)) ;;
  ret (Document (<[Z.to_nat i := meal]> (meals data)) (headings data)).

(** [data.meals.splice(i, 1)], logged. *)
Definition meals_splice (data : document) (i : Z) : M world document :=
  run log_access i (length (meals data)) ;;
  ret (Document (delete (Z.to_nat i) (meals data)) (headings data)).

Definition not_found : response entity := res_status_error 404%nat "Meal not found".

(** [mealIndex >= 0 && mealIndex < data.meals.length]; both comparisons are
    false on [NaN]. *)
Definition index_ok (mealIndex : option Z) (data : document) : bool :=
  match mealIndex with
  | Some i => (0 <=? i) && (i <? Z.of_nat (length (meals data)))
  | None => false
  end.

(** [app.get('/api/data', ...)] *)
Definition GET_data : world -> outcome world (response entity) :=
  try_catch_text (data <- readData ;; ret (res_json (EData data)))
                 500%nat "Failed to load data".

(** [app.post('/api/meals', upload.single('photo'), ...)] *)
Definition post_meal (req : request) : M world (response entity) :=
  data <- readData ;;
  meal <- lift_result (JSON_parse (body_meal req)) ;;
  meal <- lift_result
            (set_field meal "photo"
               (Some (JStr (match file req with
                            | Some f => photo_path f
                            | None => ""
                            end)))) ;;
  let data := Document (meals data ++ [meal]) (headings data) in
  ok <- writeData data ;;
  if negb ok then throw (Error "Failed to save data")
  else ret (res_json (EMeal meal)).

Definition POST_meals (req : request) : world -> outcome world (response entity) :=
  route_with_upload (on_disk (upload_single (file req)))
                    (try_catch (post_meal req) 400%nat).

(** [app.put('/api/meals/:id', upload.single('photo'), ...)] *)
Definition put_meal (req : request) : M world (response entity) :=
  data <- readData ;;
  let mealIndex := parseInt (params_id req) in
  if index_ok mealIndex data then
    let i := default 0 mealIndex in
    updatedMeal <- lift_result (JSON_parse (body_meal req)) ;;
    updatedMeal <-
      match file req with
      | Some f =>
          old <- photo_at data i ;;
          run (if truthy_opt old
               then (old <- photo_at data i ;; on_disk (removePhoto old))
               else ret tt) ;;
          lift_result (set_field updatedMeal "photo" (Some (JStr (photo_path f))))
      | None =>
          old <- photo_at data i ;;
          lift_result (set_field updatedMeal "photo" old)
      end ;;
    data <- meals_set data i updatedMeal ;;
    ok <- writeData data ;;
    if negb ok then throw (Error "Failed to save data")
    else ret (res_json (EMeal updatedMeal))
  else ret not_found.

Definition PUT_meals (req : request) : world -> outcome world (response entity) :=
  route_with_upload (on_disk (upload_single (file req)))
                    (try_catch (put_meal req) 400%nat).

(** [app.delete('/api/meals/:id', ...)] *)
Definition delete_meal (req : request) : M world (response entity) :=
  data <- readData ;;
  let mealIndex := parseInt (params_id req) in
  if index_ok mealIndex data then
    let i := default 0 mealIndex in
    deletedMeal <- meals_at data i ;;
    photo <- match deletedMeal with
             | Some meal => lift_result (get_field meal "photo")
             | None => throw TypeError
             end ;;
    run on_disk (removePhoto photo) ;;
    data <- meals_splice data i ;;
    ok <- writeData data ;;
    if negb ok then throw (Error "Failed to save data")
    else match deletedMeal with
         | Some meal => ret (res_json (EMeal meal))
         | None => throw TypeError
         end
  else ret not_found.

Definition DELETE_meals (req : request) : world -> outcome world (response entity) :=
  try_catch (delete_meal req) 400%nat.

(** The property [k] of the record stored at position [i] of the data
    file, [None] when there is no such record or no such property. *)
Definition stored_field (w : world) (i : nat) (k : string) : option json :=
  d ← data_file w; meal ← meals d !! i;
  match get_field meal k with Ok v => v | Throw _ => None end.

Definition stored_photo (w : world) (i : nat) : option json :=
  stored_field w i "photo".

End FlatFile.

(** * The document-collection variant

    Mongoose and the database are modelled by what the handlers rely on:
    a collection of documents under their [_id], queries by id that reject
    an id they cannot cast, [set] and [new Meal] that cast the paths of the
    schema ([_id] and the version key [__v] included) and ignore other
    keys, [save] that reports a failed cast as a validation error, inserts
    a new document and updates a loaded one by its [_id], and operations
    that are rejected when the database does not answer. *)

Module Mongo.

(** The paths of a [Meal] document of [mealSchema]; [None] is an unset (or
    null) path, [heading] holds the id of a [Heading].  The collection maps
    the [_id] of each document to its paths. *)
Record MealDoc : Type := Meal {
  name : option string;
  description : option string;
  photo : option string;
  halfServe : option bool;
  heading : option string
}.

(** Mongoose casts what it is given to the type the schema declares for the
    path: [String], [Boolean], [ObjectId], and [Number] for the version key.
    The outer [None] is a failed cast, the inner one a null.  A string cast
    to [String] is itself. *)
Class SchemaCasts : Type := {
  castString : json -> option (option string);
  castBoolean : json -> option (option bool);
  castObjectId : json -> option (option string);
  castNumber : json -> option (option Z);
  castString_string : forall s, castString (JStr s) = Some (Some s)
}.

(** [db_up] tells whether the database answers; every operation on the
    collection is rejected when it does not. *)
Record world : Type := World {
  meals : gmap string MealDoc;
  headings : gmap string string;
  db_up : bool;
  disk : assets
}.

(** What a route answers.  The [_id] of an answered meal is that of the
    document in memory, which is null ([None]) when the client supplied a
    null [_id]. *)
Inductive entity : Type :=
  | EMeal (_id : option string) (meal : MealDoc)
  | EData (meals : list (string * MealDoc))
  | EHeadings (headings : list (string * string))
  | ESuccess.

(** A document in memory: its id and paths, the paths as they were read
    from the collection (a path is modified when its value differs from
    them), whether a [set] met a value it could not cast (reported by [save]
    as a validation error), and whether it was made by [new Meal] rather
    than read from the collection. *)
Record hydrated : Type := Hydrated {
  _id : option string;
  doc : MealDoc;
  stored : MealDoc;
  invalid : bool;
  isNew : bool
}.

Definition on_disk {A} (m : M assets A) : M world A :=
  zoom disk (fun a w => World (meals w) (headings w) (db_up w) a) m.

Definition connected : M world unit :=
  w <- get ;; if db_up w then ret tt else throw MongoError.

Section Casts.
Context `{!SchemaCasts}.

(** The id of a query: a value that does not cast is a [CastError]. *)
Definition cast_id (id : string) : M world string :=
  match castObjectId (JStr id) with
  | Some (Some oid) => ret oid
  | _ => throw CastError
  end.

(** [Meal.findById(id)] *)
Definition findById (id : string) : M world (option (string * MealDoc)) :=
  oid <- cast_id id ;;
  run connected ;;
  w <- get ;;
  ret (pair oid <$> meals w !! oid).

(** [Meal.find()] *)
Definition find : M world (list (string * MealDoc)) :=
  run connected ;;
  w <- get ;;
  ret (map_to_list (meals w)).

(** [Heading.find()] *)
Definition find_headings : M world (list (string * string)) :=
  run connected ;;
  w <- get ;;
  ret (map_to_list (headings w)).

(** [Heading.findByIdAndDelete(id)] *)
Definition findByIdAndDelete (id : string) : M world (option string) :=
  oid <- cast_id id ;;
  run connected ;;
  w <- get ;;
  run put (World (meals w) (delete oid (headings w)) (db_up w) (disk w)) ;;
  ret (headings w !! oid).

(** Setting one schema path from the value supplied for it, if any. *)
Definition set_path {A} (cast : json -> option (option A))
    (supplied : option json) (old : option A) : option A * bool :=
  match supplied with
  | None => (old, false)
  | Some v =>
      match cast v with
      | Some x => (x, false)
      | None => (old, true)
      end
  end.

(** [meal.set(fields)]: the paths of the schema that [fields] names are
    set, its other keys are ignored (strict mode; the virtual [id] has no
    setter).  [_id] and the version key [__v] are paths of every schema: a
    supplied [_id] replaces the id of the document in memory, and a
    supplied [__v] must cast to a number (the version itself is not one of
    the paths of [MealDoc]). *)
Definition set_fields (fields : gmap string json) (h : hydrated) : hydrated :=
  let d := doc h in
  let '(n, e1) := set_path castString (fields !! "name") (name d) in
  let '(de, e2) := set_path castString (fields !! "description") (description d) in
  let '(p, e3) := set_path castString (fields !! "photo") (photo d) in
  let '(hs, e4) := set_path castBoolean (fields !! "halfServe") (halfServe d) in
  let '(hd, e5) := set_path castObjectId (fields !! "heading") (heading d) in
  let '(i, e6) := set_path castObjectId (fields !! "_id") (_id h) in
  let '(_, e7) := set_path castNumber (fields !! "__v") None in
  Hydrated i (Meal n de p hs hd) (stored h)
           (invalid h || e1 || e2 || e3 || e4 || e5 || e6 || e7) (isNew h).

(** The named properties of a parsed value that Mongoose goes through. *)
Definition own_fields (v : json) : gmap string json :=
  match v with JObj m => m | _ => ∅ end.

(** [v.k = x] on the value in memory: throws on [null], is dropped on a
    number, string or boolean, and adds a named property to an array (whose
    index keys name no path of the schema). *)
Definition assign (v : json) (k : string) (x : option json) : result json :=
  match v with
  | JArr _ => set_field (JObj ∅) k x
  | _ => set_field v k x
  end.

Definition set (v : json) (h : hydrated) : hydrated :=
  set_fields (own_fields v) h.

(** [new Meal(mealData)]: the document is given the generated id [id],
    then set from [mealData], whose [_id], if it has one, replaces it. *)
Definition new_Meal (id : string) (mealData : json) : result hydrated :=
  match mealData with
  | JObj _ | JArr _ =>
      let empty := Meal None None None None None in
      Ok (set mealData (Hydrated (Some id) empty empty false true))
  | _ => Throw ObjectParameterError
  end.

(** A modified path of a loaded document (one whose value in memory
    differs from the value read) is written to the document the update
    matches; the other paths of that document are left alone. *)
Definition changed {A} `{EqDecision A} (old new target : option A) : option A :=
  if decide (new = old) then target else new.

Definition apply_changes (old new target : MealDoc) : MealDoc :=
  Meal (changed (name old) (name new) (name target))
       (changed (description old) (description new) (description target))
       (changed (photo old) (photo new) (photo target))
       (changed (halfServe old) (halfServe new) (halfServe target))
       (changed (heading old) (heading new) (heading target)).

(** [meal.save()].  Validation comes first.  A new document is inserted
    under its [_id], the driver generating one ([fresh]) for a document
    whose [_id] is null; an id already in use is a duplicate key.  A loaded
    document is saved by [updateOne({ _id: meal._id }, { $set: modified })]:
    the update is looked up by the id the document has in memory, and
    matching no document is a [DocumentNotFoundError]. *)
Definition save (fresh : string) (h : hydrated) : M world unit :=
  if invalid h then throw ValidationError
  else
    run connected ;;
    w <- get ;;
    if isNew h then
      let key := default fresh (_id h) in
      if bool_decide (is_Some (meals w !! key)) then throw MongoError
      else put (World (<[key := doc h]> (meals w)) (headings w) (db_up w) (disk w))
    else
      match _id h with
      | Some key =>
          match meals w !! key with
          | Some target =>
              put (World (<[key := apply_changes (stored h) (doc h) target]> (meals w))
                         (headings w) (db_up w) (disk w))
          | None => throw DocumentNotFoundError
          end
      | None => throw DocumentNotFoundError
      end.

(** [meal.deleteOne()] *)
Definition deleteOne (id : string) : M world unit :=
  run connected ;;
  w <- get ;;
  put (World (delete id (meals w)) (headings w) (db_up w) (disk w)).

(** [app.get('/api/data', ...)] *)
Definition GET_data : world -> outcome world (response entity) :=
  try_catch_text (meals <- find ;; ret (res_json (EData meals)))
                 500%nat "Failed to load data".

(** [app.get('/api/headings', ...)] *)
Definition GET_headings : world -> outcome world (response entity) :=
  try_catch (headings <- find_headings ;; ret (res_json (EHeadings headings))) 500%nat.

(** [app.post('/api/meals', upload.single('photo'), ...)] *)
Definition post_meal (req : request) : M world (response entity) :=
  mealData <- lift_result (JSON_parse (body_meal req)) ;;
  mealData <- lift_result
                (assign mealData "photo"
                   (Some (JStr (match file req with
                                | Some f => photo_path f
                                | None => ""
                                end)))) ;;
  mealData <- match body_heading req with
              | Some h => if negb (String.eqb h "")
                          then lift_result (assign mealData "heading" (Some (JStr h)))
                          else ret mealData
              | None => ret mealData
              end ;;
  meal <- lift_result (new_Meal (generated_id req) mealData) ;;
  run save (generated_id req) meal ;;
  ret (res_json (EMeal (_id meal) (doc meal))).

Definition POST_meals (req : request) : world -> outcome world (response entity) :=
  route_with_upload (on_disk (upload_single (file req)))
                    (try_catch (post_meal req) 400%nat).

Definition not_found : response entity := res_status_error 404%nat "Meal not found".

(** [app.put('/api/meals/:id', upload.single('photo'), ...)] *)
Definition put_meal (req : request) : M world (response entity) :=
  let mealId := params_id req in
  updatedMealData <- lift_result (JSON_parse (body_meal req)) ;;
  meal <- findById mealId ;;
  match meal with
  | None => ret not_found
  | Some (oid, meal) =>
      newPhoto <-
        match file req with
        | Some f =>
            run on_disk (removePhoto (JStr <$> photo meal)) ;;
            ret (Some (photo_path f))
        | None => ret (photo meal)
        end ;;
      updatedMealData <- lift_result (assign updatedMealData "photo" (JStr <$> newPhoto)) ;;
      let meal := set updatedMealData (Hydrated (Some oid) meal meal false false) in
      run save (generated_id req) meal ;;
      ret (res_json (EMeal (_id meal) (doc meal)))
  end.

Definition PUT_meals (req : request) : world -> outcome world (response entity) :=
  route_with_upload (on_disk (upload_single (file req)))
                    (try_catch (put_meal req) 400%nat).

(** [app.delete('/api/meals/:id', ...)] *)
Definition delete_meal (req : request) : M world (response entity) :=
  let mealId := params_id req in
  meal <- findById mealId ;;
  match meal with
  | None => ret not_found
  | Some (oid, meal) =>
      run on_disk (removePhoto (JStr <$> photo meal)) ;;
      run deleteOne oid ;;
      ret (res_json (EMeal (Some oid) meal))
  end.

Definition DELETE_meals (req : request) : world -> outcome world (response entity) :=
  try_catch (delete_meal req) 400%nat.

(** [app.delete('/api/headings/:id', ...)] *)
Definition delete_heading (req : request) : M world (response entity) :=
  let headingId := params_id req in
  heading <- findByIdAndDelete headingId ;;
  match heading with
  | None => ret (res_status_error 404%nat "Heading not found")
  | Some _ => ret (res_json ESuccess)
  end.

Definition DELETE_headings (req : request) : world -> outcome world (response entity) :=
  try_catch (delete_heading req) 400%nat.

End Casts.

(** A concrete casting, for running the handlers: strings and null cast to
    [String], other scalars by their text; booleans, null and the values
    Mongoose converts ([1], ['1'], ['true'], ['yes'] and [0], ['0'],
    ['false'], ['no']) to [Boolean]; a string of 24 hexadecimal digits, or
    null, to [ObjectId]; numbers, booleans, null, the empty string (null)
    and strings of decimal digits to [Number] (the other numeric spellings
    [Number(string)] accepts are left out of this sample). *)
Definition is_hex (c : ascii) : bool :=
  match digit_value c with Some d => d <? 16 | None => false end.

Definition is_object_id (s : string) : bool :=
  (String.length s =? 24)%nat && forallb is_hex (list_ascii_of_string s).

Definition default_castString (v : json) : option (option string) :=
  match v with
  | JNull => Some None
  | JStr s => Some (Some s)
  | JBool b => Some (Some (if b then "true" else "false"))
  | JNum z => Some (Some (pretty z))
  | JArr _ | JObj _ => None
  end.

Definition default_castBoolean (v : json) : option (option bool) :=
  match v with
  | JNull => Some None
  | JBool b => Some (Some b)
  | JNum 1 | JStr "1" | JStr "true" | JStr "yes" => Some (Some true)
  | JNum 0 | JStr "0" | JStr "false" | JStr "no" => Some (Some false)
  | _ => None
  end.

Definition default_castObjectId (v : json) : option (option string) :=
  match v with
  | JNull => Some None
  | JStr s => if is_object_id s then Some (Some s) else None
  | _ => None
  end.

Definition is_decimal (c : ascii) : bool :=
  match radix_digit 10 c with Some _ => true | None => false end.

Definition default_castNumber (v : json) : option (option Z) :=
  match v with
  | JNull | JStr "" => Some None
  | JNum z => Some (Some z)
  | JBool b => Some (Some (if b then 1 else 0))
  | JStr s => if forallb is_decimal (list_ascii_of_string s)
              then Some (parse_digits 10 s None) else None
  | JArr _ | JObj _ => None
  end.

Definition default_casts : SchemaCasts :=
  {| castString := default_castString;
     castBoolean := default_castBoolean;
     castObjectId := default_castObjectId;
     castNumber := default_castNumber;
     castString_string := fun s => eq_refl |}.

End Mongo.

(** * The heading routes of both variants

    [POST /api/headings] and [PUT /api/headings/:id] (document collection),
    [PUT /api/headings] (flat file).  Their requests carry a JSON body, of
    which the handlers read [name], respectively [headings]. *)

Module Headings.

(** The [:id] path segment, the [name] and [headings] properties of the
    JSON body ([None] when the body has no such property), and the ObjectId
    the driver generates should the request create a document. *)
Record request : Type := Request {
  params_id : string;
  body_name : option json;
  body_headings : option json;
  generated_id : string
}.

(** A heading as answered: its [_id] and [name]. *)
Definition heading : Type := (string * string)%type.

(** [app.put('/api/headings', ...)] of the flat-file variant *)
Definition put_headings (req : request) : M FlatFile.world (response (option json)) :=
  data <- FlatFile.readData ;;
  let data := FlatFile.Document (FlatFile.meals data) (body_headings req) in
  ok <- FlatFile.writeData data ;;
  if negb ok then throw (Error "Failed to save data")
  else ret (res_json (FlatFile.headings data)).

Definition PUT_headings (req : request)
  : FlatFile.world -> outcome FlatFile.world (response (option json)) :=
  try_catch (put_headings req) 400%nat.

Section Casts.
Context `{!Mongo.SchemaCasts}.

(** [heading.save()] of a document made by [new Heading({ name })]: the
    schema requires [name], so a name that is unset, null or empty, or a
    value that does not cast to a string, is a validation error. *)
Definition save_heading (id : string) (name : option json) : M Mongo.world heading :=
  let '(name, invalid) := Mongo.set_path Mongo.castString name None in
  match name with
  | Some s =>
      if invalid || String.eqb s "" then throw ValidationError
      else
        run Mongo.connected ;;
        w <- get ;;
        if bool_decide (is_Some (Mongo.headings w !! id)) then throw MongoError
        else
          run put (Mongo.World (Mongo.meals w) (<[id := s]> (Mongo.headings w))
                               (Mongo.db_up w) (Mongo.disk w)) ;;
          ret (id, s)
  | None => throw ValidationError
  end.

(** [app.post('/api/headings', ...)] *)
Definition post_heading (req : request) : M Mongo.world (response heading) :=
  heading <- save_heading (generated_id req) (body_name req) ;;
  ret (res_json heading).

Definition POST_headings (req : request)
  : Mongo.world -> outcome Mongo.world (response heading) :=
  try_catch (post_heading req) 400%nat.

(** The string a truthy [name] is cast to by an update.  Mongoose casts
    only null to null, which [!name] has excluded; the empty name stands
    for that result. *)
Definition cast_name (name : option json) : result string :=
  match name with
  | Some v =>
      match Mongo.castString v with
      | Some (Some s) => Ok s
      | Some None => Ok ""
      | None => Throw CastError
      end
  | None => Ok ""
  end.

(** [Heading.findByIdAndUpdate(id, { name }, { new: true })] *)
Definition findByIdAndUpdate (id : string) (name : option json)
  : M Mongo.world (option heading) :=
  oid <- Mongo.cast_id id ;;
  newName <- lift_result (cast_name name) ;;
  run Mongo.connected ;;
  w <- get ;;
  match Mongo.headings w !! oid with
  | Some _ =>
      run put (Mongo.World (Mongo.meals w) (<[oid := newName]> (Mongo.headings w))
                           (Mongo.db_up w) (Mongo.disk w)) ;;
      ret (Some (oid, newName))
  | None => ret None
  end.

(** [app.put('/api/headings/:id', ...)] *)
Definition put_heading (req : request) : M Mongo.world (response heading) :=
  let headingId := params_id req in
  let name := body_name req in
  if negb (truthy_opt name)
  then ret (res_status_error 400%nat "Heading name is required")
  else
    heading <- findByIdAndUpdate headingId name ;;
    match heading with
    | None => ret (res_status_error 404%nat "Heading not found")
    | Some heading => ret (res_json heading)
    end.

Definition PUT_heading (req : request)
  : Mongo.world -> outcome Mongo.world (response heading) :=
  try_catch (put_heading req) 400%nat.

End Casts.

End Headings.

(** * Notions used in the statements *)

(** The upload, if any, passes the filter and the size limit of the upload
    middleware. *)
Definition accepted (file : option upload) : bool :=
  match file with
  | None => true
  | Some f => fileFilter f && (size f <=? fileSize)
  end.

(** The document the flat-file handlers work on once [readData] has
    returned. *)
Definition loaded (w : FlatFile.world) : FlatFile.document :=
  default FlatFile.initialData (FlatFile.data_file w).

(** The disk once [readData] has returned. *)
Definition after_read (w : FlatFile.world) : FlatFile.world :=
  match FlatFile.data_file w with
  | Some _ => w
  | None => if FlatFile.writable w
            then FlatFile.World (Some FlatFile.initialData) true (FlatFile.disk w)
            else w
  end.

(** The disk once the upload middleware has stored an accepted file. *)
Definition flat_stored (file : option upload) (w : FlatFile.world) : FlatFile.world :=
  match file with
  | Some f => FlatFile.World (FlatFile.data_file w) (FlatFile.writable w)
                (Assets ({[photo_path f]} ∪ files (FlatFile.disk w))
                        (locked (FlatFile.disk w)))
  | None => w
  end.

Definition mongo_stored (file : option upload) (w : Mongo.world) : Mongo.world :=
  match file with
  | Some f => Mongo.World (Mongo.meals w) (Mongo.headings w) (Mongo.db_up w)
                (Assets ({[photo_path f]} ∪ files (Mongo.disk w))
                        (locked (Mongo.disk w)))
  | None => w
  end.

(** [data.meals[i]] and [data.meals[i].photo] as values. *)
Definition element (data : FlatFile.document) (i : Z) : option json :=
  if i <? 0 then None else FlatFile.meals data !! Z.to_nat i.

Definition photo_read (data : FlatFile.document) (i : Z) : result (option json) :=
  match element data i with
  | Some meal => get_field meal "photo"
  | None => Throw TypeError
  end.

(** The photo step of the document-collection PUT, and the [photo] the
    document is given after it. *)
Definition photo_step (file : option upload) (meal : Mongo.MealDoc) (a : assets)
  : outcome assets unit :=
  match file with
  | Some _ => removePhoto (JStr <$> Mongo.photo meal) a
  | None => Outcome (Ok tt) a []
  end.

Definition new_photo (file : option upload) (meal : Mongo.MealDoc) : option string :=
  match file with
  | Some f => Some (photo_path f)
  | None => Mongo.photo meal
  end.


(** Every indexed access a computation makes is within the array. *)
Definition safe {S A} (m : M S A) : Prop :=
  forall s, Forall in_bounds (reads (m s)).

(** The value the parsed meal field supplies for a path, if any (an array,
    number, string or boolean supplies none), and the [_id] the body of a
    request names, if any. *)
Definition supplied (parsed : json) (k : string) : option json :=
  Mongo.own_fields parsed !! k.

Definition body_id (req : request) : option json :=
  body_meal req ≫= fun parsed => supplied parsed "_id".

(** A path is overwritten by the (cast) value supplied for it, and keeps
    its value when none is supplied. *)
Definition overwrites {A} (cast : json -> option (option A))
    (supplied : option json) (old new : option A) : Prop :=
  match supplied with
  | Some v => cast v = Some new
  | None => new = old
  end.

(** ** Sample data: one meal with a photo, in each variant *)

Definition ex_soup : json :=
  JObj {[ "name" := JStr "Soup"; "description" := JStr "Tomato soup";
          "halfServe" := JBool true; "photo" := JStr "/uploads/soup.png" ]}.

Definition ex_rename : gmap string json := {[ "name" := JStr "Stew" ]}.

Definition ex_oid : string := "65f0a1b2c3d4e5f6a7b8c9d0".

Definition ex_meal : Mongo.MealDoc :=
  Mongo.Meal (Some "Soup") (Some "Tomato soup") (Some "/uploads/soup.png")
             (Some true) None.

Definition ex_png : upload := Upload "stew.png" "image/png" 2048 "1700000000000-42.png".

Definition ex_fw : FlatFile.world :=
  FlatFile.World (Some (FlatFile.Document [ex_soup] (Some (JArr [])))) true
                 (Assets {[ "/uploads/soup.png" ]} ∅).

Definition ex_mw : Mongo.world :=
  Mongo.World {[ ex_oid := ex_meal ]} ∅ true (Assets {[ "/uploads/soup.png" ]} ∅).

(** A second meal, without a photo, and the collection holding both. *)
Definition ex_oid2 : string := "65f0a1b2c3d4e5f6a7b8c9d1".

Definition ex_salad : Mongo.MealDoc :=
  Mongo.Meal (Some "Salad") (Some "Green salad") None None None.

Definition ex_mw2 : Mongo.world :=
  Mongo.World {[ ex_oid := ex_meal; ex_oid2 := ex_salad ]} ∅ true
              (Assets {[ "/uploads/soup.png" ]} ∅).

(** PUT /api/meals/[id] renaming the meal, with or without a new photo. *)
Definition ex_put (id : string) (file : option upload) : request :=
  Request id (Some (JObj ex_rename)) None file "".

(** PUT /api/meals/[id] renaming the meal, the body naming the [_id]
    [other]. *)
Definition ex_put_as (id other : string) : request :=
  Request id (Some (JObj {[ "_id" := JStr other; "name" := JStr "Stew" ]}))
          None None "".

(** DELETE /api/meals/[id]. *)
Definition ex_delete (id : string) : request := Request id None None None "".

(** PUT /api/meals/[id] whose [name] is an object, which no String path
    takes. *)
Definition ex_bad_put (id : string) (file : option upload) : request :=
  Request id (Some (JObj {[ "name" := JObj ∅ ]})) None file "".

(** POST /api/meals with a photo, the driver generating [id]. *)
Definition ex_post (id : string) : request :=
  Request "" (Some ex_soup) None (Some ex_png) id.

(** Every character of the string is a digit of radix [R]. *)
Fixpoint all_digits (R : Z) (s : string) : bool :=
  match s with
  | EmptyString => true
  | String c rest =>
      match radix_digit R c with
      | Some _ => all_digits R rest
      | None => false
      end
  end.

(** * Properties *)

(** ** [parseInt] on a few path segments *)

Example parseInt_12 : parseInt "12" = Some 12. Proof. reflexivity. Qed.
Example parseInt_1abc : parseInt " 1abc" = Some 1. Proof. reflexivity. Qed.
Example parseInt_hex : parseInt "0x1f" = Some 31. Proof. reflexivity. Qed.
Example parseInt_neg : parseInt "-7" = Some (-7). Proof. reflexivity. Qed.
Example parseInt_abc : parseInt "abc" = None. Proof. reflexivity. Qed.
Example parseInt_empty_hex : parseInt "0x" = None. Proof. reflexivity. Qed.

Section MonadLemmas.
Context {S : Type}.

Lemma bind_ok {A B} (m : M S A) (f : A -> M S B) s a s' l :
  m s = Outcome (Ok a) s' l ->
  bind m f s = Outcome (res (f a s')) (final (f a s')) (l ++ reads (f a s')).
Proof. intros H. unfold bind. rewrite H. reflexivity. Qed.

Lemma bind_throw {A B} (m : M S A) (f : A -> M S B) s e s' l :
  m s = Outcome (Throw e) s' l ->
  bind m f s = Outcome (Throw e) s' l.
Proof. intros H. unfold bind. rewrite H. reflexivity. Qed.

Lemma outcome_eta {A} (o : outcome S A) : Outcome (res o) (final o) (reads o) = o.
Proof. destruct o; reflexivity. Qed.

Lemma try_catch_status_throw {E} (m : M S (response E)) n s e :
  res (m s) = Throw e -> status_of (try_catch m n s) = Some n.
Proof. intros H. unfold status_of, answer, try_catch. rewrite H. reflexivity. Qed.

End MonadLemmas.

Lemma upload_single_accepted file a :
  accepted file = true ->
  upload_single file a =
    Outcome (Ok tt)
      (match file with
       | Some f => Assets ({[photo_path f]} ∪ files a) (locked a)
       | None => a
       end) [].
Proof.
  destruct file as [f|]; [|reflexivity].
  simpl. intros [Hf Hs]%andb_true_iff. rewrite Hf. simpl.
  apply Z.leb_le in Hs. destruct (Z.ltb_spec fileSize (size f)); [lia|].
  reflexivity.
Qed.

Lemma upload_single_rejected f a :
  fileFilter f = false \/ fileSize < size f ->
  exists e, upload_single (Some f) a = Outcome (Throw e) a [].
Proof.
  intros H. simpl. destruct (fileFilter f) eqn:Hf; simpl.
  - destruct H as [H|H]; [discriminate|].
    apply Z.ltb_lt in H. rewrite H. eauto.
  - eauto.
Qed.

(** ** The flat-file variant: what [readData] and the handlers compute *)

Lemma readData_run w :
  FlatFile.readData w = Outcome (Ok (loaded w)) (after_read w) [].
Proof.
  unfold FlatFile.readData, loaded, after_read, bind, get. simpl.
  destruct (FlatFile.data_file w) as [d|] eqn:Hd; simpl; [reflexivity|].
  unfold FlatFile.writeData.
  destruct (FlatFile.writable w) eqn:Hw; simpl; rewrite ?Hw; reflexivity.
Qed.

Lemma after_read_readable w :
  is_Some (FlatFile.data_file w) -> after_read w = w.
Proof. intros [d Hd]. unfold after_read. rewrite Hd. reflexivity. Qed.

Lemma after_read_disk w : FlatFile.disk (after_read w) = FlatFile.disk w.
Proof.
  unfold after_read.
  destruct (FlatFile.data_file w), (FlatFile.writable w); reflexivity.
Qed.

Lemma after_read_writable w : FlatFile.writable (after_read w) = FlatFile.writable w.
Proof.
  unfold after_read.
  destruct (FlatFile.data_file w), (FlatFile.writable w) eqn:E; simpl; congruence.
Qed.

Lemma index_ok_false (id : string) (data : FlatFile.document) :
  (forall i, parseInt id = Some i ->
             ~ (0 <= i < Z.of_nat (length (FlatFile.meals data)))) ->
  FlatFile.index_ok (parseInt id) data = false.
Proof.
  intros H. unfold FlatFile.index_ok.
  destruct (parseInt id) as [i|]; [|reflexivity].
  specialize (H i eq_refl).
  destruct (Z.leb_spec 0 i), (Z.ltb_spec i (Z.of_nat (length (FlatFile.meals data))));
    simpl; try reflexivity; lia.
Qed.

Lemma put_meal_not_found req w :
  FlatFile.index_ok (parseInt (params_id req)) (loaded w) = false ->
  FlatFile.put_meal req w = Outcome (Ok FlatFile.not_found) (after_read w) [].
Proof.
  intros H. unfold FlatFile.put_meal.
  rewrite (bind_ok _ _ _ _ _ _ (readData_run w)). rewrite H. reflexivity.
Qed.

Lemma delete_meal_not_found req w :
  FlatFile.index_ok (parseInt (params_id req)) (loaded w) = false ->
  FlatFile.delete_meal req w = Outcome (Ok FlatFile.not_found) (after_read w) [].
Proof.
  intros H. unfold FlatFile.delete_meal.
  rewrite (bind_ok _ _ _ _ _ _ (readData_run w)). rewrite H. reflexivity.
Qed.

Lemma flat_route_accepted file (h : FlatFile.world -> outcome _ (response FlatFile.entity)) w :
  accepted file = true ->
  route_with_upload (FlatFile.on_disk (upload_single file)) h w = h (flat_stored file w).
Proof.
  intros Ha. unfold route_with_upload, FlatFile.on_disk, zoom.
  rewrite (upload_single_accepted _ _ Ha). simpl.
  destruct file; simpl; destruct w; simpl; apply outcome_eta.
Qed.

Lemma flat_route_rejected f (h : FlatFile.world -> outcome _ (response FlatFile.entity)) w :
  fileFilter f = false \/ fileSize < size f ->
  exists e, route_with_upload (FlatFile.on_disk (upload_single (Some f))) h w
            = Outcome (Ok (Response 500%nat (ErrorPage e))) w [].
Proof.
  intros H. destruct (upload_single_rejected f (FlatFile.disk w) H) as [e He].
  exists e. unfold route_with_upload, FlatFile.on_disk, zoom. rewrite He. simpl.
  destruct w; reflexivity.
Qed.

Lemma index_ok_true mealIndex data :
  FlatFile.index_ok mealIndex data = true ->
  exists i, mealIndex = Some i /\ 0 <= i < Z.of_nat (length (FlatFile.meals data)).
Proof.
  unfold FlatFile.index_ok. destruct mealIndex as [i|]; [|discriminate].
  intros [H1 H2]%andb_true_iff. apply Z.leb_le in H1. apply Z.ltb_lt in H2.
  eauto.
Qed.

Lemma try_catch_reads {S E} (m : M S (response E)) n s :
  reads (try_catch m n s) = reads (m s).
Proof. unfold try_catch. destruct (res (m s)); reflexivity. Qed.

Lemma try_catch_final {S E} (m : M S (response E)) n s :
  final (try_catch m n s) = final (m s).
Proof. unfold try_catch. destruct (res (m s)); reflexivity. Qed.

(** ** Every indexed access of the [meals] array is within its bounds *)

Lemma safe_bind {S A B} (m : M S A) (f : A -> M S B) :
  safe m -> (forall a, safe (f a)) -> safe (bind m f).
Proof.
  intros Hm Hf s. unfold bind. specialize (Hm s).
  destruct (res (m s)); simpl; [|assumption].
  apply Forall_app. split; [assumption | apply Hf].
Qed.

Lemma safe_ret {S A} (a : A) : safe (@ret S A a).
Proof. intros s. constructor. Qed.

Lemma safe_throw {S A} e : safe (@throw S A e).
Proof. intros s. constructor. Qed.

Lemma safe_lift_result {S A} (r : result A) : safe (@lift_result S A r).
Proof. intros s. constructor. Qed.

Lemma safe_get {S} : safe (@get S).
Proof. intros s. constructor. Qed.

Lemma safe_put {S} (s0 : S) : safe (put s0).
Proof. intros s. constructor. Qed.

Lemma safe_zoom {S T A} (proj : S -> T) upd (m : M T A) :
  safe m -> safe (zoom proj upd m).
Proof. intros H s. apply H. Qed.

Lemma safe_log_access {S} i n :
  0 <= i < Z.of_nat n -> safe (@log_access S i n).
Proof. intros H s. simpl. constructor; [exact H | constructor]. Qed.

Lemma safe_unlinkSync p : safe (unlinkSync p).
Proof. intros a. unfold unlinkSync. case_match; constructor. Qed.

Lemma safe_removePhoto photo : safe (removePhoto photo).
Proof.
  unfold removePhoto. case_match; [|apply safe_ret].
  apply safe_bind; [apply safe_lift_result|]. intros p.
  apply safe_bind; [apply safe_get|]. intros a.
  case_match; [apply safe_unlinkSync | apply safe_ret].
Qed.

Lemma safe_writeData data : safe (FlatFile.writeData data).
Proof. intros w. unfold FlatFile.writeData. case_match; constructor. Qed.

Lemma safe_readData : safe FlatFile.readData.
Proof. intros w. rewrite readData_run. constructor. Qed.

Lemma safe_upload_single file : safe (upload_single file).
Proof.
  destruct file as [f|]; [|apply safe_ret]. simpl.
  repeat case_match; try apply safe_throw.
  apply safe_bind; [apply safe_get | intros; apply safe_put].
Qed.

Lemma safe_route {S E} (mw : M S unit) (h : S -> outcome S (response E)) :
  safe mw -> safe h -> safe (route_with_upload mw h).
Proof.
  intros Hm Hh s. unfold route_with_upload. specialize (Hm s).
  destruct (res (mw s)); simpl; [|assumption].
  apply Forall_app. split; [assumption | apply Hh].
Qed.

Lemma safe_try_catch {S E} (m : M S (response E)) n :
  safe m -> safe (try_catch m n).
Proof. intros H s. rewrite try_catch_reads. apply H. Qed.

Create HintDb safe_db.
#[local] Hint Resolve safe_ret safe_throw safe_lift_result safe_get safe_put
  safe_zoom safe_unlinkSync safe_removePhoto safe_writeData safe_readData
  safe_upload_single safe_log_access : safe_db.

Ltac safe_steps :=
  repeat first
    [ apply safe_bind; [| intros ?]
    | apply safe_zoom
    | solve [auto with safe_db]
    | progress unfold FlatFile.meals_at, FlatFile.photo_at, FlatFile.meals_set,
        FlatFile.meals_splice, FlatFile.on_disk
    | case_match ].

Lemma safe_put_meal req : safe (FlatFile.put_meal req).
Proof.
  unfold FlatFile.put_meal.
  apply safe_bind; [apply safe_readData|]. intros data.
  destruct (FlatFile.index_ok _ _) eqn:Hi; [|apply safe_ret].
  apply index_ok_true in Hi as (i & -> & Hr). simpl.
  safe_steps.
Qed.

Lemma safe_delete_meal req : safe (FlatFile.delete_meal req).
Proof.
  unfold FlatFile.delete_meal.
  apply safe_bind; [apply safe_readData|]. intros data.
  destruct (FlatFile.index_ok _ _) eqn:Hi; [|apply safe_ret].
  apply index_ok_true in Hi as (i & -> & Hr). simpl.
  safe_steps.
Qed.

Lemma safe_PUT_meals req : safe (FlatFile.PUT_meals req).
Proof.
  apply safe_route; [apply safe_zoom, safe_upload_single|].
  apply safe_try_catch, safe_put_meal.
Qed.

Lemma safe_DELETE_meals req : safe (FlatFile.DELETE_meals req).
Proof. apply safe_try_catch, safe_delete_meal. Qed.

(** ** Stepping through a handler *)

Section Steps.
Context {S : Type}.

Lemma bind_ret_l {A B} (a : A) (f : A -> M S B) s : bind (ret a) f s = f a s.
Proof. unfold bind, ret. simpl. apply outcome_eta. Qed.

Lemma bind_lift_ok {A B} (a : A) (f : A -> M S B) s :
  bind (lift_result (Ok a)) f s = f a s.
Proof. unfold bind, lift_result. simpl. apply outcome_eta. Qed.

Lemma bind_lift_throw {A B} e (f : A -> M S B) s :
  bind (lift_result (Throw e)) f s = Outcome (Throw e) s [].
Proof. reflexivity. Qed.

Lemma bind_throw_l {A B} e (f : A -> M S B) s :
  bind (throw e) f s = Outcome (Throw e) s [].
Proof. reflexivity. Qed.

Lemma bind_get {B} (f : S -> M S B) s : bind get f s = f s s.
Proof. unfold bind, get. simpl. apply outcome_eta. Qed.

Lemma bind_put {B} (f : unit -> M S B) s s' : bind (put s') f s = f tt s'.
Proof. unfold bind, put. simpl. apply outcome_eta. Qed.

Lemma bind_log_access {B} (f : unit -> M S B) i n s :
  bind (log_access i n) f s
  = Outcome (res (f tt s)) (final (f tt s)) (Access i n :: reads (f tt s)).
Proof. reflexivity. Qed.

Lemma bind_assoc {A B C} (m : M S A) (f : A -> M S B) (g : B -> M S C) s :
  bind (bind m f) g s = bind m (fun a => bind (f a) g) s.
Proof.
  unfold bind. destruct (m s) as [[a|e] s1 l1]; simpl; [|reflexivity].
  destruct (f a s1) as [[b|e] s2 l2]; simpl; [|reflexivity].
  rewrite app_assoc. reflexivity.
Qed.

Lemma try_catch_ok {E} (m : M S (response E)) n s r s' l :
  m s = Outcome (Ok r) s' l -> try_catch m n s = Outcome (Ok r) s' l.
Proof. intros H. unfold try_catch. rewrite H. reflexivity. Qed.

Lemma try_catch_throw {E} (m : M S (response E)) n s e s' l :
  m s = Outcome (Throw e) s' l ->
  try_catch m n s = Outcome (Ok (res_status_message n e)) s' l.
Proof. intros H. unfold try_catch. rewrite H. reflexivity. Qed.


End Steps.

Ltac step :=
  first
    [ rewrite bind_lift_ok | rewrite bind_lift_throw | rewrite bind_ret_l
    | rewrite bind_throw_l | rewrite bind_get | rewrite bind_put
    | rewrite bind_log_access ];
  cbv beta.

(** ** The photo-removal step *)

Lemma removePhoto_falsy photo a :
  truthy_opt photo = false -> removePhoto photo a = Outcome (Ok tt) a [].
Proof. intros H. unfold removePhoto. rewrite H. reflexivity. Qed.

Lemma removePhoto_absent (p : string) a :
  p ∉ files a -> removePhoto (Some (JStr p)) a = Outcome (Ok tt) a [].
Proof.
  intros H. unfold removePhoto. destruct (truthy_opt _); [|reflexivity].
  cbn [path_join_dirname]. step. step.
  unfold existsSync. rewrite bool_decide_eq_false_2 by assumption. reflexivity.
Qed.

Lemma removePhoto_present (p : string) a :
  p <> "" -> p ∈ files a -> p ∉ locked a ->
  removePhoto (Some (JStr p)) a
  = Outcome (Ok tt) (Assets (files a ∖ {[p]}) (locked a)) [].
Proof.
  intros Hne Hin Hl. unfold removePhoto. cbn [truthy_opt truthy].
  destruct (String.eqb_spec p ""); [contradiction|]. cbn [negb path_join_dirname].
  step. step. unfold existsSync, unlinkSync.
  rewrite !bool_decide_eq_true_2 by assumption.
  rewrite bool_decide_eq_false_2 by assumption. reflexivity.
Qed.


Lemma removePhoto_reads photo a : reads (removePhoto photo a) = [].
Proof.
  unfold removePhoto. destruct (truthy_opt photo); [|reflexivity].
  destruct (path_join_dirname photo) as [p|e]; [|reflexivity].
  step. step. unfold existsSync, unlinkSync.
  destruct (bool_decide (p ∈ files a)) eqn:E1, (bool_decide (p ∈ locked a)) eqn:E2;
    simpl; rewrite ?E1, ?E2; reflexivity.
Qed.

(** ** Runs of the flat-file handlers *)

Lemma flat_on_disk_run {A} (m : M assets A) w :
  FlatFile.on_disk m w
  = Outcome (res (m (FlatFile.disk w)))
      (FlatFile.World (FlatFile.data_file w) (FlatFile.writable w)
                      (final (m (FlatFile.disk w))))
      (reads (m (FlatFile.disk w))).
Proof. reflexivity. Qed.

Lemma meals_at_run data i w :
  FlatFile.meals_at data i w
  = Outcome (Ok (element data i)) w [Access i (length (FlatFile.meals data))].
Proof. reflexivity. Qed.

Lemma photo_at_run data i w :
  FlatFile.photo_at data i w
  = Outcome (photo_read data i) w [Access i (length (FlatFile.meals data))].
Proof.
  unfold FlatFile.photo_at, photo_read.
  rewrite (bind_ok _ _ _ _ _ _ (meals_at_run data i w)).
  destruct (element data i) as [meal|]; [|reflexivity].
  unfold lift_result. simpl. reflexivity.
Qed.

Lemma writeData_run data w :
  FlatFile.writeData data w
  = if FlatFile.writable w
    then Outcome (Ok true) (FlatFile.World (Some data) true (FlatFile.disk w)) []
    else Outcome (Ok false) w [].
Proof.
  unfold FlatFile.writeData. destruct (FlatFile.writable w) eqn:H; reflexivity.
Qed.

(** The last two statements of the three mutating handlers:
    [if (!writeData(data)) throw ...; res.json(entity)]. *)
Lemma save_and_answer_run data (r : response FlatFile.entity) w :
  (ok <- FlatFile.writeData data ;;
   if negb ok then throw (Error "Failed to save data") else ret r) w
  = if FlatFile.writable w
    then Outcome (Ok r) (FlatFile.World (Some data) true (FlatFile.disk w)) []
    else Outcome (Throw (Error "Failed to save data")) w [].
Proof.
  unfold bind. rewrite writeData_run.
  destruct (FlatFile.writable w); reflexivity.
Qed.

Lemma post_meal_run req w :
  FlatFile.post_meal req w
  = match JSON_parse (body_meal req) with
    | Throw e => Outcome (Throw e) (after_read w) []
    | Ok parsed =>
        match set_field parsed "photo"
                (Some (JStr (match file req with
                             | Some f => photo_path f
                             | None => ""
                             end))) with
        | Throw e => Outcome (Throw e) (after_read w) []
        | Ok meal =>
            if FlatFile.writable w
            then Outcome (Ok (res_json (FlatFile.EMeal meal)))
                   (FlatFile.World
                      (Some (FlatFile.Document (FlatFile.meals (loaded w) ++ [meal])
                                               (FlatFile.headings (loaded w))))
                      true (FlatFile.disk w)) []
            else Outcome (Throw (Error "Failed to save data")) (after_read w) []
        end
    end.
Proof.
  unfold FlatFile.post_meal.
  rewrite (bind_ok _ _ _ _ _ _ (readData_run w)). cbv beta.
  destruct (JSON_parse (body_meal req)) as [parsed|e]; [|reflexivity].
  rewrite bind_lift_ok.
  destruct (set_field parsed "photo" _) as [meal|e]; [|reflexivity].
  rewrite bind_lift_ok. rewrite save_and_answer_run.
  rewrite after_read_writable, after_read_disk.
  destruct (FlatFile.writable w); reflexivity.
Qed.

Lemma meals_splice_run data i w :
  FlatFile.meals_splice data i w
  = Outcome (Ok (FlatFile.Document (delete (Z.to_nat i) (FlatFile.meals data))
                                   (FlatFile.headings data)))
      w [Access i (length (FlatFile.meals data))].
Proof. reflexivity. Qed.

Lemma delete_meal_run req w i :
  parseInt (params_id req) = Some i ->
  0 <= i < Z.of_nat (length (FlatFile.meals (loaded w))) ->
  let acc := Access i (length (FlatFile.meals (loaded w))) in
  FlatFile.delete_meal req w
  = match FlatFile.meals (loaded w) !! Z.to_nat i with
    | None => Outcome (Throw TypeError) (after_read w) [acc]
    | Some meal =>
        match get_field meal "photo" with
        | Throw e => Outcome (Throw e) (after_read w) [acc]
        | Ok photo =>
            let o := removePhoto photo (FlatFile.disk w) in
            match res o with
            | Throw e =>
                Outcome (Throw e)
                  (FlatFile.World (FlatFile.data_file (after_read w))
                     (FlatFile.writable w) (final o)) [acc]
            | Ok _ =>
                if FlatFile.writable w
                then Outcome (Ok (res_json (FlatFile.EMeal meal)))
                       (FlatFile.World
                          (Some (FlatFile.Document
                                   (delete (Z.to_nat i) (FlatFile.meals (loaded w)))
                                   (FlatFile.headings (loaded w))))
                          true (final o)) [acc; acc]
                else Outcome (Throw (Error "Failed to save data"))
                       (FlatFile.World (FlatFile.data_file (after_read w))
                          false (final o)) [acc; acc]
            end
        end
    end.
Proof.
  intros Hi Hr acc. unfold FlatFile.delete_meal.
  rewrite (bind_ok _ _ _ _ _ _ (readData_run w)). cbv beta.
  unfold FlatFile.index_ok. rewrite Hi.
  destruct (Z.leb_spec 0 i); [|lia].
  destruct (Z.ltb_spec i (Z.of_nat (length (FlatFile.meals (loaded w))))); [|lia].
  cbn [andb default from_option id].
  rewrite (bind_ok _ _ _ _ _ _ (meals_at_run _ i _)). cbv beta.
  unfold element. destruct (Z.ltb_spec i 0); [lia|].
  destruct (FlatFile.meals (loaded w) !! Z.to_nat i) as [meal|]; [|reflexivity].
  destruct (get_field meal "photo") as [photo|e]; [|reflexivity].
  rewrite bind_lift_ok.
  pose proof (removePhoto_reads photo (FlatFile.disk w)) as Hl.
  pose proof (flat_on_disk_run (removePhoto photo) (after_read w)) as Hrun.
  rewrite after_read_disk, after_read_writable in Hrun.
  destruct (removePhoto photo (FlatFile.disk w)) as [[[]|e] a l] eqn:Ho;
    cbn [res final reads] in *; subst l.
  - rewrite (bind_ok _ _ _ _ _ _ Hrun). cbv beta.
    rewrite (bind_ok _ _ _ _ _ _ (meals_splice_run _ i _)).
    rewrite save_and_answer_run.
    cbn [FlatFile.writable FlatFile.disk].
    destruct (FlatFile.writable w); reflexivity.
  - rewrite (bind_throw _ _ _ _ _ _ Hrun). reflexivity.
Qed.

Lemma after_read_eta w :
  FlatFile.World (FlatFile.data_file (after_read w)) (FlatFile.writable w)
                 (FlatFile.disk w) = after_read w.
Proof.
  unfold after_read. destruct w as [[d|] [] a]; reflexivity.
Qed.

Lemma meals_set_run data i meal w :
  FlatFile.meals_set data i meal w
  = Outcome (Ok (FlatFile.Document (<[Z.to_nat i := meal]> (FlatFile.meals data))
                                   (FlatFile.headings data)))
      w [Access i (length (FlatFile.meals data))].
Proof. reflexivity. Qed.

Lemma store_and_answer_run data i meal w :
  (data' <- FlatFile.meals_set data i meal ;;
   ok <- FlatFile.writeData data' ;;
   if negb ok then throw (Error "Failed to save data")
   else ret (res_json (FlatFile.EMeal meal))) w
  = if FlatFile.writable w
    then Outcome (Ok (res_json (FlatFile.EMeal meal)))
           (FlatFile.World
              (Some (FlatFile.Document (<[Z.to_nat i := meal]> (FlatFile.meals data))
                                       (FlatFile.headings data)))
              true (FlatFile.disk w))
           [Access i (length (FlatFile.meals data))]
    else Outcome (Throw (Error "Failed to save data")) w
           [Access i (length (FlatFile.meals data))].
Proof.
  rewrite (bind_ok _ _ _ _ _ _ (meals_set_run data i meal w)).
  rewrite save_and_answer_run. destruct (FlatFile.writable w); reflexivity.
Qed.

Lemma put_meal_run req w i :
  parseInt (params_id req) = Some i ->
  0 <= i < Z.of_nat (length (FlatFile.meals (loaded w))) ->
  let acc := Access i (length (FlatFile.meals (loaded w))) in
  let stored updated :=
    Some (FlatFile.Document (<[Z.to_nat i := updated]> (FlatFile.meals (loaded w)))
                            (FlatFile.headings (loaded w))) in
  FlatFile.put_meal req w
  = match JSON_parse (body_meal req) with
    | Throw e => Outcome (Throw e) (after_read w) []
    | Ok parsed =>
        match photo_read (loaded w) i with
        | Throw e => Outcome (Throw e) (after_read w) [acc]
        | Ok old =>
            match file req with
            | None =>
                match set_field parsed "photo" old with
                | Throw e => Outcome (Throw e) (after_read w) [acc]
                | Ok updated =>
                    if FlatFile.writable w
                    then Outcome (Ok (res_json (FlatFile.EMeal updated)))
                           (FlatFile.World (stored updated) true (FlatFile.disk w))
                           [acc; acc]
                    else Outcome (Throw (Error "Failed to save data")) (after_read w)
                           [acc; acc]
                end
            | Some f =>
                let o := removePhoto old (FlatFile.disk w) in
                let racc := if truthy_opt old then [acc; acc] else [acc] in
                let w' := FlatFile.World (FlatFile.data_file (after_read w))
                            (FlatFile.writable w) (final o) in
                match res o with
                | Throw e => Outcome (Throw e) w' racc
                | Ok _ =>
                    match set_field parsed "photo" (Some (JStr (photo_path f))) with
                    | Throw e => Outcome (Throw e) w' racc
                    | Ok updated =>
                        if FlatFile.writable w
                        then Outcome (Ok (res_json (FlatFile.EMeal updated)))
                               (FlatFile.World (stored updated) true (final o))
                               (racc ++ [acc])
                        else Outcome (Throw (Error "Failed to save data")) w'
                               (racc ++ [acc])
                    end
                end
            end
        end
    end.
Proof.
  intros Hi Hr acc stored. unfold FlatFile.put_meal.
  rewrite (bind_ok _ _ _ _ _ _ (readData_run w)). cbv beta.
  unfold FlatFile.index_ok. rewrite Hi.
  destruct (Z.leb_spec 0 i); [|lia].
  destruct (Z.ltb_spec i (Z.of_nat (length (FlatFile.meals (loaded w))))); [|lia].
  cbn [andb default from_option id].
  destruct (JSON_parse (body_meal req)) as [parsed|e]; [|reflexivity].
  rewrite bind_lift_ok. cbv beta.
  pose proof (photo_at_run (loaded w) i (after_read w)) as Hp.
  destruct (file req) as [f|].
  - (* a new photo was uploaded *)
    rewrite !bind_assoc.
    destruct (photo_read (loaded w) i) as [old|e] eqn:Hold;
      [|rewrite (bind_throw _ _ _ _ _ _ Hp); reflexivity].
    rewrite (bind_ok _ _ _ _ _ _ Hp). cbv beta. rewrite !bind_assoc.
    pose proof (removePhoto_reads old (FlatFile.disk w)) as Hl.
    pose proof (flat_on_disk_run (removePhoto old) (after_read w)) as Hrun.
    rewrite after_read_disk, after_read_writable in Hrun.
    assert (Hstep :
      (if truthy_opt old
       then old0 <- FlatFile.photo_at (loaded w) i ;; FlatFile.on_disk (removePhoto old0)
       else ret ()) (after_read w)
      = Outcome (res (removePhoto old (FlatFile.disk w)))
          (FlatFile.World (FlatFile.data_file (after_read w)) (FlatFile.writable w)
             (final (removePhoto old (FlatFile.disk w))))
          (if truthy_opt old then [acc] else [])).
    { destruct (truthy_opt old) eqn:Ht.
      - rewrite (bind_ok _ _ _ _ _ _ Hp). cbv beta.
        rewrite Hrun, Hl. reflexivity.
      - rewrite (removePhoto_falsy _ _ Ht). cbn [res final reads].
        unfold ret. rewrite after_read_eta. reflexivity. }
    destruct (removePhoto old (FlatFile.disk w)) as [[[]|e] a l] eqn:Ho;
      cbn [res final reads] in *; subst l.
    + rewrite (bind_ok _ _ _ _ _ _ Hstep). cbv beta.
      destruct (set_field parsed "photo" _) as [updated|e].
      * rewrite bind_lift_ok. cbv beta. rewrite store_and_answer_run.
        cbn [FlatFile.writable FlatFile.disk res final reads].
        destruct (FlatFile.writable w), (truthy_opt old); reflexivity.
      * rewrite bind_lift_throw. cbn [res final reads].
        destruct (truthy_opt old); reflexivity.
    + rewrite (bind_throw _ _ _ _ _ _ Hstep).
      destruct (truthy_opt old); reflexivity.
  - (* no upload: the old photo is kept *)
    rewrite !bind_assoc.
    destruct (photo_read (loaded w) i) as [old|e] eqn:Hold;
      [|rewrite (bind_throw _ _ _ _ _ _ Hp); reflexivity].
    rewrite (bind_ok _ _ _ _ _ _ Hp). cbv beta.
    destruct (set_field parsed "photo" old) as [updated|e]; [|reflexivity].
    rewrite bind_lift_ok. cbv beta. rewrite store_and_answer_run.
    rewrite after_read_writable, after_read_disk.
    destruct (FlatFile.writable w); reflexivity.
Qed.

(** ** Runs of the document-collection handlers *)

(** Stepping through the seven paths [set] goes through. *)
Ltac set_paths :=
  unfold Mongo.set_fields;
  repeat match goal with
         | |- context [Mongo.set_path ?c ?v ?o] =>
             let x := fresh "x" in
             let e := fresh "e" in
             let E := fresh "E" in
             destruct (Mongo.set_path c v o) as [x e] eqn:E
         end.

Section MongoRuns.
Context `{!Mongo.SchemaCasts}.

Lemma mongo_on_disk_run {A} (m : M assets A) w :
  Mongo.on_disk m w
  = Outcome (res (m (Mongo.disk w)))
      (Mongo.World (Mongo.meals w) (Mongo.headings w) (Mongo.db_up w)
                   (final (m (Mongo.disk w))))
      (reads (m (Mongo.disk w))).
Proof. reflexivity. Qed.

Lemma mongo_route_accepted file (h : Mongo.world -> outcome _ (response Mongo.entity)) w :
  accepted file = true ->
  route_with_upload (Mongo.on_disk (upload_single file)) h w = h (mongo_stored file w).
Proof.
  intros Ha. unfold route_with_upload, Mongo.on_disk, zoom.
  rewrite (upload_single_accepted _ _ Ha). simpl.
  destruct file; simpl; destruct w; simpl; apply outcome_eta.
Qed.

Lemma mongo_route_rejected f (h : Mongo.world -> outcome _ (response Mongo.entity)) w :
  fileFilter f = false \/ fileSize < size f ->
  exists e, route_with_upload (Mongo.on_disk (upload_single (Some f))) h w
            = Outcome (Ok (Response 500%nat (ErrorPage e))) w [].
Proof.
  intros Hr. destruct (upload_single_rejected f (Mongo.disk w) Hr) as [e He].
  exists e. unfold route_with_upload, Mongo.on_disk, zoom. rewrite He. simpl.
  destruct w; reflexivity.
Qed.

Lemma connected_run w :
  Mongo.connected w
  = if Mongo.db_up w then Outcome (Ok tt) w [] else Outcome (Throw MongoError) w [].
Proof.
  unfold Mongo.connected. rewrite bind_get. destruct (Mongo.db_up w); reflexivity.
Qed.

Lemma findById_run id w :
  Mongo.findById id w
  = match Mongo.castObjectId (JStr id) with
    | Some (Some oid) =>
        if Mongo.db_up w
        then Outcome (Ok (pair oid <$> Mongo.meals w !! oid)) w []
        else Outcome (Throw MongoError) w []
    | _ => Outcome (Throw CastError) w []
    end.
Proof.
  unfold Mongo.findById, Mongo.cast_id.
  destruct (Mongo.castObjectId (JStr id)) as [[oid|]|]; try reflexivity.
  rewrite bind_ret_l. unfold bind at 1. rewrite connected_run.
  destruct (Mongo.db_up w); reflexivity.
Qed.

Lemma findByIdAndDelete_run id w :
  Mongo.findByIdAndDelete id w
  = match Mongo.castObjectId (JStr id) with
    | Some (Some oid) =>
        if Mongo.db_up w
        then Outcome (Ok (Mongo.headings w !! oid))
               (Mongo.World (Mongo.meals w) (delete oid (Mongo.headings w))
                            (Mongo.db_up w) (Mongo.disk w)) []
        else Outcome (Throw MongoError) w []
    | _ => Outcome (Throw CastError) w []
    end.
Proof.
  unfold Mongo.findByIdAndDelete, Mongo.cast_id.
  destruct (Mongo.castObjectId (JStr id)) as [[oid|]|]; try reflexivity.
  rewrite bind_ret_l. unfold bind at 1. rewrite connected_run.
  destruct (Mongo.db_up w) eqn:Hup; [|reflexivity].
  cbn [res final reads]. rewrite bind_get, bind_put, Hup. reflexivity.
Qed.

Lemma save_run fresh h w :
  Mongo.save fresh h w
  = if Mongo.invalid h then Outcome (Throw ValidationError) w []
    else if Mongo.db_up w
    then if Mongo.isNew h
         then let key := default fresh (Mongo._id h) in
              if bool_decide (is_Some (Mongo.meals w !! key))
              then Outcome (Throw MongoError) w []
              else Outcome (Ok tt)
                     (Mongo.World (<[key := Mongo.doc h]> (Mongo.meals w))
                        (Mongo.headings w) (Mongo.db_up w) (Mongo.disk w)) []
         else match Mongo._id h with
              | Some key =>
                  match Mongo.meals w !! key with
                  | Some target =>
                      Outcome (Ok tt)
                        (Mongo.World
                           (<[key := Mongo.apply_changes (Mongo.stored h) (Mongo.doc h)
                                       target]> (Mongo.meals w))
                           (Mongo.headings w) (Mongo.db_up w) (Mongo.disk w)) []
                  | None => Outcome (Throw DocumentNotFoundError) w []
                  end
              | None => Outcome (Throw DocumentNotFoundError) w []
              end
    else Outcome (Throw MongoError) w [].
Proof.
  unfold Mongo.save. destruct (Mongo.invalid h); [reflexivity|].
  unfold bind at 1. rewrite connected_run.
  destruct (Mongo.db_up w) eqn:Hup; [|reflexivity]. cbn [res final reads].
  rewrite bind_get. cbv zeta.
  destruct (Mongo.isNew h).
  - destruct (bool_decide _); [reflexivity|]. unfold put. rewrite Hup. reflexivity.
  - destruct (Mongo._id h) as [key|]; [|reflexivity].
    destruct (Mongo.meals w !! key); [|reflexivity].
    unfold put. rewrite Hup. reflexivity.
Qed.

Lemma deleteOne_run id w :
  Mongo.deleteOne id w
  = if Mongo.db_up w
    then Outcome (Ok tt)
           (Mongo.World (delete id (Mongo.meals w)) (Mongo.headings w)
                        (Mongo.db_up w) (Mongo.disk w)) []
    else Outcome (Throw MongoError) w [].
Proof.
  unfold Mongo.deleteOne. unfold bind at 1. rewrite connected_run.
  destruct (Mongo.db_up w) eqn:Hup; [|reflexivity].
  cbn [res final reads]. rewrite bind_get. unfold put. rewrite Hup. reflexivity.
Qed.

Lemma mongo_delete_heading_run req w :
  Mongo.DELETE_headings req w
  = match Mongo.castObjectId (JStr (params_id req)) with
    | Some (Some oid) =>
        if Mongo.db_up w
        then Outcome
               (Ok (match Mongo.headings w !! oid with
                    | Some _ => res_json Mongo.ESuccess
                    | None => res_status_error 404%nat "Heading not found"
                    end))
               (Mongo.World (Mongo.meals w) (delete oid (Mongo.headings w))
                            (Mongo.db_up w) (Mongo.disk w)) []
        else Outcome (Ok (res_status_message 400%nat MongoError)) w []
    | _ => Outcome (Ok (res_status_message 400%nat CastError)) w []
    end.
Proof.
  unfold Mongo.DELETE_headings, try_catch, Mongo.delete_heading.
  unfold bind. rewrite findByIdAndDelete_run.
  destruct (Mongo.castObjectId (JStr (params_id req))) as [[oid|]|]; try reflexivity.
  destruct (Mongo.db_up w); [|reflexivity]. cbn [res final reads].
  destruct (Mongo.headings w !! oid); reflexivity.
Qed.

Lemma mongo_delete_meal_run req w :
  Mongo.delete_meal req w
  = match Mongo.castObjectId (JStr (params_id req)) with
    | Some (Some oid) =>
        if Mongo.db_up w
        then match Mongo.meals w !! oid with
             | None => Outcome (Ok Mongo.not_found) w []
             | Some meal =>
                 let o := removePhoto (JStr <$> Mongo.photo meal) (Mongo.disk w) in
                 match res o with
                 | Ok _ =>
                     Outcome (Ok (res_json (Mongo.EMeal (Some oid) meal)))
                       (Mongo.World (delete oid (Mongo.meals w)) (Mongo.headings w)
                                    (Mongo.db_up w) (final o)) []
                 | Throw e =>
                     Outcome (Throw e)
                       (Mongo.World (Mongo.meals w) (Mongo.headings w)
                                    (Mongo.db_up w) (final o)) []
                 end
             end
        else Outcome (Throw MongoError) w []
    | _ => Outcome (Throw CastError) w []
    end.
Proof.
  unfold Mongo.delete_meal. cbv zeta.
  pose proof (findById_run (params_id req) w) as Hf.
  destruct (Mongo.castObjectId (JStr (params_id req))) as [[oid|]|];
    try (rewrite (bind_throw _ _ _ _ _ _ Hf); reflexivity).
  destruct (Mongo.db_up w) eqn:Hup;
    [|rewrite (bind_throw _ _ _ _ _ _ Hf); reflexivity].
  rewrite (bind_ok _ _ _ _ _ _ Hf). cbv beta.
  destruct (Mongo.meals w !! oid) as [meal|]; [|reflexivity].
  cbn [fmap option_fmap option_map].
  pose proof (removePhoto_reads (JStr <$> Mongo.photo meal) (Mongo.disk w)) as Hl.
  pose proof (mongo_on_disk_run (removePhoto (JStr <$> Mongo.photo meal)) w) as Hrun.
  destruct (removePhoto (JStr <$> Mongo.photo meal) (Mongo.disk w)) as [[[]|e] a l];
    cbn [res final reads] in *; subst l.
  - rewrite (bind_ok _ _ _ _ _ _ Hrun). cbv beta.
    unfold bind. rewrite deleteOne_run. cbn [Mongo.db_up]. rewrite Hup. reflexivity.
  - rewrite (bind_throw _ _ _ _ _ _ Hrun). rewrite Hup. reflexivity.
Qed.

Lemma set_fields_id fields h :
  Mongo._id (Mongo.set_fields fields h)
  = (Mongo.set_path Mongo.castObjectId (fields !! "_id") (Mongo._id h)).1
  /\ Mongo.isNew (Mongo.set_fields fields h) = Mongo.isNew h
  /\ Mongo.stored (Mongo.set_fields fields h) = Mongo.stored h.
Proof. set_paths. repeat split. Qed.

Lemma apply_changes_same old new : Mongo.apply_changes old new old = new.
Proof.
  destruct old, new. unfold Mongo.apply_changes, Mongo.changed.
  cbn [Mongo.name Mongo.description Mongo.photo Mongo.halfServe Mongo.heading].
  repeat case_decide; congruence.
Qed.

Lemma mongo_world_eta w :
  Mongo.World (Mongo.meals w) (Mongo.headings w) (Mongo.db_up w) (Mongo.disk w) = w.
Proof. destruct w; reflexivity. Qed.

Lemma mongo_put_meal_run req w :
  Mongo.put_meal req w
  = match JSON_parse (body_meal req) with
    | Throw e => Outcome (Throw e) w []
    | Ok parsed =>
        match Mongo.castObjectId (JStr (params_id req)) with
        | Some (Some oid) =>
            if Mongo.db_up w
            then match Mongo.meals w !! oid with
                 | None => Outcome (Ok Mongo.not_found) w []
                 | Some meal =>
                     let o := photo_step (file req) meal (Mongo.disk w) in
                     let w1 := Mongo.World (Mongo.meals w) (Mongo.headings w)
                                 (Mongo.db_up w) (final o) in
                     match res o with
                     | Throw e => Outcome (Throw e) w1 []
                     | Ok _ =>
                         match Mongo.assign parsed "photo"
                                 (JStr <$> new_photo (file req) meal) with
                         | Throw e => Outcome (Throw e) w1 []
                         | Ok fields =>
                             let h := Mongo.set fields
                                        (Mongo.Hydrated (Some oid) meal meal false false) in
                             if Mongo.invalid h
                             then Outcome (Throw ValidationError) w1 []
                             else
                               match Mongo._id h ≫= (Mongo.meals w !!.) with
                               | Some target =>
                                   Outcome (Ok (res_json (Mongo.EMeal (Mongo._id h)
                                                            (Mongo.doc h))))
                                     (Mongo.World
                                        (<[default oid (Mongo._id h)
                                           := Mongo.apply_changes meal (Mongo.doc h) target]>
                                           (Mongo.meals w))
                                        (Mongo.headings w) (Mongo.db_up w) (final o)) []
                               | None => Outcome (Throw DocumentNotFoundError) w1 []
                               end
                         end
                     end
                 end
            else Outcome (Throw MongoError) w []
        | _ => Outcome (Throw CastError) w []
        end
    end.
Proof.
  unfold Mongo.put_meal. cbv zeta.
  destruct (JSON_parse (body_meal req)) as [parsed|e]; [|reflexivity].
  rewrite bind_lift_ok. cbv beta.
  pose proof (findById_run (params_id req) w) as Hf.
  destruct (Mongo.castObjectId (JStr (params_id req))) as [[oid|]|];
    try (rewrite (bind_throw _ _ _ _ _ _ Hf); reflexivity).
  destruct (Mongo.db_up w) eqn:Hup;
    [|rewrite (bind_throw _ _ _ _ _ _ Hf); reflexivity].
  rewrite (bind_ok _ _ _ _ _ _ Hf). cbv beta.
  destruct (Mongo.meals w !! oid) as [meal|]; [|reflexivity].
  cbn [fmap option_fmap option_map]. cbv beta iota.
  assert (Hstep :
    match file req with
    | Some f => run Mongo.on_disk (removePhoto (JStr <$> Mongo.photo meal)) ;;
                ret (Some (photo_path f))
    | None => ret (Mongo.photo meal)
    end w
    = Outcome (match res (photo_step (file req) meal (Mongo.disk w)) with
               | Ok _ => Ok (new_photo (file req) meal)
               | Throw e => Throw e
               end)
        (Mongo.World (Mongo.meals w) (Mongo.headings w) (Mongo.db_up w)
           (final (photo_step (file req) meal (Mongo.disk w)))) []).
  { unfold photo_step, new_photo. destruct (file req) as [f|].
    - pose proof (removePhoto_reads (JStr <$> Mongo.photo meal) (Mongo.disk w)) as Hl.
      pose proof (mongo_on_disk_run (removePhoto (JStr <$> Mongo.photo meal)) w) as Hrun.
      destruct (removePhoto (JStr <$> Mongo.photo meal) (Mongo.disk w)) as [[[]|e] a l];
        cbn [res final reads] in *; subst l.
      + rewrite (bind_ok _ _ _ _ _ _ Hrun). reflexivity.
      + rewrite (bind_throw _ _ _ _ _ _ Hrun). reflexivity.
    - cbn [res final]. rewrite mongo_world_eta. reflexivity. }
  destruct (res (photo_step (file req) meal (Mongo.disk w))) as [[]|e];
    [|rewrite (bind_throw _ _ _ _ _ _ Hstep); rewrite Hup; reflexivity].
  rewrite (bind_ok _ _ _ _ _ _ Hstep). cbv beta.
  destruct (Mongo.assign parsed "photo" _) as [fields|e];
    [|rewrite bind_lift_throw; rewrite Hup; reflexivity].
  rewrite bind_lift_ok. cbv beta.
  unfold bind. rewrite save_run.
  set (h := Mongo.set fields (Mongo.Hydrated (Some oid) meal meal false false)).
  destruct (Mongo.invalid h) eqn:Hinv; [rewrite Hup; reflexivity|].
  cbn [Mongo.db_up Mongo.meals]. rewrite Hup.
  destruct (set_fields_id (Mongo.own_fields fields)
              (Mongo.Hydrated (Some oid) meal meal false false)) as (_ & Hnew & Hst).
  fold (Mongo.set fields (Mongo.Hydrated (Some oid) meal meal false false)) in Hnew, Hst.
  fold h in Hnew, Hst. rewrite Hnew, Hst. cbn [Mongo.isNew Mongo.stored].
  destruct (Mongo._id h) as [key|]; cbn [mbind option_bind default from_option id];
    [|reflexivity].
  destruct (Mongo.meals w !! key); reflexivity.
Qed.

Lemma mongo_post_meal_run req w :
  Mongo.post_meal req w
  = match JSON_parse (body_meal req) with
    | Throw e => Outcome (Throw e) w []
    | Ok parsed =>
        match Mongo.assign parsed "photo"
                (Some (JStr (match file req with
                             | Some f => photo_path f
                             | None => ""
                             end))) with
        | Throw e => Outcome (Throw e) w []
        | Ok withPhoto =>
            match (match body_heading req with
                   | Some h => if negb (String.eqb h "")
                               then Mongo.assign withPhoto "heading" (Some (JStr h))
                               else Ok withPhoto
                   | None => Ok withPhoto
                   end) with
            | Throw e => Outcome (Throw e) w []
            | Ok mealData =>
                match Mongo.new_Meal (generated_id req) mealData with
                | Throw e => Outcome (Throw e) w []
                | Ok meal =>
                    if Mongo.invalid meal then Outcome (Throw ValidationError) w []
                    else if Mongo.db_up w
                    then let key := default (generated_id req) (Mongo._id meal) in
                         if bool_decide (is_Some (Mongo.meals w !! key))
                         then Outcome (Throw MongoError) w []
                         else Outcome
                                (Ok (res_json (Mongo.EMeal (Mongo._id meal) (Mongo.doc meal))))
                                (Mongo.World (<[key := Mongo.doc meal]> (Mongo.meals w))
                                   (Mongo.headings w) (Mongo.db_up w) (Mongo.disk w)) []
                    else Outcome (Throw MongoError) w []
                end
            end
        end
    end.
Proof.
  unfold Mongo.post_meal.
  destruct (JSON_parse (body_meal req)) as [parsed|e]; [|reflexivity].
  rewrite bind_lift_ok. cbv beta.
  destruct (Mongo.assign parsed "photo" _) as [withPhoto|e]; [|reflexivity].
  rewrite bind_lift_ok. cbv beta.
  assert (Hh :
    match body_heading req with
    | Some h => if negb (String.eqb h "")
                then lift_result (Mongo.assign withPhoto "heading" (Some (JStr h)))
                else ret withPhoto
    | None => ret withPhoto
    end
    = lift_result (S := Mongo.world)
        match body_heading req with
        | Some h => if negb (String.eqb h "")
                    then Mongo.assign withPhoto "heading" (Some (JStr h))
                    else Ok withPhoto
        | None => Ok withPhoto
        end).
  { destruct (body_heading req) as [h|]; [|reflexivity].
    destruct (negb (String.eqb h "")); reflexivity. }
  rewrite Hh. clear Hh.
  destruct (match body_heading req with Some _ => _ | None => _ end) as [mealData|e];
    [|reflexivity].
  rewrite bind_lift_ok. cbv beta.
  destruct (Mongo.new_Meal (generated_id req) mealData) as [meal|e] eqn:Hnew;
    [|reflexivity].
  rewrite bind_lift_ok. cbv beta.
  assert (Hnw : Mongo.isNew meal = true).
  { unfold Mongo.new_Meal in Hnew.
    destruct mealData; try discriminate; injection Hnew as <-;
      unfold Mongo.set; apply set_fields_id. }
  unfold bind. rewrite save_run, Hnw.
  destruct (Mongo.invalid meal); [reflexivity|].
  destruct (Mongo.db_up w); [|reflexivity]. cbv zeta.
  destruct (bool_decide _); reflexivity.
Qed.

End MongoRuns.

(** ** Routes seen from their answer *)

Lemma accepted_false file :
  accepted file = false ->
  exists f, file = Some f /\ (fileFilter f = false \/ fileSize < size f).
Proof.
  destruct file as [f|]; [|discriminate]. simpl. intros H. exists f.
  split; [reflexivity|]. apply andb_false_iff in H as [H|H]; [left; exact H|].
  right. apply Z.leb_gt in H. exact H.
Qed.

Lemma flat_route_ok file (h : FlatFile.world -> outcome _ (response FlatFile.entity)) w n :
  n <> 500%nat ->
  status_of (route_with_upload (FlatFile.on_disk (upload_single file)) h w) = Some n ->
  accepted file = true
  /\ route_with_upload (FlatFile.on_disk (upload_single file)) h w
     = h (flat_stored file w).
Proof.
  intros Hn Hs. destruct (accepted file) eqn:Ha.
  - split; [reflexivity | apply flat_route_accepted, Ha].
  - apply accepted_false in Ha as (f & -> & Hr).
    destruct (flat_route_rejected f h w Hr) as [e He]. rewrite He in Hs.
    injection Hs as <-. contradiction.
Qed.

Lemma try_catch_200 {S E} (m : M S (response E)) s :
  status_of (try_catch m 400%nat s) = Some 200%nat ->
  exists r, res (m s) = Ok r /\ status r = 200%nat /\ try_catch m 400%nat s = m s.
Proof.
  unfold status_of, answer, try_catch. destruct (res (m s)) as [r|e] eqn:Hr.
  - rewrite Hr. intros [= Hs]. eauto.
  - cbn. discriminate.
Qed.

Lemma mongo_route_ok file (h : Mongo.world -> outcome _ (response Mongo.entity)) w n :
  n <> 500%nat ->
  status_of (route_with_upload (Mongo.on_disk (upload_single file)) h w) = Some n ->
  accepted file = true
  /\ route_with_upload (Mongo.on_disk (upload_single file)) h w
     = h (mongo_stored file w).
Proof.
  intros Hn Hs. destruct (accepted file) eqn:Ha.
  - split; [reflexivity | apply mongo_route_accepted, Ha].
  - apply accepted_false in Ha as (f & -> & Hr).
    destruct (mongo_route_rejected f h w Hr) as [e He]. rewrite He in Hs.
    injection Hs as <-. contradiction.
Qed.

Lemma after_read_stored file w :
  FlatFile.data_file (after_read (flat_stored file w))
  = FlatFile.data_file (after_read w).
Proof. destruct file, w as [[d|] [] a]; reflexivity. Qed.

(** ** The photo-removal step on a file that cannot be removed *)

Lemma removePhoto_locked (p : string) a :
  p <> "" -> p ∈ files a -> p ∈ locked a ->
  removePhoto (Some (JStr p)) a = Outcome (Throw FsError) a [].
Proof.
  intros Hne Hia Hla. unfold removePhoto. cbn [truthy_opt truthy].
  destruct (String.eqb_spec p ""); [contradiction|]. cbn [negb path_join_dirname].
  rewrite bind_lift_ok, bind_get. unfold existsSync, unlinkSync.
  rewrite !bool_decide_eq_true_2 by assumption. reflexivity.
Qed.

Lemma removePhoto_ok_gone (p : string) a u :
  res (removePhoto (Some (JStr p)) a) = Ok u -> p <> "" ->
  p ∉ files (final (removePhoto (Some (JStr p)) a)).
Proof.
  intros Hok Hne. destruct (decide (p ∈ files a)) as [Hin|Hnin].
  - destruct (decide (p ∈ locked a)) as [Hl|Hl].
    + exfalso. revert Hok. unfold removePhoto. cbn [truthy_opt truthy].
      destruct (String.eqb_spec p ""); [contradiction|]. cbn [negb path_join_dirname].
      rewrite bind_lift_ok, bind_get. unfold existsSync, unlinkSync.
      rewrite !bool_decide_eq_true_2 by assumption. discriminate.
    + rewrite (removePhoto_present p a Hne Hin Hl). cbn [final files].
      intros [_ Hx]%elem_of_difference. apply Hx, elem_of_singleton. reflexivity.
  - rewrite (removePhoto_absent p a Hnin). exact Hnin.
Qed.

(** ** Runs of the heading routes of the document collection *)

Section HeadingRuns.
Context `{!Mongo.SchemaCasts}.

Lemma post_heading_run req w :
  Headings.post_heading req w
  = match Mongo.set_path Mongo.castString (Headings.body_name req) None with
    | (Some s, false) =>
        if String.eqb s ""
        then Outcome (Throw ValidationError) w []
        else if Mongo.db_up w
        then if bool_decide (is_Some (Mongo.headings w !! Headings.generated_id req))
             then Outcome (Throw MongoError) w []
             else Outcome (Ok (res_json (Headings.generated_id req, s)))
                    (Mongo.World (Mongo.meals w)
                       (<[Headings.generated_id req := s]> (Mongo.headings w))
                       (Mongo.db_up w) (Mongo.disk w)) []
        else Outcome (Throw MongoError) w []
    | _ => Outcome (Throw ValidationError) w []
    end.
Proof.
  unfold Headings.post_heading, Headings.save_heading.
  destruct (Mongo.set_path Mongo.castString (Headings.body_name req) None)
    as [[s|] []]; try reflexivity.
  cbn [orb]. destruct (String.eqb s ""); [reflexivity|].
  rewrite bind_assoc. unfold bind at 1. rewrite connected_run.
  destruct (Mongo.db_up w) eqn:Hup; cbn [res final reads]; [|reflexivity].
  rewrite bind_assoc, bind_get.
  destruct (bool_decide _); [reflexivity|].
  rewrite bind_assoc, bind_put, bind_ret_l, Hup. reflexivity.
Qed.

Lemma POST_headings_run req w :
  Headings.POST_headings req w
  = match Mongo.set_path Mongo.castString (Headings.body_name req) None with
    | (Some s, false) =>
        if String.eqb s ""
        then Outcome (Ok (res_status_message 400%nat ValidationError)) w []
        else if Mongo.db_up w
        then if bool_decide (is_Some (Mongo.headings w !! Headings.generated_id req))
             then Outcome (Ok (res_status_message 400%nat MongoError)) w []
             else Outcome (Ok (res_json (Headings.generated_id req, s)))
                    (Mongo.World (Mongo.meals w)
                       (<[Headings.generated_id req := s]> (Mongo.headings w))
                       (Mongo.db_up w) (Mongo.disk w)) []
        else Outcome (Ok (res_status_message 400%nat MongoError)) w []
    | _ => Outcome (Ok (res_status_message 400%nat ValidationError)) w []
    end.
Proof.
  unfold Headings.POST_headings, try_catch. rewrite post_heading_run.
  destruct (Mongo.set_path Mongo.castString (Headings.body_name req) None)
    as [[s|] []]; try reflexivity.
  destruct (String.eqb s ""); [reflexivity|].
  destruct (Mongo.db_up w); [|reflexivity].
  destruct (bool_decide _); reflexivity.
Qed.

Lemma put_heading_run req w :
  Headings.put_heading req w
  = if negb (truthy_opt (Headings.body_name req))
    then Outcome (Ok (res_status_error 400%nat "Heading name is required")) w []
    else
      match Mongo.castObjectId (JStr (Headings.params_id req)) with
      | Some (Some oid) =>
          match Headings.cast_name (Headings.body_name req) with
          | Throw e => Outcome (Throw e) w []
          | Ok newName =>
              if Mongo.db_up w
              then match Mongo.headings w !! oid with
                   | Some _ =>
                       Outcome (Ok (res_json (oid, newName)))
                         (Mongo.World (Mongo.meals w)
                            (<[oid := newName]> (Mongo.headings w))
                            (Mongo.db_up w) (Mongo.disk w)) []
                   | None =>
                       Outcome (Ok (res_status_error 404%nat "Heading not found")) w []
                   end
              else Outcome (Throw MongoError) w []
          end
      | _ => Outcome (Throw CastError) w []
      end.
Proof.
  unfold Headings.put_heading. cbv zeta.
  destruct (negb (truthy_opt (Headings.body_name req))); [reflexivity|].
  unfold Headings.findByIdAndUpdate, Mongo.cast_id.
  destruct (Mongo.castObjectId (JStr (Headings.params_id req))) as [[oid|]|];
    try reflexivity.
  rewrite bind_assoc, bind_ret_l. rewrite bind_assoc.
  destruct (Headings.cast_name (Headings.body_name req)) as [newName|e];
    [|reflexivity].
  rewrite bind_lift_ok. rewrite bind_assoc.
  unfold bind at 1. rewrite connected_run.
  destruct (Mongo.db_up w) eqn:Hup; cbn [res final reads]; [|reflexivity].
  rewrite bind_assoc, bind_get.
  destruct (Mongo.headings w !! oid); [|rewrite bind_ret_l; reflexivity].
  rewrite bind_assoc, bind_put, !bind_ret_l, Hup. reflexivity.
Qed.

Lemma PUT_heading_run req w :
  Headings.PUT_heading req w
  = if negb (truthy_opt (Headings.body_name req))
    then Outcome (Ok (res_status_error 400%nat "Heading name is required")) w []
    else
      match Mongo.castObjectId (JStr (Headings.params_id req)) with
      | Some (Some oid) =>
          match Headings.cast_name (Headings.body_name req) with
          | Throw e => Outcome (Ok (res_status_message 400%nat e)) w []
          | Ok newName =>
              if Mongo.db_up w
              then match Mongo.headings w !! oid with
                   | Some _ =>
                       Outcome (Ok (res_json (oid, newName)))
                         (Mongo.World (Mongo.meals w)
                            (<[oid := newName]> (Mongo.headings w))
                            (Mongo.db_up w) (Mongo.disk w)) []
                   | None =>
                       Outcome (Ok (res_status_error 404%nat "Heading not found")) w []
                   end
              else Outcome (Ok (res_status_message 400%nat MongoError)) w []
          end
      | _ => Outcome (Ok (res_status_message 400%nat CastError)) w []
      end.
Proof.
  unfold Headings.PUT_heading, try_catch. rewrite put_heading_run.
  destruct (negb (truthy_opt (Headings.body_name req))); [reflexivity|].
  destruct (Mongo.castObjectId (JStr (Headings.params_id req))) as [[oid|]|];
    try reflexivity.
  destruct (Headings.cast_name (Headings.body_name req)); [|reflexivity].
  destruct (Mongo.db_up w); [|reflexivity].
  destruct (Mongo.headings w !! oid); reflexivity.
Qed.

End HeadingRuns.

(** Evaluating the lookups of a closed map. *)
Ltac eval_lookup :=
  match goal with
  | |- context [ @lookup ?K ?A ?MT ?L ?k ?m ] =>
      let v := eval vm_compute in (@lookup K A MT L k m) in
      progress replace (@lookup K A MT L k m) with v by (vm_compute; reflexivity)
  end.

(** Membership in a closed set of files, by evaluation. *)
Ltac in_set := apply (bool_decide_unpack _); vm_compute; exact I.
Ltac not_in_set := apply (bool_decide_eq_false_1 _); vm_compute; reflexivity.

(** * The claims *)

(** ** C1: creating a meal without [name] or [description] *)

Lemma validateMeal_spec (meal : gmap string json) :
  validateMeal (JObj meal) =
    if negb (truthy_opt (meal !! "name"))
    then Throw (Error "Missing required field: name")
    else if negb (truthy_opt (meal !! "description"))
    then Throw (Error "Missing required field: description")
    else Ok true.
Proof.
  unfold validateMeal, requiredFields. simpl.
  destruct (truthy_opt (meal !! "name")); simpl; [|reflexivity].
  destruct (truthy_opt (meal !! "description")); reflexivity.
Qed.

(** C1 (the code at the failing input): a meal without [name] is what
    [validateMeal] refuses, naming [name]; but neither POST handler calls
    [validateMeal]: both variants answer 200 and persist the record. *)
Theorem C1_createMeal_not_validated `{!Mongo.SchemaCasts} :
  let meal := JObj {[ "description" := JStr "Tomato soup" ]} in
  let req := Request "" (Some meal) None None "65f0a1b2c3d4e5f6a7b8c9d0" in
  let fw := FlatFile.World (Some FlatFile.initialData) true (Assets ∅ ∅) in
  let mw := Mongo.World ∅ ∅ true (Assets ∅ ∅) in
  validateMeal meal = Throw (Error "Missing required field: name")
  /\ answer (FlatFile.POST_meals req fw)
     = Some (Response 200%nat
               (Entity (FlatFile.EMeal
                  (JObj {[ "description" := JStr "Tomato soup"; "photo" := JStr "" ]}))))
  /\ FlatFile.data_file (final (FlatFile.POST_meals req fw))
     = Some (FlatFile.Document
               [JObj {[ "description" := JStr "Tomato soup"; "photo" := JStr "" ]}]
               (Some (JArr [])))
  /\ answer (Mongo.POST_meals req mw)
     = Some (Response 200%nat
               (Entity (Mongo.EMeal (Some "65f0a1b2c3d4e5f6a7b8c9d0")
                  (Mongo.Meal None (Some "Tomato soup") (Some "") None None))))
  /\ Mongo.meals (final (Mongo.POST_meals req mw)) !! "65f0a1b2c3d4e5f6a7b8c9d0"
     = Some (Mongo.Meal None (Some "Tomato soup") (Some "") None None).
Proof.
  cbv zeta. split; [reflexivity|].
  split; [vm_compute; reflexivity|]. split; [vm_compute; reflexivity|].
  set (req := Request "" _ None None _).
  set (mw := Mongo.World ∅ ∅ true _).
  unfold Mongo.POST_meals.
  rewrite (mongo_route_accepted (file req) _ mw eq_refl).
  cbn [mongo_stored file req].
  assert (Hrun : Mongo.post_meal req mw
    = Outcome (Ok (res_json (Mongo.EMeal (Some "65f0a1b2c3d4e5f6a7b8c9d0")
                     (Mongo.Meal None (Some "Tomato soup") (Some "") None None))))
        (Mongo.World
           {[ "65f0a1b2c3d4e5f6a7b8c9d0"
              := Mongo.Meal None (Some "Tomato soup") (Some "") None None ]}
           ∅ true (Assets ∅ ∅)) []).
  { rewrite mongo_post_meal_run.
    cbn [req body_meal body_heading file generated_id JSON_parse Mongo.assign
         set_field Mongo.new_Meal Mongo.set Mongo.own_fields].
    unfold Mongo.set, Mongo.own_fields, Mongo.set_fields.
    repeat eval_lookup.
    cbn [Mongo.set_path Mongo.doc Mongo.name Mongo.description Mongo.photo
         Mongo.halfServe Mongo.heading Mongo._id].
    rewrite !Mongo.castString_string.
    cbn [Mongo.invalid Mongo.doc Mongo._id orb mw Mongo.db_up Mongo.meals
         Mongo.headings Mongo.disk default from_option id].
    rewrite bool_decide_eq_false_2 by (intros [? ?]; discriminate).
    reflexivity. }
  rewrite (try_catch_ok _ _ _ _ _ _ Hrun). cbn [answer res final Mongo.meals].
  split; [reflexivity | apply lookup_insert_eq].
Qed.

(** ** C2: the status answered on a storage failure *)

Lemma flat_stored_fields file w :
  FlatFile.data_file (flat_stored file w) = FlatFile.data_file w
  /\ FlatFile.writable (flat_stored file w) = FlatFile.writable w
  /\ loaded (flat_stored file w) = loaded w.
Proof. destruct file; repeat split; reflexivity. Qed.

Lemma mongo_stored_fields file w :
  Mongo.meals (mongo_stored file w) = Mongo.meals w
  /\ Mongo.headings (mongo_stored file w) = Mongo.headings w
  /\ Mongo.db_up (mongo_stored file w) = Mongo.db_up w.
Proof. destruct file; repeat split; reflexivity. Qed.




Section MongoDown.
Context `{!Mongo.SchemaCasts}.




End MongoDown.

Lemma try_catch_answer_throw {S E} (m : M S (response E)) n s e :
  res (m s) = Throw e ->
  answer (try_catch m n s) = Some (Response n (ErrorMessage e)).
Proof. intros H. unfold answer, try_catch. rewrite H. reflexivity. Qed.





(** ** C3: what an update does to the fields of a record *)

Lemma set_path_valid {A} (cast : json -> option (option A)) supplied old new :
  Mongo.set_path cast supplied old = (new, false) ->
  overwrites cast supplied old new.
Proof.
  unfold Mongo.set_path, overwrites. destruct supplied as [v|].
  - destruct (cast v); intros [= <-]. reflexivity.
  - intros [= <-]. reflexivity.
Qed.

Lemma set_fields_valid `{!Mongo.SchemaCasts} fields h :
  Mongo.invalid (Mongo.set_fields fields h) = false ->
  let d := Mongo.doc h in
  let d' := Mongo.doc (Mongo.set_fields fields h) in
  overwrites Mongo.castString (fields !! "name") (Mongo.name d) (Mongo.name d')
  /\ overwrites Mongo.castString (fields !! "description")
       (Mongo.description d) (Mongo.description d')
  /\ overwrites Mongo.castString (fields !! "photo") (Mongo.photo d) (Mongo.photo d')
  /\ overwrites Mongo.castBoolean (fields !! "halfServe")
       (Mongo.halfServe d) (Mongo.halfServe d')
  /\ overwrites Mongo.castObjectId (fields !! "heading")
       (Mongo.heading d) (Mongo.heading d')
  /\ overwrites Mongo.castObjectId (fields !! "_id")
       (Mongo._id h) (Mongo._id (Mongo.set_fields fields h)).
Proof.
  set_paths.
  cbn [Mongo.invalid Mongo.doc Mongo._id Mongo.name Mongo.description Mongo.photo
       Mongo.halfServe Mongo.heading].
  intros Hv.
  repeat (apply orb_false_elim in Hv as [Hv ?]). subst.
  repeat split; apply set_path_valid; assumption.
Qed.

(** The fields Mongoose is given once the handler has set [photo]: for
    every other key, those of the request. *)
Lemma assigned_lookup (parsed fields : json) (p : option json) (k : string) :
  Mongo.assign parsed "photo" p = Ok fields -> k <> "photo" ->
  Mongo.own_fields fields !! k = supplied parsed k.
Proof.
  intros Ha Hk. unfold supplied.
  destruct parsed; cbn in Ha; try discriminate; injection Ha as <-;
    cbn [Mongo.own_fields]; try reflexivity.
  - destruct p; [rewrite lookup_insert_ne by congruence
                | rewrite lookup_delete_ne by congruence]; apply lookup_empty.
  - destruct p; [apply lookup_insert_ne | apply lookup_delete_ne]; congruence.
Qed.






(** ** C4: an upload that is not an image, or is too large *)

(** C4 (counterexample): a text file sent with POST /api/meals is refused,
    but the answer is 500, not 400. *)
Lemma C4_counterexample :
  let txt := Upload "menu.txt" "text/plain" 120 "1700000000000-7.txt" in
  let req := Request "" (Some ex_soup) None (Some txt) "" in
  fileFilter txt = false
  /\ status_of (FlatFile.POST_meals req ex_fw) = Some 500%nat
  /\ status_of (FlatFile.POST_meals req ex_fw) <> Some 400%nat.
Proof.
  cbv zeta. split; [reflexivity|].
  split; [vm_compute; reflexivity | vm_compute; discriminate].
Qed.

(** C4 (amended): an upload whose mimetype does not start with [image/],
    or whose content is longer than 5 MiB, is refused by the upload
    middleware before the handler runs; the request is answered 500 by
    Express' final handler (no route maps the error to 400), and nothing is
    created: the asset files, the data file and the collection are as they
    were. *)
Theorem C4_rejected_upload `{!Mongo.SchemaCasts}
    (req : request) (f : upload) (fw : FlatFile.world) (mw : Mongo.world) :
  file req = Some f ->
  String.prefix "image/" (mimetype f) = false \/ 5 * 1024 * 1024 < size f ->
  (status_of (FlatFile.POST_meals req fw) = Some 500%nat
   /\ final (FlatFile.POST_meals req fw) = fw)
  /\ (status_of (FlatFile.PUT_meals req fw) = Some 500%nat
      /\ final (FlatFile.PUT_meals req fw) = fw)
  /\ (status_of (Mongo.POST_meals req mw) = Some 500%nat
      /\ final (Mongo.POST_meals req mw) = mw)
  /\ (status_of (Mongo.PUT_meals req mw) = Some 500%nat
      /\ final (Mongo.PUT_meals req mw) = mw).
Proof.
  intros Hf Hr.
  unfold FlatFile.POST_meals, FlatFile.PUT_meals, Mongo.POST_meals, Mongo.PUT_meals.
  rewrite Hf.
  destruct (flat_route_rejected f (try_catch (FlatFile.post_meal req) 400%nat) fw Hr)
    as [e1 ->].
  destruct (flat_route_rejected f (try_catch (FlatFile.put_meal req) 400%nat) fw Hr)
    as [e2 ->].
  destruct (mongo_route_rejected f (try_catch (Mongo.post_meal req) 400%nat) mw Hr)
    as [e3 ->].
  destruct (mongo_route_rejected f (try_catch (Mongo.put_meal req) 400%nat) mw Hr)
    as [e4 ->].
  repeat split.
Qed.

Lemma C4_rejected_upload_witness :
  let big := Upload "soup.png" "image/png" (6 * 1024 * 1024) "1700000000000-9.png" in
  let req := Request "0" (Some ex_soup) None (Some big) ex_oid in
  status_of (FlatFile.POST_meals req ex_fw) = Some 500%nat
  /\ final (FlatFile.POST_meals req ex_fw) = ex_fw
  /\ status_of (@Mongo.PUT_meals Mongo.default_casts req ex_mw) = Some 500%nat.
Proof.
  cbv zeta.
  pose proof (@C4_rejected_upload Mongo.default_casts
    (Request "0" (Some ex_soup) None
       (Some (Upload "soup.png" "image/png" (6 * 1024 * 1024) "1700000000000-9.png"))
       ex_oid)
    (Upload "soup.png" "image/png" (6 * 1024 * 1024) "1700000000000-9.png")
    ex_fw ex_mw eq_refl ltac:(right; simpl; lia))
    as ((H1 & H2) & _ & _ & (H3 & _)).
  split; [exact H1|]. split; [exact H2 | exact H3].
Defined.

(** ** C5: an update without an upload and the photo of the record *)

Lemma set_fields_photo `{!Mongo.SchemaCasts} fields h :
  Mongo.photo (Mongo.doc (Mongo.set_fields fields h))
  = (Mongo.set_path Mongo.castString (fields !! "photo") (Mongo.photo (Mongo.doc h))).1.
Proof. set_paths. reflexivity. Qed.


(** C5 (the code at the failing input): the flat-file PUT announces
    'Keep existing photo if no new photo is uploaded' and assigns the old
    [photo] to the value the request carries, but stores that value as it
    is serialised.  For a meal field that is a JSON array, sent without an
    upload, the assignment is lost: PUT /api/meals/0 answers 200 with the
    array, the array is stored in place of the record, whose photo
    reference is gone, and the photo file stays on disk with no record
    naming it.  The document-collection variant at the same request keeps
    the record and its photo. *)
Theorem C5_photo_lost_without_upload :
  let req := Request "0" (Some (JArr [])) None None "" in
  let mreq := Request ex_oid (Some (JArr [])) None None "" in
  let o := FlatFile.PUT_meals req ex_fw in
  let mo := @Mongo.PUT_meals Mongo.default_casts mreq ex_mw in
  file req = None
  /\ FlatFile.stored_photo ex_fw 0 = Some (JStr "/uploads/soup.png")
  /\ answer o = Some (Response 200%nat (Entity (FlatFile.EMeal (JArr []))))
  /\ FlatFile.data_file (final o)
     = Some (FlatFile.Document [JArr []] (Some (JArr [])))
  /\ FlatFile.stored_photo (final o) 0 = None
  /\ "/uploads/soup.png" ∈ files (FlatFile.disk (final o))
  /\ answer mo = Some (Response 200%nat (Entity (Mongo.EMeal (Some ex_oid) ex_meal)))
  /\ Mongo.meals (final mo) !! ex_oid = Some ex_meal.
Proof.
  cbv zeta. split; [reflexivity|]. split; [vm_compute; reflexivity|].
  split; [vm_compute; reflexivity|]. split; [vm_compute; reflexivity|].
  split; [vm_compute; reflexivity|]. split; [in_set|].
  split; vm_compute; reflexivity.
Qed.

(** ** C6: an id that names no meal *)

(** C6 (counterexample): in the document-collection variant, with no meal
    stored at all, DELETE /api/meals/abc answers 400 (the id does not cast
    to an ObjectId), and a PUT whose meal field does not parse answers 400
    whatever its id, the field being parsed before the meal is looked up. *)
Lemma C6_counterexample :
  let mw := Mongo.World ∅ ∅ true (Assets ∅ ∅) in
  status_of (@Mongo.DELETE_meals Mongo.default_casts (ex_delete "abc") mw)
  = Some 400%nat
  /\ forall (casts : Mongo.SchemaCasts) (id : string),
       status_of (@Mongo.PUT_meals casts (Request id None None None "") mw)
       = Some 400%nat.
Proof.
  cbv zeta. split; [vm_compute; reflexivity|].
  intros casts id. unfold Mongo.PUT_meals.
  rewrite (mongo_route_accepted None _ _ eq_refl). cbn [mongo_stored].
  apply try_catch_status_throw with (e := SyntaxError).
  rewrite mongo_put_meal_run. reflexivity.
Qed.

(** C6 (amended): flat-file variant: an id that [parseInt] does not map to
    a position of the [meals] array gets 404 from PUT and DELETE.
    Document-collection variant: an id that casts to an ObjectId under
    which no meal is stored gets 404 from DELETE, and from PUT when the
    meal field of the request parses; when it does not parse PUT answers
    400, and so do PUT and DELETE for an id that does not cast to an
    ObjectId. *)
Theorem C6_unknown_id `{!Mongo.SchemaCasts}
    (freq mreq : request) (fw : FlatFile.world) (mw : Mongo.world) (oid : string) :
  accepted (file freq) = true ->
  accepted (file mreq) = true ->
  (forall i, parseInt (params_id freq) = Some i ->
             ~ (0 <= i < Z.of_nat (length (FlatFile.meals (loaded fw))))) ->
  Mongo.castObjectId (JStr (params_id mreq)) = Some (Some oid) ->
  Mongo.meals mw !! oid = None ->
  Mongo.db_up mw = true ->
  answer (FlatFile.PUT_meals freq fw)
  = Some (Response 404%nat (ErrorText "Meal not found"))
  /\ answer (FlatFile.DELETE_meals freq fw)
     = Some (Response 404%nat (ErrorText "Meal not found"))
  /\ answer (Mongo.DELETE_meals mreq mw)
     = Some (Response 404%nat (ErrorText "Meal not found"))
  /\ (is_Some (body_meal mreq) ->
      answer (Mongo.PUT_meals mreq mw)
      = Some (Response 404%nat (ErrorText "Meal not found")))
  /\ (body_meal mreq = None ->
      status_of (Mongo.PUT_meals mreq mw) = Some 400%nat)
  /\ (forall r : request,
        Mongo.castObjectId (JStr (params_id r)) = None ->
        status_of (Mongo.DELETE_meals r mw) = Some 400%nat
        /\ (accepted (file r) = true ->
            status_of (Mongo.PUT_meals r mw) = Some 400%nat)).
Proof.
  intros Hfa Hma Hid Hcast Hnone Hup.
  destruct (flat_stored_fields (file freq) fw) as (_ & _ & Hl).
  destruct (mongo_stored_fields (file mreq) mw) as (Hm' & _ & Hup').
  split.
  { unfold FlatFile.PUT_meals. rewrite (flat_route_accepted _ _ _ Hfa).
    erewrite try_catch_ok; [reflexivity|].
    apply put_meal_not_found. rewrite Hl. apply index_ok_false, Hid. }
  split.
  { unfold FlatFile.DELETE_meals.
    erewrite try_catch_ok; [reflexivity|].
    apply delete_meal_not_found. apply index_ok_false, Hid. }
  split.
  { unfold Mongo.DELETE_meals.
    erewrite try_catch_ok; [reflexivity|].
    rewrite mongo_delete_meal_run, Hcast, Hup, Hnone. reflexivity. }
  split.
  { intros [parsed Hb]. unfold Mongo.PUT_meals.
    rewrite (mongo_route_accepted _ _ _ Hma).
    erewrite try_catch_ok; [reflexivity|].
    rewrite mongo_put_meal_run, Hb, Hcast, Hup', Hm', Hup, Hnone. reflexivity. }
  split.
  - intros Hb. unfold Mongo.PUT_meals.
    rewrite (mongo_route_accepted _ _ _ Hma).
    apply try_catch_status_throw with (e := SyntaxError).
    rewrite mongo_put_meal_run, Hb. reflexivity.
  - intros r Hbad. split.
    + apply try_catch_status_throw with (e := CastError).
      rewrite mongo_delete_meal_run, Hbad. reflexivity.
    + intros Hra. unfold Mongo.PUT_meals.
      rewrite (mongo_route_accepted _ _ _ Hra).
      destruct (JSON_parse (body_meal r)) as [parsed|e] eqn:Hparse.
      * apply try_catch_status_throw with (e := CastError).
        rewrite mongo_put_meal_run, Hparse, Hbad. reflexivity.
      * apply try_catch_status_throw with (e := e).
        rewrite mongo_put_meal_run, Hparse. reflexivity.
Qed.

Lemma C6_unknown_id_witness :
  let other := "000000000000000000000001" in
  answer (FlatFile.PUT_meals (ex_put "7" None) ex_fw)
  = Some (Response 404%nat (ErrorText "Meal not found"))
  /\ answer (FlatFile.DELETE_meals (ex_put "7" None) ex_fw)
     = Some (Response 404%nat (ErrorText "Meal not found"))
  /\ answer (@Mongo.DELETE_meals Mongo.default_casts (ex_put other None) ex_mw)
     = Some (Response 404%nat (ErrorText "Meal not found")).
Proof.
  cbv zeta.
  pose proof (@C6_unknown_id Mongo.default_casts
    (ex_put "7" None) (ex_put "000000000000000000000001" None) ex_fw ex_mw
    "000000000000000000000001"
    eq_refl eq_refl
    ltac:(intros i [= <-]; simpl; lia)
    ltac:(vm_compute; reflexivity) ltac:(vm_compute; reflexivity) eq_refl)
    as (H1 & H2 & H3 & _).
  split; [exact H1|]. split; [exact H2 | exact H3].
Defined.

(** ** C7: removing a photo whose file is not there *)

(** A body that names no [_id], or the one the document has, leaves the
    document in memory under its id. *)
Lemma set_keeps_id `{!Mongo.SchemaCasts} (fields : gmap string json) h oid :
  Mongo._id h = Some oid ->
  (forall v, fields !! "_id" = Some v -> Mongo.castObjectId v = Some (Some oid)) ->
  Mongo._id (Mongo.set_fields fields h) = Some oid.
Proof.
  intros Hid Hsame. destruct (set_fields_id fields h) as (-> & _ & _).
  unfold Mongo.set_path. destruct (fields !! "_id") as [v|]; [|exact Hid].
  rewrite (Hsame v eq_refl). reflexivity.
Qed.

(** C7: for a meal whose [photo] names a file that does not exist, the
    removal step returns normally and changes nothing, and the operation
    around it goes through.  DELETE answers 200 with the meal and removes
    the record (flat file: the array without it is written; document
    collection: the document is deleted), the asset files staying as they
    are.  A PUT with a new photo answers 200 with the updated record and
    stores it in place of the old one, the upload being the only file that
    appears; in the document-collection variant it does so unless a
    supplied value fails to cast, which is answered 400 as a validation
    error with the collection unchanged. *)
Theorem C7_absent_photo_file `{!Mongo.SchemaCasts}
    (p : string) (f : upload) (fields : gmap string json)
    (freq mreq : request)
    (fw : FlatFile.world) (i : Z) (meal : json)
    (mw : Mongo.world) (oid : string) (mdoc : Mongo.MealDoc) :
  p ∉ files (FlatFile.disk fw) -> p ∉ files (Mongo.disk mw) ->
  p <> photo_path f ->
  file freq = Some f -> file mreq = Some f -> accepted (Some f) = true ->
  body_meal freq = Some (JObj fields) -> body_meal mreq = Some (JObj fields) ->
  parseInt (params_id freq) = Some i -> 0 <= i ->
  FlatFile.meals (loaded fw) !! Z.to_nat i = Some meal ->
  get_field meal "photo" = Ok (Some (JStr p)) ->
  FlatFile.writable fw = true ->
  Mongo.castObjectId (JStr (params_id mreq)) = Some (Some oid) ->
  Mongo.meals mw !! oid = Some mdoc ->
  Mongo.photo mdoc = Some p ->
  Mongo.db_up mw = true ->
  (forall v, fields !! "_id" = Some v -> Mongo.castObjectId v = Some (Some oid)) ->
  let updated := JObj (<["photo" := JStr (photo_path f)]> fields) in
  let h := Mongo.set updated (Mongo.Hydrated (Some oid) mdoc mdoc false false) in
  removePhoto (Some (JStr p)) (FlatFile.disk fw) = Outcome (Ok tt) (FlatFile.disk fw) []
  /\ removePhoto (Some (JStr p)) (Mongo.disk mw) = Outcome (Ok tt) (Mongo.disk mw) []
  /\ (answer (FlatFile.DELETE_meals freq fw)
      = Some (Response 200%nat (Entity (FlatFile.EMeal meal)))
      /\ FlatFile.data_file (final (FlatFile.DELETE_meals freq fw))
         = Some (FlatFile.Document (delete (Z.to_nat i) (FlatFile.meals (loaded fw)))
                                   (FlatFile.headings (loaded fw)))
      /\ FlatFile.disk (final (FlatFile.DELETE_meals freq fw)) = FlatFile.disk fw)
  /\ (answer (Mongo.DELETE_meals mreq mw)
      = Some (Response 200%nat (Entity (Mongo.EMeal (Some oid) mdoc)))
      /\ Mongo.meals (final (Mongo.DELETE_meals mreq mw)) = delete oid (Mongo.meals mw)
      /\ Mongo.disk (final (Mongo.DELETE_meals mreq mw)) = Mongo.disk mw)
  /\ (answer (FlatFile.PUT_meals freq fw)
      = Some (Response 200%nat (Entity (FlatFile.EMeal updated)))
      /\ FlatFile.data_file (final (FlatFile.PUT_meals freq fw))
         = Some (FlatFile.Document
                   (<[Z.to_nat i := updated]> (FlatFile.meals (loaded fw)))
                   (FlatFile.headings (loaded fw)))
      /\ FlatFile.disk (final (FlatFile.PUT_meals freq fw))
         = FlatFile.disk (flat_stored (Some f) fw))
  /\ (Mongo.invalid h = false ->
      answer (Mongo.PUT_meals mreq mw)
      = Some (Response 200%nat (Entity (Mongo.EMeal (Some oid) (Mongo.doc h))))
      /\ Mongo.meals (final (Mongo.PUT_meals mreq mw))
         = <[oid := Mongo.doc h]> (Mongo.meals mw)
      /\ Mongo.photo (Mongo.doc h) = Some (photo_path f)
      /\ Mongo.disk (final (Mongo.PUT_meals mreq mw))
         = Mongo.disk (mongo_stored (Some f) mw))
  /\ (Mongo.invalid h = true ->
      answer (Mongo.PUT_meals mreq mw)
      = Some (Response 400%nat (ErrorMessage ValidationError))
      /\ Mongo.meals (final (Mongo.PUT_meals mreq mw)) = Mongo.meals mw).
Proof.
  intros Hpf Hpm Hne Hff Hmf Hacc Hfb Hmb Hi Hi0 Hmeal Hphoto Hw Hcast Hdoc Hmp Hup
    Hsame updated h.
  assert (Hr : 0 <= i < Z.of_nat (length (FlatFile.meals (loaded fw)))).
  { apply lookup_lt_Some in Hmeal. lia. }
  pose proof (removePhoto_absent p _ Hpf) as Hrf.
  pose proof (removePhoto_absent p _ Hpm) as Hrm.
  split; [exact Hrf|]. split; [exact Hrm|].
  split.
  { unfold FlatFile.DELETE_meals, try_catch.
    rewrite (delete_meal_run freq fw i Hi Hr). cbv zeta.
    rewrite Hmeal, Hphoto, Hrf, Hw. repeat split. }
  split.
  { unfold Mongo.DELETE_meals, try_catch.
    rewrite mongo_delete_meal_run, Hcast, Hup, Hdoc. cbv zeta.
    rewrite Hmp. cbn [fmap option_fmap option_map]. rewrite Hrm.
    repeat split. }
  (* with the new file stored by the middleware, the old one is still absent *)
  assert (Hpf' : p ∉ files (FlatFile.disk (flat_stored (Some f) fw))).
  { cbn [flat_stored FlatFile.disk files].
    intros [Hin%elem_of_singleton|Hin]%elem_of_union; contradiction. }
  assert (Hpm' : p ∉ files (Mongo.disk (mongo_stored (Some f) mw))).
  { cbn [mongo_stored Mongo.disk files].
    intros [Hin%elem_of_singleton|Hin]%elem_of_union; contradiction. }
  split.
  { unfold FlatFile.PUT_meals. rewrite Hff.
    rewrite (flat_route_accepted _ _ _ Hacc). unfold try_catch.
    rewrite (put_meal_run freq (flat_stored (Some f) fw) i Hi Hr). cbv zeta.
    rewrite Hfb, Hff. cbn [JSON_parse].
    unfold photo_read, element. destruct (Z.ltb_spec i 0); [lia|].
    change (loaded (flat_stored (Some f) fw)) with (loaded fw).
    rewrite Hmeal, Hphoto. rewrite (removePhoto_absent p _ Hpf').
    cbn [res final set_field flat_stored FlatFile.writable]. rewrite Hw.
    repeat split. }
  assert (Hrun : Mongo.PUT_meals mreq mw
                 = try_catch (fun w =>
                     if Mongo.invalid h
                     then Outcome (Throw ValidationError) (mongo_stored (Some f) mw) []
                     else Outcome (Ok (res_json (Mongo.EMeal (Some oid) (Mongo.doc h))))
                            (Mongo.World (<[oid := Mongo.doc h]> (Mongo.meals mw))
                               (Mongo.headings mw) true
                               (Mongo.disk (mongo_stored (Some f) mw))) [])
                     400%nat mw).
  { unfold Mongo.PUT_meals. rewrite Hmf.
    rewrite (mongo_route_accepted _ _ _ Hacc).
    unfold try_catch. rewrite mongo_put_meal_run. cbv zeta.
    rewrite Hmb, Hmf, Hcast.
    cbn [JSON_parse mongo_stored Mongo.db_up Mongo.meals Mongo.headings].
    rewrite Hup, Hdoc. cbn [photo_step]. rewrite Hmp.
    cbn [fmap option_fmap option_map].
    pose proof (removePhoto_absent p _ Hpm') as Hrm'.
    cbn [mongo_stored Mongo.disk] in Hrm' |- *. rewrite Hrm'.
    cbn [res final Mongo.assign set_field new_photo fmap option_fmap option_map].
    fold updated. fold h.
    assert (Hid : Mongo._id h = Some oid).
    { unfold h, Mongo.set. apply set_keeps_id; [reflexivity|].
      unfold updated. cbn [Mongo.own_fields]. intros v Hv.
      rewrite lookup_insert_ne in Hv by discriminate. exact (Hsame v Hv). }
    destruct (Mongo.invalid h); [reflexivity|].
    rewrite Hid. cbn [mbind option_bind default from_option id]. rewrite Hdoc.
    rewrite apply_changes_same. reflexivity. }
  split.
  - intros Hv. rewrite Hrun. unfold try_catch. rewrite Hv. cbn [res final answer].
    split; [reflexivity|]. split; [reflexivity|]. split; [|reflexivity].
    unfold h, Mongo.set. rewrite set_fields_photo.
    unfold updated. cbn [Mongo.own_fields Mongo.doc]. rewrite lookup_insert_eq.
    cbn [Mongo.set_path]. rewrite Mongo.castString_string. reflexivity.
  - intros Hv. rewrite Hrun. unfold try_catch. rewrite Hv. split; reflexivity.
Qed.

Lemma C7_absent_photo_file_witness :
  let fw := FlatFile.World (FlatFile.data_file ex_fw) true (Assets ∅ ∅) in
  let mw := Mongo.World (Mongo.meals ex_mw) ∅ true (Assets ∅ ∅) in
  answer (FlatFile.DELETE_meals (ex_put "0" (Some ex_png)) fw)
  = Some (Response 200%nat (Entity (FlatFile.EMeal ex_soup)))
  /\ Mongo.meals (final (@Mongo.DELETE_meals Mongo.default_casts
                           (ex_put ex_oid (Some ex_png)) mw))
     = delete ex_oid (Mongo.meals mw)
  /\ FlatFile.data_file (final (FlatFile.PUT_meals (ex_put "0" (Some ex_png)) fw))
     = Some (FlatFile.Document
               (<[Z.to_nat 0 := JObj (<["photo" := JStr (photo_path ex_png)]> ex_rename)]>
                  (FlatFile.meals (loaded fw)))
               (FlatFile.headings (loaded fw)))
  /\ Mongo.meals (final (@Mongo.PUT_meals Mongo.default_casts
                           (ex_put ex_oid (Some ex_png)) mw)) !! ex_oid
     = Some (Mongo.Meal (Some "Stew") (Some "Tomato soup") (Some (photo_path ex_png))
                        (Some true) None).
Proof.
  cbv zeta.
  pose proof (@C7_absent_photo_file Mongo.default_casts
    "/uploads/soup.png" ex_png ex_rename
    (ex_put "0" (Some ex_png)) (ex_put ex_oid (Some ex_png))
    (FlatFile.World (FlatFile.data_file ex_fw) true (Assets ∅ ∅)) 0 ex_soup
    (Mongo.World (Mongo.meals ex_mw) ∅ true (Assets ∅ ∅)) ex_oid ex_meal
    ltac:(apply not_elem_of_empty) ltac:(apply not_elem_of_empty)
    ltac:(vm_compute; discriminate)
    eq_refl eq_refl eq_refl eq_refl eq_refl eq_refl ltac:(lia) eq_refl
    ltac:(vm_compute; reflexivity) eq_refl
    ltac:(vm_compute; reflexivity) ltac:(vm_compute; reflexivity) eq_refl eq_refl
    ltac:(intros v Hv; vm_compute in Hv; discriminate))
    as (_ & _ & (H1 & _) & (_ & H2 & _) & (_ & H3 & _) & H4 & _).
  split; [exact H1|]. split; [exact H2|]. split; [exact H3|].
  destruct (H4 ltac:(vm_compute; reflexivity)) as (_ & -> & _).
  vm_compute. reflexivity.
Defined.

(** ** C8: deleting a heading *)

(** C8: DELETE /api/headings/:id leaves every meal as it is, whatever the
    id and whether or not a heading is found under it (meals that reference
    the heading included): the [meals] collection and the asset files after
    the request are those before it. *)
Theorem C8_delete_heading_keeps_meals `{!Mongo.SchemaCasts}
    (req : request) (w : Mongo.world) :
  Mongo.meals (final (Mongo.DELETE_headings req w)) = Mongo.meals w
  /\ Mongo.disk (final (Mongo.DELETE_headings req w)) = Mongo.disk w
  /\ forall oid meal,
       Mongo.meals w !! oid = Some meal ->
       Mongo.castObjectId (JStr (params_id req)) = Some (Mongo.heading meal) ->
       Mongo.meals (final (Mongo.DELETE_headings req w)) !! oid = Some meal.
Proof.
  assert (Hm : Mongo.meals (final (Mongo.DELETE_headings req w)) = Mongo.meals w
               /\ Mongo.disk (final (Mongo.DELETE_headings req w)) = Mongo.disk w).
  { rewrite mongo_delete_heading_run.
    destruct (Mongo.castObjectId _) as [[oid|]|]; try (split; reflexivity).
    destruct (Mongo.db_up w); split; reflexivity. }
  destruct Hm as [Hm Hd]. split; [exact Hm|]. split; [exact Hd|].
  intros oid meal Hl _. rewrite Hm. exact Hl.
Qed.

(** ** C9: [readData] on a data file that cannot be read *)

(** C9 (counterexample): the data file can be neither read nor written.
    [readData] returns the empty document and GET /api/data answers 200,
    but the file has not been overwritten: the write that [readData]
    attempts fails, which [writeData] reports by [false] and [readData]
    ignores. *)
Lemma C9_counterexample :
  let w := FlatFile.World None false (Assets ∅ ∅) in
  FlatFile.readData w = Outcome (Ok FlatFile.initialData) w []
  /\ FlatFile.data_file (final (FlatFile.readData w)) = None
  /\ FlatFile.data_file (final (FlatFile.readData w)) <> Some FlatFile.initialData
  /\ status_of (FlatFile.GET_data w) = Some 200%nat.
Proof.
  cbv zeta. split; [reflexivity|]. split; [reflexivity|].
  split; [discriminate | reflexivity].
Qed.

(** C9 (amended): when [data.json] cannot be read or parsed, [readData]
    does not throw: it calls [writeData] with the empty document and
    returns the empty document.  The file holds the empty document
    afterwards exactly when that write goes through; when it fails too the
    failure is swallowed and the file is left as it was.  Either way GET
    /api/data answers 200 with empty collections rather than an error, now
    and on the next request. *)
Theorem C9_readData_resets_unreadable_store (w : FlatFile.world) :
  FlatFile.data_file w = None ->
  FlatFile.initialData = FlatFile.Document [] (Some (JArr []))
  /\ FlatFile.readData w
     = Outcome (Ok FlatFile.initialData)
               (final (FlatFile.writeData FlatFile.initialData w)) []
  /\ FlatFile.data_file (final (FlatFile.readData w))
     = (if FlatFile.writable w then Some FlatFile.initialData else None)
  /\ FlatFile.disk (final (FlatFile.readData w)) = FlatFile.disk w
  /\ answer (FlatFile.GET_data w)
     = Some (Response 200%nat (Entity (FlatFile.EData FlatFile.initialData)))
  /\ answer (FlatFile.GET_data (final (FlatFile.GET_data w)))
     = Some (Response 200%nat (Entity (FlatFile.EData FlatFile.initialData))).
Proof.
  intros Hd.
  assert (Hl : loaded w = FlatFile.initialData)
    by (unfold loaded; rewrite Hd; reflexivity).
  assert (Hget : forall w', loaded w' = FlatFile.initialData ->
            FlatFile.GET_data w'
            = Outcome (Ok (res_json (FlatFile.EData FlatFile.initialData)))
                      (after_read w') []).
  { intros w' Hl'. unfold FlatFile.GET_data, try_catch_text.
    rewrite (bind_ok _ _ _ _ _ _ (readData_run w')). rewrite Hl'. reflexivity. }
  split; [reflexivity|].
  rewrite readData_run, Hl.
  split.
  { f_equal. rewrite writeData_run. unfold after_read. rewrite Hd.
    destruct (FlatFile.writable w); reflexivity. }
  split.
  { cbn [final]. unfold after_read. rewrite Hd.
    destruct (FlatFile.writable w); [reflexivity | exact Hd]. }
  split; [apply after_read_disk|].
  rewrite (Hget w Hl). split; [reflexivity|].
  cbn [final]. rewrite Hget; [reflexivity|].
  unfold loaded, after_read. rewrite Hd.
  destruct (FlatFile.writable w); cbn [FlatFile.data_file]; rewrite ?Hd; reflexivity.
Qed.

Lemma C9_readData_resets_unreadable_store_witness :
  let w := FlatFile.World None true (FlatFile.disk ex_fw) in
  FlatFile.data_file (final (FlatFile.readData w)) = Some FlatFile.initialData
  /\ answer (FlatFile.GET_data w)
     = Some (Response 200%nat (Entity (FlatFile.EData FlatFile.initialData))).
Proof.
  cbv zeta.
  pose proof (C9_readData_resets_unreadable_store
                (FlatFile.World None true (FlatFile.disk ex_fw)) eq_refl)
    as (_ & _ & Hw & _ & Hg & _).
  split; [exact Hw | exact Hg].
Defined.

(** ** C10: an id outside the [meals] array, flat-file variant *)

(** C10 (counterexample): DELETE /api/meals/abc on a data file that cannot
    be read (but can be written) answers 404, but the data file has been
    written: [readData] replaced it with the empty document before the
    index was looked at. *)
Lemma C10_counterexample :
  let w := FlatFile.World None true (Assets ∅ ∅) in
  parseInt "abc" = None
  /\ status_of (FlatFile.DELETE_meals (ex_delete "abc") w) = Some 404%nat
  /\ FlatFile.data_file w = None
  /\ FlatFile.data_file (final (FlatFile.DELETE_meals (ex_delete "abc") w))
     = Some FlatFile.initialData.
Proof.
  cbv zeta. repeat split; vm_compute; reflexivity.
Qed.

(** C10 (amended): for an id that [parseInt] does not map to a position of
    the [meals] array ([NaN] included), PUT (its upload, if any, having
    passed the upload middleware) and DELETE answer 404 having made no
    indexed access to the array at all; no asset file is removed or
    changed (the only file that can appear is the upload the middleware
    stored before PUT's handler ran); and the data file is left as
    [readData] left it: untouched when it could be read; when it could not,
    replaced by the empty document if it can be written and left as it
    was if it cannot.  On every request, whatever its id, each indexed
    access the two routes make is within the array. *)
Theorem C10_out_of_range_id (req : request) (w : FlatFile.world) :
  accepted (file req) = true ->
  (forall i, parseInt (params_id req) = Some i ->
             ~ (0 <= i < Z.of_nat (length (FlatFile.meals (loaded w))))) ->
  let p := FlatFile.PUT_meals req w in
  let d := FlatFile.DELETE_meals req w in
  (status_of p = Some 404%nat /\ status_of d = Some 404%nat)
  /\ (reads p = [] /\ reads d = [])
  /\ (FlatFile.disk (final d) = FlatFile.disk w
      /\ FlatFile.disk (final p) = FlatFile.disk (flat_stored (file req) w)
      /\ files (FlatFile.disk w) ⊆ files (FlatFile.disk (final p))
      /\ (file req = None -> FlatFile.disk (final p) = FlatFile.disk w))
  /\ (FlatFile.data_file (final p) = FlatFile.data_file (final (FlatFile.readData w))
      /\ FlatFile.data_file (final d) = FlatFile.data_file (final (FlatFile.readData w)))
  /\ (is_Some (FlatFile.data_file w) ->
      FlatFile.data_file (final p) = FlatFile.data_file w
      /\ FlatFile.data_file (final d) = FlatFile.data_file w)
  /\ (FlatFile.data_file w = None ->
      let left := if FlatFile.writable w then Some FlatFile.initialData else None in
      FlatFile.data_file (final p) = left /\ FlatFile.data_file (final d) = left)
  /\ (forall req' w', Forall in_bounds (reads (FlatFile.PUT_meals req' w'))
                      /\ Forall in_bounds (reads (FlatFile.DELETE_meals req' w'))).
Proof.
  intros Ha Hid p d.
  destruct (flat_stored_fields (file req) w) as (Hdf & Hwr & Hl).
  assert (Hp : p = Outcome (Ok FlatFile.not_found)
                           (after_read (flat_stored (file req) w)) []).
  { unfold p, FlatFile.PUT_meals. rewrite (flat_route_accepted _ _ _ Ha).
    apply try_catch_ok, put_meal_not_found. rewrite Hl.
    apply index_ok_false, Hid. }
  assert (Hd : d = Outcome (Ok FlatFile.not_found) (after_read w) []).
  { unfold d, FlatFile.DELETE_meals.
    apply try_catch_ok, delete_meal_not_found, index_ok_false, Hid. }
  assert (Hsame : FlatFile.data_file (after_read (flat_stored (file req) w))
                  = FlatFile.data_file (after_read w)).
  { apply after_read_stored. }
  rewrite Hp, Hd, readData_run. cbn [final reads].
  split; [split; reflexivity|]. split; [split; reflexivity|].
  split.
  { rewrite !after_read_disk. split; [reflexivity|]. split; [reflexivity|].
    split; [destruct (file req); cbn [flat_stored FlatFile.disk files];
            [apply union_subseteq_r | reflexivity]|].
    intros ->. reflexivity. }
  split; [split; [exact Hsame | reflexivity]|].
  split.
  { intros Hs. rewrite Hsame, (after_read_readable _ Hs). split; reflexivity. }
  split.
  { intros Hn. cbv zeta. rewrite Hsame. unfold after_read. rewrite Hn.
    destruct (FlatFile.writable w); split; first [reflexivity | exact Hn]. }
  intros req' w'. split; [apply safe_PUT_meals | apply safe_DELETE_meals].
Qed.

Lemma C10_out_of_range_id_witness :
  status_of (FlatFile.PUT_meals (ex_put "1" None) ex_fw) = Some 404%nat
  /\ status_of (FlatFile.DELETE_meals (ex_put "1" None) ex_fw) = Some 404%nat
  /\ FlatFile.data_file (final (FlatFile.DELETE_meals (ex_put "1" None) ex_fw))
     = FlatFile.data_file ex_fw.
Proof.
  pose proof (C10_out_of_range_id (ex_put "1" None) ex_fw eq_refl
                ltac:(intros i [= <-]; simpl; lia))
    as ((H1 & H2) & _ & _ & _ & H3 & _).
  split; [exact H1|]. split; [exact H2|].
  exact (proj2 (H3 ltac:(eexists; reflexivity))).
Defined.

(** * Further properties of the code *)

(** ** The data file: [writeData] and [readData] *)

(** What [writeData] has written, [readData] returns, without writing
    again; neither touches the asset files. *)
Theorem writeData_readData_round_trip (data : FlatFile.document) (w : FlatFile.world) :
  FlatFile.writable w = true ->
  res (FlatFile.writeData data w) = Ok true
  /\ FlatFile.readData (final (FlatFile.writeData data w))
     = Outcome (Ok data) (final (FlatFile.writeData data w)) []
  /\ FlatFile.disk (final (FlatFile.writeData data w)) = FlatFile.disk w.
Proof.
  intros Hw. rewrite writeData_run, Hw. cbn [res final].
  rewrite readData_run. repeat split.
Qed.

Lemma writeData_readData_round_trip_witness :
  FlatFile.readData (final (FlatFile.writeData FlatFile.initialData ex_fw))
  = Outcome (Ok FlatFile.initialData)
            (final (FlatFile.writeData FlatFile.initialData ex_fw)) [].
Proof.
  exact (proj1 (proj2 (writeData_readData_round_trip FlatFile.initialData ex_fw eq_refl))).
Defined.

(** [readData] never throws, touches no asset file, and is idempotent:
    read again, it returns the same document and writes nothing more. *)
Theorem readData_idempotent (w : FlatFile.world) :
  exists data w',
    FlatFile.readData w = Outcome (Ok data) w' []
    /\ FlatFile.readData w' = Outcome (Ok data) w' []
    /\ FlatFile.disk w' = FlatFile.disk w
    /\ (is_Some (FlatFile.data_file w) -> w' = w /\ FlatFile.data_file w = Some data).
Proof.
  exists (loaded w), (after_read w). rewrite !readData_run.
  split; [reflexivity|]. split.
  { f_equal.
    - f_equal. unfold loaded, after_read.
      destruct (FlatFile.data_file w) eqn:Hd; [rewrite Hd; reflexivity|].
      destruct (FlatFile.writable w); cbn [FlatFile.data_file]; rewrite ?Hd; reflexivity.
    - unfold after_read at 1.
      destruct (FlatFile.data_file (after_read w)) eqn:Hd; [reflexivity|].
      unfold after_read in Hd |- *.
      destruct (FlatFile.data_file w) eqn:Hd'; [congruence|].
      destruct (FlatFile.writable w) eqn:Hw; [discriminate|].
      rewrite Hw. reflexivity. }
  split; [apply after_read_disk|].
  intros [d Hd]. split; [apply after_read_readable; eauto|].
  unfold loaded. rewrite Hd. reflexivity.
Qed.

(** GET /api/data of the flat-file variant always answers 200 (its 500
    branch cannot be reached, [readData] catching every failure itself),
    with the content of the data file when it can be read. *)
Theorem flat_GET_data_always_200 (w : FlatFile.world) :
  status_of (FlatFile.GET_data w) = Some 200%nat
  /\ forall data, FlatFile.data_file w = Some data ->
       FlatFile.GET_data w = Outcome (Ok (res_json (FlatFile.EData data))) w [].
Proof.
  assert (Hrun : FlatFile.GET_data w
                 = Outcome (Ok (res_json (FlatFile.EData (loaded w)))) (after_read w) []).
  { unfold FlatFile.GET_data, try_catch_text.
    rewrite (bind_ok _ _ _ _ _ _ (readData_run w)). reflexivity. }
  rewrite Hrun. split; [reflexivity|].
  intros data Hd. unfold loaded, after_read. rewrite Hd. reflexivity.
Qed.

(** ** The flat-file meal routes *)

(** What POST answers and leaves behind once the upload is stored, the
    body holds an object and the data file can be written. *)
Lemma flat_POST_outcome (req : request) (fields : gmap string json)
    (w : FlatFile.world) (data : FlatFile.document) :
  accepted (file req) = true ->
  body_meal req = Some (JObj fields) ->
  FlatFile.data_file w = Some data ->
  FlatFile.writable w = true ->
  let photo := match file req with Some f => photo_path f | None => "" end in
  let meal := JObj (<["photo" := JStr photo]> fields) in
  FlatFile.POST_meals req w
  = Outcome (Ok (res_json (FlatFile.EMeal meal)))
      (FlatFile.World
         (Some (FlatFile.Document (FlatFile.meals data ++ [meal])
                                  (FlatFile.headings data)))
         true (FlatFile.disk (flat_stored (file req) w))) [].
Proof.
  intros Ha Hb Hd Hw photo meal.
  destruct (flat_stored_fields (file req) w) as (Hdf & Hwr & Hl).
  unfold FlatFile.POST_meals. rewrite (flat_route_accepted _ _ _ Ha).
  apply try_catch_ok. rewrite post_meal_run, Hb, Hwr, Hw, Hl.
  cbn [JSON_parse set_field]. unfold loaded. rewrite Hd. reflexivity.
Qed.

(** A successful POST appends the meal to the array: the records already
    stored keep their positions and the headings are kept; the new record
    is the object of the request with [photo] set by the handler (the
    path of the upload, or the empty string), whatever [photo] the request
    itself named. *)
Theorem flat_POST_appends (req : request) (fields : gmap string json)
    (w : FlatFile.world) (data : FlatFile.document) :
  accepted (file req) = true ->
  body_meal req = Some (JObj fields) ->
  FlatFile.data_file w = Some data ->
  FlatFile.writable w = true ->
  let photo := match file req with Some f => photo_path f | None => "" end in
  let meal := JObj (<["photo" := JStr photo]> fields) in
  let o := FlatFile.POST_meals req w in
  answer o = Some (Response 200%nat (Entity (FlatFile.EMeal meal)))
  /\ FlatFile.data_file (final o)
     = Some (FlatFile.Document (FlatFile.meals data ++ [meal]) (FlatFile.headings data))
  /\ (forall k, k <> "photo" ->
        FlatFile.stored_field (final o) (length (FlatFile.meals data)) k = fields !! k)
  /\ FlatFile.stored_photo (final o) (length (FlatFile.meals data)) = Some (JStr photo)
  /\ (forall j k, (j < length (FlatFile.meals data))%nat ->
        FlatFile.stored_field (final o) j k = FlatFile.stored_field w j k)
  /\ FlatFile.disk (final o) = FlatFile.disk (flat_stored (file req) w).
Proof.
  intros Ha Hb Hd Hw photo meal o.
  assert (Ho := flat_POST_outcome req fields w data Ha Hb Hd Hw).
  cbv zeta in Ho. fold photo meal o in Ho.
  rewrite Ho. cbn [answer res final FlatFile.data_file FlatFile.disk].
  split; [reflexivity|]. split; [reflexivity|].
  unfold FlatFile.stored_photo, FlatFile.stored_field.
  cbn [FlatFile.data_file FlatFile.meals mbind option_bind]. rewrite Hd.
  cbn [mbind option_bind].
  split; [|split; [|split; [|reflexivity]]].
  - intros k Hk. rewrite lookup_app_r by lia. rewrite Nat.sub_diag.
    cbn [lookup list_lookup mbind option_bind get_field].
    apply lookup_insert_ne. congruence.
  - rewrite lookup_app_r by lia. rewrite Nat.sub_diag.
    cbn [lookup list_lookup mbind option_bind get_field].
    apply lookup_insert_eq.
  - intros j k Hj. rewrite lookup_app_l by exact Hj. reflexivity.
Qed.

Lemma flat_POST_appends_witness :
  FlatFile.data_file (final (FlatFile.POST_meals (ex_put "" (Some ex_png)) ex_fw))
  = Some (FlatFile.Document
            ([ex_soup] ++ [JObj (<["photo" := JStr (photo_path ex_png)]> ex_rename)])
            (Some (JArr []))).
Proof.
  exact (proj1 (proj2 (flat_POST_appends (ex_put "" (Some ex_png)) ex_rename ex_fw
                         (FlatFile.Document [ex_soup] (Some (JArr [])))
                         eq_refl eq_refl eq_refl eq_refl))).
Defined.



(** Whenever PUT answers 200, the id named a position of the array, and
    the data file holds the array with the record at that position
    replaced: the array has the same length, every other record and the
    headings are as they were. *)
Theorem flat_PUT_replaces_one_record (req : request) (w : FlatFile.world) :
  status_of (FlatFile.PUT_meals req w) = Some 200%nat ->
  exists i updated data',
    parseInt (params_id req) = Some i
    /\ 0 <= i < Z.of_nat (length (FlatFile.meals (loaded w)))
    /\ answer (FlatFile.PUT_meals req w)
       = Some (Response 200%nat (Entity (FlatFile.EMeal updated)))
    /\ FlatFile.data_file (final (FlatFile.PUT_meals req w)) = Some data'
    /\ FlatFile.meals data' = <[Z.to_nat i := updated]> (FlatFile.meals (loaded w))
    /\ FlatFile.meals data' !! Z.to_nat i = Some updated
    /\ length (FlatFile.meals data') = length (FlatFile.meals (loaded w))
    /\ FlatFile.headings data' = FlatFile.headings (loaded w)
    /\ forall j, j <> Z.to_nat i ->
         FlatFile.meals data' !! j = FlatFile.meals (loaded w) !! j.
Proof.
  intros Hs. unfold FlatFile.PUT_meals in *.
  destruct (flat_route_ok _ _ _ 200%nat ltac:(discriminate) Hs) as [Ha Hroute].
  rewrite Hroute in *. clear Hroute.
  destruct (flat_stored_fields (file req) w) as (_ & Hwr & Hl).
  apply try_catch_200 in Hs as (r & Hres & Hst & ->).
  destruct (FlatFile.index_ok (parseInt (params_id req)) (loaded (flat_stored (file req) w)))
    eqn:Hi.
  2:{ rewrite (put_meal_not_found _ _ Hi) in Hres. cbn [res] in Hres.
      injection Hres as <-. discriminate Hst. }
  apply index_ok_true in Hi as (i & Hi & Hr).
  rewrite (put_meal_run req _ i Hi Hr) in Hres |- *. cbv zeta in Hres |- *.
  rewrite Hl in *. rewrite Hwr in *.
  exists i.
  destruct (JSON_parse (body_meal req)) as [parsed|]; [|discriminate].
  destruct (photo_read (loaded w) i) as [old|]; [|discriminate].
  assert (Hfin : forall updated,
            <[Z.to_nat i := updated]> (FlatFile.meals (loaded w)) !! Z.to_nat i
              = Some updated
            /\ length (<[Z.to_nat i := updated]> (FlatFile.meals (loaded w)))
               = length (FlatFile.meals (loaded w))
            /\ FlatFile.headings (loaded w) = FlatFile.headings (loaded w)
            /\ forall j, j <> Z.to_nat i ->
                 <[Z.to_nat i := updated]> (FlatFile.meals (loaded w)) !! j
                 = FlatFile.meals (loaded w) !! j).
  { intros updated. split; [apply list_lookup_insert_eq; lia|].
    split; [apply length_insert|]. split; [reflexivity|].
    intros j Hj. apply list_lookup_insert_ne. congruence. }
  destruct (file req) as [f|].
  - destruct (res (removePhoto old _)); [|discriminate].
    destruct (set_field parsed "photo" _) as [updated|]; [|discriminate].
    destruct (FlatFile.writable w); [|discriminate].
    exists updated. eexists. split; [exact Hi|]. split; [exact Hr|].
    split; [reflexivity|]. split; [reflexivity|]. split; [reflexivity|].
    apply Hfin.
  - destruct (set_field parsed "photo" old) as [updated|]; [|discriminate].
    destruct (FlatFile.writable w); [|discriminate].
    exists updated. eexists. split; [exact Hi|]. split; [exact Hr|].
    split; [reflexivity|]. split; [reflexivity|]. split; [reflexivity|].
    apply Hfin.
Qed.

Lemma flat_PUT_replaces_one_record_witness :
  exists i updated data',
    parseInt "0" = Some i
    /\ answer (FlatFile.PUT_meals (ex_put "0" None) ex_fw)
       = Some (Response 200%nat (Entity (FlatFile.EMeal updated)))
    /\ FlatFile.data_file (final (FlatFile.PUT_meals (ex_put "0" None) ex_fw))
       = Some data'.
Proof.
  destruct (flat_PUT_replaces_one_record (ex_put "0" None) ex_fw
              ltac:(vm_compute; reflexivity))
    as (i & updated & data' & H1 & _ & H2 & H3 & _).
  exists i, updated, data'. split; [exact H1|]. split; [exact H2 | exact H3].
Defined.

(** Whenever DELETE answers 200, the id named a position of the array; the
    answer is the record that was there, and the data file holds the array
    without it: one record fewer, the records before it in place, those
    after it moved down by one position (so that their ids change). *)
Theorem flat_DELETE_shifts_records (req : request) (w : FlatFile.world) :
  status_of (FlatFile.DELETE_meals req w) = Some 200%nat ->
  exists i meal data',
    parseInt (params_id req) = Some i
    /\ FlatFile.meals (loaded w) !! Z.to_nat i = Some meal
    /\ answer (FlatFile.DELETE_meals req w)
       = Some (Response 200%nat (Entity (FlatFile.EMeal meal)))
    /\ FlatFile.data_file (final (FlatFile.DELETE_meals req w)) = Some data'
    /\ S (length (FlatFile.meals data')) = length (FlatFile.meals (loaded w))
    /\ FlatFile.headings data' = FlatFile.headings (loaded w)
    /\ (forall j, (j < Z.to_nat i)%nat ->
          FlatFile.meals data' !! j = FlatFile.meals (loaded w) !! j)
    /\ (forall j, (Z.to_nat i <= j)%nat ->
          FlatFile.meals data' !! j = FlatFile.meals (loaded w) !! S j).
Proof.
  intros Hs. unfold FlatFile.DELETE_meals in *.
  apply try_catch_200 in Hs as (r & Hres & Hst & ->).
  destruct (FlatFile.index_ok (parseInt (params_id req)) (loaded w)) eqn:Hi.
  2:{ rewrite (delete_meal_not_found _ _ Hi) in Hres. cbn [res] in Hres.
      injection Hres as <-. discriminate Hst. }
  apply index_ok_true in Hi as (i & Hi & Hr).
  rewrite (delete_meal_run req _ i Hi Hr) in Hres |- *. cbv zeta in Hres |- *.
  exists i.
  destruct (FlatFile.meals (loaded w) !! Z.to_nat i) as [meal|] eqn:Hm; [|discriminate].
  destruct (get_field meal "photo") as [photo|]; [|discriminate].
  destruct (res (removePhoto photo _)); [|discriminate].
  destruct (FlatFile.writable w); [|discriminate].
  exists meal. eexists. split; [exact Hi|]. split; [reflexivity|].
  split; [reflexivity|]. split; [reflexivity|]. cbn [FlatFile.meals FlatFile.headings].
  split.
  { rewrite length_delete by eauto. apply lookup_lt_Some in Hm. lia. }
  split; [reflexivity|]. split.
  - intros j Hj. apply list_lookup_delete_lt. exact Hj.
  - intros j Hj. apply list_lookup_delete_ge. exact Hj.
Qed.

Lemma flat_DELETE_shifts_records_witness :
  exists i meal data',
    parseInt "0" = Some i
    /\ answer (FlatFile.DELETE_meals (ex_delete "0") ex_fw)
       = Some (Response 200%nat (Entity (FlatFile.EMeal meal)))
    /\ FlatFile.data_file (final (FlatFile.DELETE_meals (ex_delete "0") ex_fw))
       = Some data'.
Proof.
  destruct (flat_DELETE_shifts_records (ex_delete "0") ex_fw
              ltac:(vm_compute; reflexivity))
    as (i & meal & data' & H1 & _ & H2 & H3 & _).
  exists i, meal, data'. split; [exact H1|]. split; [exact H2 | exact H3].
Defined.

(** ** Record and photo file are not changed together *)

(** DELETE removes the photo file before it writes the data file: when
    that write fails the answer is 400 and the record is still stored, but
    the file its [photo] names is gone. *)
Theorem flat_DELETE_write_failure_loses_photo (req : request) (w : FlatFile.world)
    (data : FlatFile.document) (i : Z) (meal : json) (p : string) :
  FlatFile.data_file w = Some data ->
  FlatFile.writable w = false ->
  parseInt (params_id req) = Some i -> 0 <= i ->
  FlatFile.meals data !! Z.to_nat i = Some meal ->
  get_field meal "photo" = Ok (Some (JStr p)) ->
  p <> "" -> p ∈ files (FlatFile.disk w) -> p ∉ locked (FlatFile.disk w) ->
  let o := FlatFile.DELETE_meals req w in
  answer o = Some (Response 400%nat (ErrorMessage (Error "Failed to save data")))
  /\ FlatFile.data_file (final o) = Some data
  /\ FlatFile.stored_photo (final o) (Z.to_nat i) = Some (JStr p)
  /\ p ∉ files (FlatFile.disk (final o)).
Proof.
  intros Hd Hw Hi Hi0 Hm Hp Hne Hin Hnl o.
  assert (Hl : loaded w = data) by (unfold loaded; rewrite Hd; reflexivity).
  assert (Hr : 0 <= i < Z.of_nat (length (FlatFile.meals (loaded w)))).
  { rewrite Hl. apply lookup_lt_Some in Hm. lia. }
  unfold o, FlatFile.DELETE_meals, try_catch.
  rewrite (delete_meal_run req w i Hi Hr). cbv zeta.
  rewrite Hl, Hm, Hp, (removePhoto_present p _ Hne Hin Hnl), Hw.
  cbn [res final answer FlatFile.data_file FlatFile.disk files].
  rewrite (after_read_readable w) by eauto. rewrite Hd.
  split; [reflexivity|]. split; [reflexivity|]. split.
  - unfold FlatFile.stored_photo, FlatFile.stored_field.
    cbn [FlatFile.data_file mbind option_bind]. rewrite Hm.
    cbn [mbind option_bind]. rewrite Hp. reflexivity.
  - intros [_ Hx]%elem_of_difference. apply Hx, elem_of_singleton. reflexivity.
Qed.

Lemma flat_DELETE_write_failure_loses_photo_witness :
  let w := FlatFile.World (FlatFile.data_file ex_fw) false (FlatFile.disk ex_fw) in
  status_of (FlatFile.DELETE_meals (ex_delete "0") w) = Some 400%nat
  /\ FlatFile.data_file (final (FlatFile.DELETE_meals (ex_delete "0") w))
     = FlatFile.data_file ex_fw
  /\ "/uploads/soup.png" ∉ files (FlatFile.disk (final (FlatFile.DELETE_meals (ex_delete "0") w))).
Proof.
  cbv zeta.
  pose proof (flat_DELETE_write_failure_loses_photo (ex_delete "0")
    (FlatFile.World (FlatFile.data_file ex_fw) false (FlatFile.disk ex_fw))
    (FlatFile.Document [ex_soup] (Some (JArr []))) 0 ex_soup "/uploads/soup.png"
    eq_refl eq_refl eq_refl ltac:(lia) eq_refl ltac:(vm_compute; reflexivity)
    ltac:(discriminate)
    ltac:(in_set) ltac:(not_in_set))
    as (H1 & H2 & _ & H4).
  split; [unfold status_of; rewrite H1; reflexivity|]. split; [exact H2 | exact H4].
Defined.

(** A photo file that cannot be removed fails the whole operation: DELETE
    answers 400 and changes nothing; a PUT that brings a new photo answers
    400 with the record unchanged, and the file it uploaded stays on disk
    with no record naming it. *)
Theorem flat_locked_photo_fails_request (req : request) (f : upload)
    (w : FlatFile.world) (data : FlatFile.document) (i : Z) (meal : json) (p : string) :
  FlatFile.data_file w = Some data ->
  parseInt (params_id req) = Some i -> 0 <= i ->
  FlatFile.meals data !! Z.to_nat i = Some meal ->
  get_field meal "photo" = Ok (Some (JStr p)) ->
  p <> "" -> p ∈ files (FlatFile.disk w) -> p ∈ locked (FlatFile.disk w) ->
  file req = Some f -> accepted (Some f) = true -> is_Some (body_meal req) ->
  (answer (FlatFile.DELETE_meals req w)
   = Some (Response 400%nat (ErrorMessage FsError))
   /\ final (FlatFile.DELETE_meals req w) = w)
  /\ (answer (FlatFile.PUT_meals req w)
      = Some (Response 400%nat (ErrorMessage FsError))
      /\ FlatFile.data_file (final (FlatFile.PUT_meals req w)) = Some data
      /\ files (FlatFile.disk (final (FlatFile.PUT_meals req w)))
         = {[photo_path f]} ∪ files (FlatFile.disk w)).
Proof.
  intros Hd Hi Hi0 Hm Hp Hne Hin Hlk Hf Ha [parsed Hb].
  assert (Hl : loaded w = data) by (unfold loaded; rewrite Hd; reflexivity).
  assert (Hr : 0 <= i < Z.of_nat (length (FlatFile.meals (loaded w)))).
  { rewrite Hl. apply lookup_lt_Some in Hm. lia. }
  assert (Hlocked : forall a, p ∈ files a -> p ∈ locked a ->
            removePhoto (Some (JStr p)) a = Outcome (Throw FsError) a []).
  { intros a Hia Hla. unfold removePhoto. cbn [truthy_opt truthy].
    destruct (String.eqb_spec p ""); [contradiction|]. cbn [negb path_join_dirname].
    rewrite bind_lift_ok, bind_get. unfold existsSync, unlinkSync.
    rewrite !bool_decide_eq_true_2 by assumption. reflexivity. }
  split.
  - unfold FlatFile.DELETE_meals, try_catch.
    rewrite (delete_meal_run req w i Hi Hr). cbv zeta.
    rewrite Hl, Hm, Hp, (Hlocked _ Hin Hlk). cbn [res final answer].
    split; [reflexivity|]. rewrite (after_read_readable w) by eauto.
    destruct w; reflexivity.
  - unfold FlatFile.PUT_meals. rewrite Hf, (flat_route_accepted _ _ _ Ha).
    unfold try_catch.
    rewrite (put_meal_run req (flat_stored (Some f) w) i Hi Hr). cbv zeta.
    rewrite Hb, Hf. cbn [JSON_parse].
    change (loaded (flat_stored (Some f) w)) with (loaded w).
    unfold photo_read, element. destruct (Z.ltb_spec i 0); [lia|].
    rewrite Hl, Hm, Hp.
    rewrite Hlocked;
      [| cbn [flat_stored FlatFile.disk files]; apply elem_of_union_r, Hin
       | exact Hlk ].
    cbn [res final answer FlatFile.data_file FlatFile.disk flat_stored files].
    split; [reflexivity|]. split; [|reflexivity].
    unfold after_read. cbn [FlatFile.data_file]. rewrite Hd. reflexivity.
Qed.

Lemma flat_locked_photo_fails_request_witness :
  let w := FlatFile.World (FlatFile.data_file ex_fw) true
             (Assets {[ "/uploads/soup.png" ]} {[ "/uploads/soup.png" ]}) in
  final (FlatFile.DELETE_meals (ex_put "0" (Some ex_png)) w) = w
  /\ FlatFile.data_file (final (FlatFile.PUT_meals (ex_put "0" (Some ex_png)) w))
     = FlatFile.data_file ex_fw.
Proof.
  cbv zeta.
  pose proof (flat_locked_photo_fails_request (ex_put "0" (Some ex_png)) ex_png
    (FlatFile.World (FlatFile.data_file ex_fw) true
       (Assets {[ "/uploads/soup.png" ]} {[ "/uploads/soup.png" ]}))
    (FlatFile.Document [ex_soup] (Some (JArr []))) 0 ex_soup "/uploads/soup.png"
    eq_refl eq_refl ltac:(lia) eq_refl ltac:(vm_compute; reflexivity)
    ltac:(discriminate)
    ltac:(in_set)
    ltac:(in_set)
    eq_refl eq_refl ltac:(eexists; reflexivity))
    as ((_ & H1) & (_ & H2 & _)).
  split; [exact H1 | exact H2].
Defined.

(** A PUT that brings a new photo and goes through stores the new file,
    removes the file the record named before, and makes the record name
    the new one. *)
Theorem flat_PUT_replaces_photo (req : request) (f : upload) (fields : gmap string json)
    (w : FlatFile.world) (data : FlatFile.document) (i : Z) (meal : json) (p : string) :
  FlatFile.data_file w = Some data ->
  FlatFile.writable w = true ->
  parseInt (params_id req) = Some i -> 0 <= i ->
  FlatFile.meals data !! Z.to_nat i = Some meal ->
  get_field meal "photo" = Ok (Some (JStr p)) ->
  p <> "" -> p ∈ files (FlatFile.disk w) -> p ∉ locked (FlatFile.disk w) ->
  p <> photo_path f ->
  file req = Some f -> accepted (Some f) = true ->
  body_meal req = Some (JObj fields) ->
  let o := FlatFile.PUT_meals req w in
  status_of o = Some 200%nat
  /\ FlatFile.stored_photo (final o) (Z.to_nat i) = Some (JStr (photo_path f))
  /\ photo_path f ∈ files (FlatFile.disk (final o))
  /\ (p ∉ files (FlatFile.disk (final o)))
  /\ forall q, q <> p -> q ∈ files (FlatFile.disk w) ->
       q ∈ files (FlatFile.disk (final o)).
Proof.
  intros Hd Hw Hi Hi0 Hm Hp Hne Hin Hnl Hnew Hf Ha Hb o.
  assert (Hl : loaded w = data) by (unfold loaded; rewrite Hd; reflexivity).
  assert (Hr : 0 <= i < Z.of_nat (length (FlatFile.meals (loaded w)))).
  { rewrite Hl. apply lookup_lt_Some in Hm. lia. }
  assert (Hrm : removePhoto (Some (JStr p)) (FlatFile.disk (flat_stored (Some f) w))
                = Outcome (Ok tt)
                    (Assets (({[photo_path f]} ∪ files (FlatFile.disk w)) ∖ {[p]})
                            (locked (FlatFile.disk w))) []).
  { rewrite removePhoto_present; [reflexivity | exact Hne | | exact Hnl].
    cbn [flat_stored FlatFile.disk files]. apply elem_of_union_r, Hin. }
  unfold o, FlatFile.PUT_meals. rewrite Hf, (flat_route_accepted _ _ _ Ha).
  unfold try_catch.
  rewrite (put_meal_run req (flat_stored (Some f) w) i Hi Hr). cbv zeta.
  rewrite Hb, Hf. cbn [JSON_parse].
  change (loaded (flat_stored (Some f) w)) with (loaded w).
  unfold photo_read, element. destruct (Z.ltb_spec i 0); [lia|].
  rewrite Hl, Hm, Hp, Hrm.
  cbn [res final set_field flat_stored FlatFile.writable]. rewrite Hw.
  cbn [res final status_of answer FlatFile.disk files].
  split; [reflexivity|]. split.
  { unfold FlatFile.stored_photo, FlatFile.stored_field.
    cbn [FlatFile.data_file FlatFile.meals mbind option_bind].
    rewrite list_lookup_insert_eq by (apply lookup_lt_Some in Hm; lia).
    cbn [mbind option_bind get_field]. apply lookup_insert_eq. }
  split.
  { apply elem_of_difference. split; [apply elem_of_union_l, elem_of_singleton; reflexivity|].
    intros Hx%elem_of_singleton. congruence. }
  split.
  { intros [_ Hx]%elem_of_difference. apply Hx, elem_of_singleton. reflexivity. }
  intros q Hq Hqin. apply elem_of_difference. split; [apply elem_of_union_r, Hqin|].
  intros Hx%elem_of_singleton. contradiction.
Qed.

Lemma flat_PUT_replaces_photo_witness :
  status_of (FlatFile.PUT_meals (ex_put "0" (Some ex_png)) ex_fw) = Some 200%nat
  /\ FlatFile.stored_photo (final (FlatFile.PUT_meals (ex_put "0" (Some ex_png)) ex_fw)) 0
     = Some (JStr (photo_path ex_png)).
Proof.
  pose proof (flat_PUT_replaces_photo (ex_put "0" (Some ex_png)) ex_png ex_rename
    ex_fw (FlatFile.Document [ex_soup] (Some (JArr []))) 0 ex_soup "/uploads/soup.png"
    eq_refl eq_refl eq_refl ltac:(lia) eq_refl ltac:(vm_compute; reflexivity)
    ltac:(discriminate)
    ltac:(in_set) ltac:(not_in_set)
    ltac:(vm_compute; discriminate) eq_refl eq_refl eq_refl)
    as (H1 & H2 & _).
  split; [exact H1 | exact H2].
Defined.

(** The upload is stored before the handler runs and no handler removes
    it on failure: a POST whose meal field does not parse answers 400 and
    leaves the uploaded file on disk, with no record naming it. *)
Theorem flat_POST_failure_keeps_upload (req : request) (f : upload) (w : FlatFile.world) :
  file req = Some f -> accepted (Some f) = true ->
  body_meal req = None ->
  let o := FlatFile.POST_meals req w in
  answer o = Some (Response 400%nat (ErrorMessage SyntaxError))
  /\ photo_path f ∈ files (FlatFile.disk (final o))
  /\ FlatFile.data_file (final o) = FlatFile.data_file (final (FlatFile.readData w)).
Proof.
  intros Hf Ha Hb o. unfold o, FlatFile.POST_meals.
  rewrite Hf, (flat_route_accepted _ _ _ Ha). unfold try_catch.
  rewrite post_meal_run, Hb. cbn [JSON_parse res final answer].
  split; [reflexivity|]. split.
  - rewrite after_read_disk. cbn [flat_stored FlatFile.disk files].
    apply elem_of_union_l, elem_of_singleton. reflexivity.
  - rewrite readData_run. cbn [final]. apply after_read_stored.
Qed.

Lemma flat_POST_failure_keeps_upload_witness :
  let req := Request "" None None (Some ex_png) "" in
  status_of (FlatFile.POST_meals req ex_fw) = Some 400%nat
  /\ photo_path ex_png ∈ files (FlatFile.disk (final (FlatFile.POST_meals req ex_fw))).
Proof.
  cbv zeta.
  pose proof (flat_POST_failure_keeps_upload (Request "" None None (Some ex_png) "")
                ex_png ex_fw eq_refl eq_refl eq_refl) as (H1 & H2 & _).
  split; [unfold status_of; rewrite H1; reflexivity | exact H2].
Defined.

(** ** What the flat-file routes do to the asset files *)

Lemma removePhoto_shrinks photo a :
  files (final (removePhoto photo a)) ⊆ files a.
Proof.
  unfold removePhoto. destruct (truthy_opt photo); [|reflexivity].
  destruct (path_join_dirname photo) as [p|e]; [|reflexivity].
  rewrite bind_lift_ok, bind_get. unfold existsSync, unlinkSync.
  destruct (bool_decide (p ∈ files a)) eqn:E1; [|reflexivity].
  destruct (bool_decide (p ∈ locked a)) eqn:E2; rewrite E1;
    cbn [andb negb final files]; [reflexivity|].
  apply subseteq_difference_l. reflexivity.
Qed.

(** POST never removes an asset file and DELETE never creates one; after
    a PUT every file on disk was there before or is the upload of the
    request. *)
Theorem flat_routes_asset_files (req : request) (w : FlatFile.world) :
  files (FlatFile.disk w) ⊆ files (FlatFile.disk (final (FlatFile.POST_meals req w)))
  /\ files (FlatFile.disk (final (FlatFile.DELETE_meals req w))) ⊆ files (FlatFile.disk w)
  /\ files (FlatFile.disk (final (FlatFile.PUT_meals req w)))
     ⊆ files (FlatFile.disk (flat_stored (file req) w)).
Proof.
  split; [|split].
  - unfold FlatFile.POST_meals. destruct (accepted (file req)) eqn:Ha.
    + rewrite (flat_route_accepted _ _ _ Ha), try_catch_final, post_meal_run.
      assert (Hsub : files (FlatFile.disk w)
                     ⊆ files (FlatFile.disk (flat_stored (file req) w))).
      { destruct (file req); cbn [flat_stored FlatFile.disk files];
          [apply union_subseteq_r | reflexivity]. }
      destruct (JSON_parse _); cbn [final]; rewrite ?after_read_disk; [|exact Hsub].
      destruct (set_field _ _ _); cbn [final]; rewrite ?after_read_disk; [|exact Hsub].
      destruct (FlatFile.writable _); cbn [final FlatFile.disk];
        rewrite ?after_read_disk; exact Hsub.
    + apply accepted_false in Ha as (f & -> & Hr).
      destruct (flat_route_rejected f (try_catch (FlatFile.post_meal req) 400%nat) w Hr)
        as [e ->]. reflexivity.
  - unfold FlatFile.DELETE_meals. rewrite try_catch_final.
    destruct (FlatFile.index_ok (parseInt (params_id req)) (loaded w)) eqn:Hi.
    + apply index_ok_true in Hi as (i & Hi & Hr).
      rewrite (delete_meal_run req w i Hi Hr). cbv zeta.
      destruct (_ !! _); cbn [final]; rewrite ?after_read_disk; [|reflexivity].
      destruct (get_field _ _) as [photo|];
        cbn [final]; rewrite ?after_read_disk; [|reflexivity].
      pose proof (removePhoto_shrinks photo (FlatFile.disk w)) as Hs.
      destruct (res (removePhoto photo _)); [destruct (FlatFile.writable w)|];
        cbn [final FlatFile.disk]; exact Hs.
    + rewrite (delete_meal_not_found _ _ Hi). cbn [final].
      rewrite after_read_disk. reflexivity.
  - unfold FlatFile.PUT_meals. destruct (accepted (file req)) eqn:Ha.
    + rewrite (flat_route_accepted _ _ _ Ha), try_catch_final.
      set (w' := flat_stored (file req) w).
      destruct (FlatFile.index_ok (parseInt (params_id req)) (loaded w')) eqn:Hi.
      * apply index_ok_true in Hi as (i & Hi & Hr).
        rewrite (put_meal_run req w' i Hi Hr). cbv zeta.
        destruct (JSON_parse _); cbn [final]; rewrite ?after_read_disk; [|reflexivity].
        destruct (photo_read _ _) as [old|];
          cbn [final]; rewrite ?after_read_disk; [|reflexivity].
        pose proof (removePhoto_shrinks old (FlatFile.disk w')) as Hs.
        destruct (file req).
        -- destruct (res (removePhoto old _)); [|cbn [final FlatFile.disk]; exact Hs].
           destruct (set_field _ _ _); [|cbn [final FlatFile.disk]; exact Hs].
           destruct (FlatFile.writable w'); cbn [final FlatFile.disk]; exact Hs.
        -- destruct (set_field _ _ _); cbn [final]; rewrite ?after_read_disk;
             [|reflexivity].
           destruct (FlatFile.writable w'); cbn [final FlatFile.disk];
             rewrite ?after_read_disk; reflexivity.
      * rewrite (put_meal_not_found _ _ Hi). cbn [final].
        rewrite after_read_disk. reflexivity.
    + apply accepted_false in Ha as (f & -> & Hr).
      destruct (flat_route_rejected f (try_catch (FlatFile.put_meal req) 400%nat) w Hr)
        as [e ->]. cbn [final flat_stored FlatFile.disk files].
      apply union_subseteq_r.
Qed.

(** ** The status codes of the flat-file meal routes *)

Ltac member := repeat constructor.
Ltac not_member H :=
  repeat (apply elem_of_cons in H as [H|H]; [discriminate|]);
  apply elem_of_nil in H; contradiction.
Ltac widen H :=
  repeat (apply elem_of_cons in H as [H|H]; [rewrite H; member|]);
  apply elem_of_nil in H; contradiction.

(** POST answers 200, 400 or 500, PUT 200, 400, 404 or 500, DELETE 200,
    400 or 404; 500 is answered exactly when the upload is refused. *)
Theorem flat_status_codes (req : request) (w : FlatFile.world) :
  (status_of (FlatFile.POST_meals req w) = Some 500%nat <-> accepted (file req) = false)
  /\ (status_of (FlatFile.PUT_meals req w) = Some 500%nat <-> accepted (file req) = false)
  /\ status_of (FlatFile.POST_meals req w) ∈ [Some 200; Some 400; Some 500]%nat
  /\ status_of (FlatFile.PUT_meals req w) ∈ [Some 200; Some 400; Some 404; Some 500]%nat
  /\ status_of (FlatFile.DELETE_meals req w) ∈ [Some 200; Some 400; Some 404]%nat.
Proof.
  assert (Hpost : forall w', status_of (try_catch (FlatFile.post_meal req) 400%nat w')
                             ∈ [Some 200; Some 400]%nat).
  { intros w'. unfold status_of, answer, try_catch. rewrite post_meal_run.
    destruct (JSON_parse _); [|member].
    destruct (set_field _ _ _); [|member].
    destruct (FlatFile.writable w'); member. }
  assert (Hput : forall w', status_of (try_catch (FlatFile.put_meal req) 400%nat w')
                            ∈ [Some 200; Some 400; Some 404]%nat).
  { intros w'. unfold status_of, answer, try_catch.
    destruct (FlatFile.index_ok (parseInt (params_id req)) (loaded w')) eqn:Hi.
    - apply index_ok_true in Hi as (i & Hi & Hr).
      rewrite (put_meal_run req w' i Hi Hr). cbv zeta.
      destruct (JSON_parse _); [|member].
      destruct (photo_read _ _); [|member].
      destruct (file req).
      + destruct (res (removePhoto _ _)); [|member].
        destruct (set_field _ _ _); [|member].
        destruct (FlatFile.writable w'); member.
      + destruct (set_field _ _ _); [|member].
        destruct (FlatFile.writable w'); member.
    - rewrite (put_meal_not_found _ _ Hi). member. }
  assert (Hdel : status_of (FlatFile.DELETE_meals req w)
                 ∈ [Some 200; Some 400; Some 404]%nat).
  { unfold FlatFile.DELETE_meals, status_of, answer, try_catch.
    destruct (FlatFile.index_ok (parseInt (params_id req)) (loaded w)) eqn:Hi.
    - apply index_ok_true in Hi as (i & Hi & Hr).
      rewrite (delete_meal_run req w i Hi Hr). cbv zeta.
      destruct (_ !! _); [|member].
      destruct (get_field _ _); [|member].
      destruct (res (removePhoto _ _)); [|member].
      destruct (FlatFile.writable w); member.
    - rewrite (delete_meal_not_found _ _ Hi). member. }
  unfold FlatFile.POST_meals, FlatFile.PUT_meals.
  destruct (accepted (file req)) eqn:Ha.
  - rewrite !(flat_route_accepted _ _ _ Ha).
    specialize (Hpost (flat_stored (file req) w)).
    specialize (Hput (flat_stored (file req) w)).
    split; [split; [intros H; rewrite H in Hpost; not_member Hpost | discriminate]|].
    split; [split; [intros H; rewrite H in Hput; not_member Hput | discriminate]|].
    split; [widen Hpost|]. split; [widen Hput | exact Hdel].
  - apply accepted_false in Ha as (f & -> & Hr).
    destruct (flat_route_rejected f (try_catch (FlatFile.post_meal req) 400%nat) w Hr)
      as [e1 ->].
    destruct (flat_route_rejected f (try_catch (FlatFile.put_meal req) 400%nat) w Hr)
      as [e2 ->].
    split; [split; reflexivity|]. split; [split; reflexivity|].
    split; [member|]. split; [member | exact Hdel].
Qed.

(** ** [parseInt] stops at the first character that is not a digit *)

Lemma parse_digits_stops R s c t acc :
  all_digits R s = true -> radix_digit R c = None ->
  parse_digits R (s +:+ String c t) acc = parse_digits R s acc.
Proof.
  revert acc. induction s as [|d s IH]; intros acc Hs Hc.
  - simpl. rewrite Hc. reflexivity.
  - simpl in Hs |- *. destruct (radix_digit R d); [|discriminate].
    apply IH; assumption.
Qed.

Lemma digit_value_cases c v :
  digit_value c = Some v ->
  let n := Z.of_N (N_of_ascii c) in
  (48 <= n <= 57 /\ v = n - 48) \/ (97 <= n <= 122 /\ v = n - 87)
  \/ (65 <= n <= 90 /\ v = n - 55).
Proof.
  unfold digit_value. cbv zeta. set (n := Z.of_N (N_of_ascii c)).
  destruct (Z.leb_spec 48 n), (Z.leb_spec n 57); cbn [andb];
    try (intros [= <-]; left; lia).
  all: destruct (Z.leb_spec 97 n), (Z.leb_spec n 122); cbn [andb];
    try (intros [= <-]; right; left; lia).
  all: destruct (Z.leb_spec 65 n), (Z.leb_spec n 90); cbn [andb];
    try (intros [= <-]; right; right; lia); discriminate.
Qed.

Lemma radix_digit_decimal c v :
  radix_digit 10 c = Some v -> (48 <= N_of_ascii c <= 57)%N /\ 0 <= v.
Proof.
  unfold radix_digit. destruct (digit_value c) as [u|] eqn:Hd; [|discriminate].
  destruct (Z.ltb_spec u 10); [|discriminate]. intros [= <-].
  apply digit_value_cases in Hd. cbv zeta in Hd. lia.
Qed.

Lemma parse_digits_nonneg R s acc :
  0 <= R -> 0 <= default 0 acc ->
  0 <= default 0 (parse_digits R s acc).
Proof.
  intros HR. revert acc. induction s as [|d s IH]; intros acc Hacc; [exact Hacc|].
  simpl. unfold radix_digit. destruct (digit_value d) as [v|] eqn:Hd; [|exact Hacc].
  destruct (v <? R); [|exact Hacc].
  apply IH. simpl.
  assert (0 <= v) by (apply digit_value_cases in Hd; cbv zeta in Hd; lia).
  nia.
Qed.

(** An id that starts with decimal digits is read as the number they
    write, whatever follows them: [parseInt] of [12abc] is that of [12]
    (provided what follows does not make a [0x] prefix), a number that is
    not negative. *)
Theorem parseInt_ignores_trailing_text (s : string) (c : ascii) (t : string) :
  s <> "" -> all_digits 10 s = true ->
  radix_digit 10 c = None -> c <> "x"%char -> c <> "X"%char ->
  parseInt (s +:+ String c t) = parseInt s
  /\ exists n, parseInt s = Some n /\ 0 <= n.
Proof.
  intros Hne Hs Hc Hx HX.
  destruct s as [|d s]; [contradiction|]. clear Hne.
  simpl in Hs. destruct (radix_digit 10 d) as [v|] eqn:Hd; [|discriminate].
  destruct (radix_digit_decimal d v Hd) as [Hdigit Hv].
  assert (Hnum : forall rest,
            (d = "0"%char -> forall r, rest <> String "x" r /\ rest <> String "X" r) ->
            parseInt (String d rest) = parse_digits 10 (String d rest) None).
  { intros rest Hrest. unfold parseInt.
    assert (Hws : is_white_space d = false).
    { unfold is_white_space.
      destruct (N_of_ascii d) as [|p]; [lia|].
      do 6 (destruct p as [p|p|]; try reflexivity; try lia). }
    cbn [trim_start]. rewrite Hws.
    destruct d as [[] [] [] [] [] [] [] []]; cbn in Hdigit; try lia;
      try (cbn [fmap option_fmap option_map];
           destruct (parse_digits 10 _ None) as [z|]; cbn; [f_equal; lia | reflexivity]).
    destruct rest as [|e r]; 
      [cbn [fmap option_fmap option_map];
       destruct (parse_digits 10 _ None) as [z|]; cbn; [f_equal; lia | reflexivity]|].
    destruct (Hrest eq_refl r) as [H1 H2].
    destruct e as [[] [] [] [] [] [] [] []];
      try (contradiction H1; reflexivity); try (contradiction H2; reflexivity);
      cbn [fmap option_fmap option_map];
      destruct (parse_digits 10 _ None) as [z|]; cbn; (f_equal; lia) || reflexivity. }
  assert (Hs1 : parseInt (String d s) = parse_digits 10 (String d s) None).
  { apply Hnum. intros -> r. split; intros ->; simpl in Hs; discriminate. }
  assert (Hs2 : parseInt (String d s +:+ String c t)
                = parse_digits 10 (String d s +:+ String c t) None).
  { cbn [String.app]. apply Hnum. intros -> r.
    destruct s as [|e s']; cbn [String.app].
    - split; intros [= ->]; contradiction.
    - split; intros [= -> _]; simpl in Hs; discriminate. }
  split.
  - rewrite Hs1, Hs2. apply parse_digits_stops; [|exact Hc].
    simpl. rewrite Hd. exact Hs.
  - rewrite Hs1. simpl. rewrite Hd.
    pose proof (parse_digits_nonneg 10 s (Some (0 * 10 + v)) ltac:(lia)) as Hn.
    specialize (Hn ltac:(simpl; lia)).
    assert (Hsome : forall acc, is_Some acc -> is_Some (parse_digits 10 s acc)).
    { clear. induction s as [|e s IH]; intros acc Hacc; [exact Hacc|].
      simpl. destruct (radix_digit 10 e); [apply IH; eauto | exact Hacc]. }
    destruct (Hsome (Some (0 * 10 + v)) ltac:(eauto)) as [n Hn'].
    rewrite Hn' in Hn |- *. exists n. split; [reflexivity | exact Hn].
Qed.

Lemma parseInt_ignores_trailing_text_witness :
  parseInt "12abc" = parseInt "12".
Proof.
  exact (proj1 (parseInt_ignores_trailing_text "12" "a" "bc"
           ltac:(discriminate) eq_refl eq_refl ltac:(discriminate) ltac:(discriminate))).
Defined.

(** ** The heading routes *)

(** PUT /api/headings of the flat-file variant replaces the headings as a
    whole by what the request carries (nothing of the old value is kept)
    and leaves every stored meal and every asset file as it is. *)
Theorem flat_PUT_headings_replaces (req : Headings.request) (w : FlatFile.world) :
  FlatFile.writable w = true ->
  let o := Headings.PUT_headings req w in
  answer o = Some (Response 200%nat (Entity (Headings.body_headings req)))
  /\ FlatFile.data_file (final o)
     = Some (FlatFile.Document (FlatFile.meals (loaded w)) (Headings.body_headings req))
  /\ (forall i k, FlatFile.stored_field (final o) i k = FlatFile.stored_field w i k)
  /\ FlatFile.disk (final o) = FlatFile.disk w.
Proof.
  intros Hw o.
  assert (Ho : o = Outcome (Ok (res_json (Headings.body_headings req)))
                 (FlatFile.World
                    (Some (FlatFile.Document (FlatFile.meals (loaded w))
                                             (Headings.body_headings req)))
                    true (FlatFile.disk w)) []).
  { unfold o, Headings.PUT_headings. apply try_catch_ok.
    unfold Headings.put_headings.
    rewrite (bind_ok _ _ _ _ _ _ (readData_run w)). cbv beta zeta.
    unfold bind. rewrite writeData_run, after_read_writable, Hw, after_read_disk.
    reflexivity. }
  rewrite Ho. cbn [answer res final FlatFile.data_file FlatFile.disk].
  repeat split.
  intros i k. unfold FlatFile.stored_field, loaded.
  cbn [FlatFile.data_file FlatFile.meals mbind option_bind].
  destruct (FlatFile.data_file w) as [d|]; reflexivity.
Qed.

Lemma flat_PUT_headings_replaces_witness :
  let req := Headings.Request "" None (Some (JArr [JStr "Starters"])) "" in
  answer (Headings.PUT_headings req ex_fw)
  = Some (Response 200%nat (Entity (Some (JArr [JStr "Starters"]))))
  /\ FlatFile.data_file (final (Headings.PUT_headings req ex_fw))
     = Some (FlatFile.Document [ex_soup] (Some (JArr [JStr "Starters"]))).
Proof.
  cbv zeta.
  pose proof (flat_PUT_headings_replaces
                (Headings.Request "" None (Some (JArr [JStr "Starters"])) "")
                ex_fw eq_refl) as (H1 & H2 & _).
  split; [exact H1 | exact H2].
Defined.


(** POST /api/headings without a name, or with the empty name, answers
    400 (the schema requires [name]) and stores nothing. *)
Theorem heading_POST_requires_name `{!Mongo.SchemaCasts}
    (req : Headings.request) (w : Mongo.world) :
  Headings.body_name req = None \/ Headings.body_name req = Some (JStr "") ->
  Headings.POST_headings req w
  = Outcome (Ok (Response 400%nat (ErrorMessage ValidationError))) w [].
Proof.
  intros [Hn|Hn]; rewrite POST_headings_run, Hn; cbn [Mongo.set_path];
    [reflexivity|].
  rewrite Mongo.castString_string. reflexivity.
Qed.

Lemma heading_POST_requires_name_witness :
  status_of (@Headings.POST_headings Mongo.default_casts
               (Headings.Request "" (Some (JStr "")) None ex_oid) ex_mw)
  = Some 400%nat.
Proof.
  rewrite (@heading_POST_requires_name Mongo.default_casts
             (Headings.Request "" (Some (JStr "")) None ex_oid) ex_mw
             ltac:(right; reflexivity)).
  reflexivity.
Defined.

(** Whenever POST /api/headings answers 200, the name it was given casts to
    a non-empty string, which is stored under the generated id, an id no
    heading had; the other headings, the meals and the asset files are as
    they were.  Whenever it does not answer 200 nothing at all has
    changed. *)
Theorem heading_POST_stores `{!Mongo.SchemaCasts}
    (req : Headings.request) (w : Mongo.world) :
  let o := Headings.POST_headings req w in
  (status_of o = Some 200%nat ->
   exists v s,
     Headings.body_name req = Some v /\ Mongo.castString v = Some (Some s) /\ s <> ""
     /\ Mongo.headings w !! Headings.generated_id req = None
     /\ answer o = Some (Response 200%nat (Entity (Headings.generated_id req, s)))
     /\ Mongo.headings (final o) = <[Headings.generated_id req := s]> (Mongo.headings w)
     /\ Mongo.meals (final o) = Mongo.meals w
     /\ Mongo.disk (final o) = Mongo.disk w)
  /\ (status_of o <> Some 200%nat -> status_of o = Some 400%nat /\ final o = w).
Proof.
  cbv zeta. rewrite POST_headings_run. unfold Mongo.set_path.
  destruct (Headings.body_name req) as [v|]; [|split; [discriminate | split; reflexivity]].
  destruct (Mongo.castString v) as [[s|]|] eqn:Hcast;
    try (split; [discriminate | split; reflexivity]).
  destruct (String.eqb_spec s ""); [split; [discriminate | split; reflexivity]|].
  destruct (Mongo.db_up w); [|split; [discriminate | split; reflexivity]].
  destruct (bool_decide _) eqn:Hfresh; [split; [discriminate | split; reflexivity]|].
  split; [|intros Hc; contradiction Hc; reflexivity].
  apply bool_decide_eq_false_1 in Hfresh.
  assert (Hnone : Mongo.headings w !! Headings.generated_id req = None).
  { destruct (Mongo.headings w !! Headings.generated_id req) eqn:E; [|reflexivity].
    contradiction Hfresh. eauto. }
  intros _. exists v, s. repeat split; assumption.
Qed.

(** PUT /api/headings/:id with no name, or with a name that is falsy (the
    empty string, null, false, 0), answers 400 before the id is looked at
    or the database is asked: nothing changes, whatever the id and whether
    or not the database answers. *)
Theorem heading_PUT_requires_name `{!Mongo.SchemaCasts}
    (req : Headings.request) (w : Mongo.world) :
  truthy_opt (Headings.body_name req) = false ->
  Headings.PUT_heading req w
  = Outcome (Ok (Response 400%nat (ErrorText "Heading name is required"))) w [].
Proof. intros Hn. rewrite PUT_heading_run, Hn. reflexivity. Qed.

Lemma heading_PUT_requires_name_witness :
  @Headings.PUT_heading Mongo.default_casts
    (Headings.Request "not an id" (Some (JStr "")) None "")
    (Mongo.World ∅ ∅ false (Assets ∅ ∅))
  = Outcome (Ok (Response 400%nat (ErrorText "Heading name is required")))
            (Mongo.World ∅ ∅ false (Assets ∅ ∅)) [].
Proof.
  exact (@heading_PUT_requires_name Mongo.default_casts
           (Headings.Request "not an id" (Some (JStr "")) None "")
           (Mongo.World ∅ ∅ false (Assets ∅ ∅)) eq_refl).
Defined.

(** Whenever PUT /api/headings/:id answers 200, the id casts to the id of a
    heading that exists; that heading alone is given the new name, no
    heading is created, and the meals and the asset files are as they
    were.  An id under which no heading is stored answers 404, and
    whenever the answer is not 200 nothing at all has changed. *)
Theorem heading_PUT_renames_one `{!Mongo.SchemaCasts}
    (req : Headings.request) (w : Mongo.world) :
  let o := Headings.PUT_heading req w in
  (status_of o = Some 200%nat ->
   exists oid old new,
     Mongo.castObjectId (JStr (Headings.params_id req)) = Some (Some oid)
     /\ Mongo.headings w !! oid = Some old
     /\ Headings.cast_name (Headings.body_name req) = Ok new
     /\ answer o = Some (Response 200%nat (Entity (oid, new)))
     /\ Mongo.headings (final o) = <[oid := new]> (Mongo.headings w)
     /\ dom (Mongo.headings (final o)) = dom (Mongo.headings w)
     /\ Mongo.meals (final o) = Mongo.meals w
     /\ Mongo.disk (final o) = Mongo.disk w)
  /\ (status_of o <> Some 200%nat -> final o = w)
  /\ (forall oid,
        truthy_opt (Headings.body_name req) = true ->
        Mongo.castObjectId (JStr (Headings.params_id req)) = Some (Some oid) ->
        is_Some (Mongo.castString (default JNull (Headings.body_name req))) ->
        Mongo.db_up w = true ->
        Mongo.headings w !! oid = None ->
        answer o = Some (Response 404%nat (ErrorText "Heading not found"))).
Proof.
  cbv zeta. rewrite PUT_heading_run.
  destruct (truthy_opt (Headings.body_name req)) eqn:Ht; cbn [negb];
    [|split; [discriminate | split; [reflexivity | discriminate]]].
  destruct (Mongo.castObjectId (JStr (Headings.params_id req))) as [[oid|]|];
    try (split; [discriminate | split; [reflexivity | discriminate]]).
  destruct (Headings.cast_name (Headings.body_name req)) as [new|e] eqn:Hc.
  2:{ split; [discriminate|]. split; [reflexivity|].
      intros oid' _ _ [c Hcast] _ _. exfalso. unfold Headings.cast_name in Hc.
      destruct (Headings.body_name req) as [v|]; [|discriminate].
      cbn [default from_option id] in Hcast. rewrite Hcast in Hc.
      destruct c; discriminate. }
  destruct (Mongo.db_up w); [|split; [discriminate | split; [reflexivity | discriminate]]].
  destruct (Mongo.headings w !! oid) as [old|] eqn:Hold.
  - split; [|split; [intros Hn; contradiction Hn; reflexivity|]].
    + intros _. exists oid, old, new. repeat split; try assumption.
      cbn [final Mongo.headings]. rewrite dom_insert_L.
      apply (elem_of_dom_2 (D := gset string)) in Hold.
      apply set_eq. intros x. rewrite elem_of_union, elem_of_singleton.
      split; [intros [->|Hx]; assumption | intros Hx; right; exact Hx].
    + intros oid' _ [= <-] _ _ Hnone. congruence.
  - split; [discriminate|]. split; [reflexivity|]. intros. reflexivity.
Qed.

Lemma heading_POST_200_final `{!Mongo.SchemaCasts}
    (req : Headings.request) (w : Mongo.world) :
  status_of (Headings.POST_headings req w) = Some 200%nat ->
  exists s,
    Mongo.headings w !! Headings.generated_id req = None
    /\ Mongo.db_up w = true
    /\ final (Headings.POST_headings req w)
       = Mongo.World (Mongo.meals w)
           (<[Headings.generated_id req := s]> (Mongo.headings w)) true (Mongo.disk w).
Proof.
  rewrite POST_headings_run.
  destruct (Mongo.set_path _ _ _) as [[s|] []]; try discriminate.
  destruct (String.eqb s ""); [discriminate|].
  destruct (Mongo.db_up w) eqn:Hup; [|discriminate].
  destruct (bool_decide _) eqn:Hfresh; [discriminate|]. intros _.
  apply bool_decide_eq_false_1 in Hfresh.
  exists s. split; [|split; reflexivity].
  destruct (Mongo.headings w !! Headings.generated_id req) eqn:E; [|reflexivity].
  contradiction Hfresh. eauto.
Qed.

(** A heading created by POST and then deleted by DELETE under the id POST
    answered leaves the headings, the meals and the asset files exactly as
    they were before the two requests. *)
Theorem heading_POST_then_DELETE `{!Mongo.SchemaCasts}
    (preq : Headings.request) (dreq : request) (w : Mongo.world) :
  status_of (Headings.POST_headings preq w) = Some 200%nat ->
  Mongo.castObjectId (JStr (params_id dreq)) = Some (Some (Headings.generated_id preq)) ->
  let created := final (Headings.POST_headings preq w) in
  answer (Mongo.DELETE_headings dreq created) = Some (Response 200%nat (Entity Mongo.ESuccess))
  /\ final (Mongo.DELETE_headings dreq created) = w.
Proof.
  intros Hs Hc created.
  destruct (heading_POST_200_final preq w Hs) as (s & Hfresh & Hupw & Hfin).
  unfold created. rewrite Hfin.
  rewrite mongo_delete_heading_run, Hc.
  cbn [Mongo.meals Mongo.headings Mongo.db_up Mongo.disk].
  rewrite lookup_insert_eq. cbn [answer res final]. split; [reflexivity|].
  rewrite delete_insert_id by exact Hfresh. rewrite <- Hupw.
  apply mongo_world_eta.
Qed.

Lemma heading_POST_then_DELETE_witness :
  let preq := Headings.Request "" (Some (JStr "Starters")) None
                "000000000000000000000002" in
  final (@Mongo.DELETE_headings Mongo.default_casts
           (ex_delete "000000000000000000000002")
           (final (@Headings.POST_headings Mongo.default_casts preq ex_mw)))
  = ex_mw.
Proof.
  exact (proj2 (@heading_POST_then_DELETE Mongo.default_casts
           (Headings.Request "" (Some (JStr "Starters")) None "000000000000000000000002")
           (ex_delete "000000000000000000000002") ex_mw
           ltac:(vm_compute; reflexivity) ltac:(vm_compute; reflexivity))).
Defined.

(** ** The document-collection meal routes *)

Section MongoMeals.
Context `{!Mongo.SchemaCasts}.

(** The [photo] and the [_id] that [new Meal] reads from the data POST has
    prepared. *)
Lemma assigned_photo_lookup parsed withPhoto (heading : option string) mealData
    (path : string) :
  Mongo.assign parsed "photo" (Some (JStr path)) = Ok withPhoto ->
  match heading with
  | Some h => if negb (String.eqb h "")
              then Mongo.assign withPhoto "heading" (Some (JStr h))
              else Ok withPhoto
  | None => Ok withPhoto
  end = Ok mealData ->
  (exists m, mealData = JObj m /\ m !! "photo" = Some (JStr path)
             /\ m !! "_id" = supplied parsed "_id")
  \/ Mongo.new_Meal "" mealData = Throw ObjectParameterError.
Proof.
  intros Hp Hh.
  assert (Hw : (exists m, withPhoto = JObj m /\ m !! "photo" = Some (JStr path)
                          /\ m !! "_id" = supplied parsed "_id")
               \/ (Mongo.new_Meal "" withPhoto = Throw ObjectParameterError
                   /\ forall k x, Mongo.assign withPhoto k x = Ok withPhoto)).
  { destruct parsed; cbn in Hp; try discriminate; injection Hp as <-;
      try (right; split; [reflexivity | intros; reflexivity]);
      left; eexists; (split; [reflexivity|]); (split; [apply lookup_insert_eq|]);
      rewrite lookup_insert_ne by discriminate; reflexivity. }
  assert (Hheading : forall h,
            Mongo.assign withPhoto "heading" (Some (JStr h)) = Ok mealData ->
            (exists m, mealData = JObj m /\ m !! "photo" = Some (JStr path)
                       /\ m !! "_id" = supplied parsed "_id")
            \/ Mongo.new_Meal "" mealData = Throw ObjectParameterError).
  { intros h Ha. destruct Hw as [(m & -> & Hm & Hi) | [Hthrow Hsame]].
    - cbn in Ha. injection Ha as <-. left. eexists. split; [reflexivity|].
      rewrite !lookup_insert_ne by discriminate. split; assumption.
    - rewrite Hsame in Ha. injection Ha as <-. right. exact Hthrow. }
  destruct heading as [h|].
  - destruct (negb (String.eqb h "")); [apply (Hheading h Hh)|].
    injection Hh as <-. destruct Hw as [Hw | [Hw _]]; [left | right]; exact Hw.
  - injection Hh as <-. destruct Hw as [Hw | [Hw _]]; [left | right]; exact Hw.
Qed.

(** What a POST that answers 200 has done: the document it answers is
    stored under its [_id], or under the generated id when that is null. *)
Lemma mongo_POST_200 (req : request) (w : Mongo.world) :
  status_of (Mongo.POST_meals req w) = Some 200%nat ->
  exists id doc,
    Mongo.meals w !! default (generated_id req) id = None
    /\ Mongo.db_up w = true
    /\ Mongo.photo doc
       = Some (match file req with Some f => photo_path f | None => "" end)
    /\ overwrites Mongo.castObjectId (body_id req) (Some (generated_id req)) id
    /\ Mongo.POST_meals req w
       = Outcome (Ok (res_json (Mongo.EMeal id doc)))
           (Mongo.World (<[default (generated_id req) id := doc]> (Mongo.meals w))
              (Mongo.headings w) true (Mongo.disk (mongo_stored (file req) w))) [].
Proof.
  intros Hs. unfold Mongo.POST_meals in Hs |- *.
  destruct (mongo_route_ok _ _ _ 200%nat ltac:(discriminate) Hs) as [Ha Hr].
  rewrite Hr in Hs |- *. clear Hr.
  destruct (mongo_stored_fields (file req) w) as (Hm & Hh & Hup).
  unfold try_catch in Hs |- *. rewrite mongo_post_meal_run in Hs |- *.
  cbv zeta in Hs |- *. rewrite Hm, Hh, Hup in Hs |- *.
  destruct (JSON_parse _) as [parsed|] eqn:Hparse; [|discriminate].
  assert (Hb : body_meal req = Some parsed).
  { destruct (body_meal req); [injection Hparse as ->; reflexivity | discriminate]. }
  destruct (Mongo.assign parsed "photo" _) as [withPhoto|] eqn:Hp; [|discriminate].
  destruct (match body_heading req with Some _ => _ | None => _ end)
    as [mealData|] eqn:Hhd; [|discriminate].
  destruct (Mongo.new_Meal (generated_id req) mealData) as [meal|] eqn:Hnew;
    [|discriminate].
  destruct (Mongo.invalid meal) eqn:Hinv; [discriminate|].
  destruct (Mongo.db_up w) eqn:Hdb; [|discriminate].
  destruct (bool_decide _) eqn:Hfresh; [discriminate|].
  apply bool_decide_eq_false_1 in Hfresh.
  exists (Mongo._id meal), (Mongo.doc meal).
  split; [|split; [reflexivity|split; [|split; [|reflexivity]]]].
  - destruct (Mongo.meals w !! _) eqn:E; [|reflexivity].
    contradiction Hfresh. eauto.
  - destruct (assigned_photo_lookup _ _ _ _ _ Hp Hhd) as [(m & -> & Hl & _) | Hthrow].
    + cbn in Hnew. injection Hnew as <-. unfold Mongo.set.
      rewrite set_fields_photo. cbn [Mongo.own_fields Mongo.doc Mongo.photo].
      rewrite Hl. cbn [Mongo.set_path]. rewrite Mongo.castString_string. reflexivity.
    + destruct mealData; cbn in Hthrow, Hnew; discriminate.
  - destruct (assigned_photo_lookup _ _ _ _ _ Hp Hhd) as [(m & -> & _ & Hi) | Hthrow].
    + cbn in Hnew. injection Hnew as <-. unfold Mongo.set in Hinv |- *.
      destruct (set_fields_valid _ _ Hinv) as (_ & _ & _ & _ & _ & Hid).
      cbn [Mongo._id Mongo.own_fields] in Hid. rewrite Hi in Hid.
      unfold body_id. rewrite Hb. exact Hid.
    + destruct mealData; cbn in Hthrow, Hnew; discriminate.
Qed.

(** Whenever POST /api/meals answers 200, the document it answers is
    stored, with [photo] set to the path of the upload or to the empty
    string, under an id no meal had: the [_id] the body names (cast), the
    generated id when the body names none or a null one; every other
    document is as it was, and GET /api/data then lists the new meal.
    Whenever the answer is not 200 the collection is unchanged, and a body
    naming an [_id] that does not cast is answered 400 as a validation
    error (its upload, if any, having passed the upload middleware).  The
    headings are never touched. *)
Theorem mongo_POST_inserts (req : request) (w : Mongo.world) :
  let o := Mongo.POST_meals req w in
  (status_of o = Some 200%nat ->
   exists id doc,
     let key := default (generated_id req) id in
     answer o = Some (Response 200%nat (Entity (Mongo.EMeal id doc)))
     /\ overwrites Mongo.castObjectId (body_id req) (Some (generated_id req)) id
     /\ Mongo.meals w !! key = None
     /\ Mongo.meals (final o) = <[key := doc]> (Mongo.meals w)
     /\ Mongo.photo doc
        = Some (match file req with Some f => photo_path f | None => "" end)
     /\ exists listed,
          answer (Mongo.GET_data (final o))
          = Some (Response 200%nat (Entity (Mongo.EData listed)))
          /\ (key, doc) ∈ listed)
  /\ (status_of o <> Some 200%nat -> Mongo.meals (final o) = Mongo.meals w)
  /\ (forall v, accepted (file req) = true -> body_id req = Some v ->
                Mongo.castObjectId v = None ->
                answer o = Some (Response 400%nat (ErrorMessage ValidationError)))
  /\ Mongo.headings (final o) = Mongo.headings w.
Proof.
  cbv zeta. split; [|split; [|split]].
  - intros Hs.
    destruct (mongo_POST_200 req w Hs) as (id & doc & Hnone & Hup & Hphoto & Hid & ->).
    exists id, doc. cbn [answer res final Mongo.meals].
    split; [reflexivity|]. split; [exact Hid|]. split; [exact Hnone|].
    split; [reflexivity|]. split; [exact Hphoto|].
    eexists. split.
    + unfold Mongo.GET_data, try_catch_text, Mongo.find. unfold bind.
      rewrite connected_run. cbn [final Mongo.db_up res reads]. reflexivity.
    + cbn [final Mongo.meals]. apply elem_of_map_to_list, lookup_insert_eq.
  - intros Hs. unfold Mongo.POST_meals in *.
    destruct (accepted (file req)) eqn:Ha.
    2:{ apply accepted_false in Ha as (f & Hf & Hr). rewrite Hf.
        destruct (mongo_route_rejected f (try_catch (Mongo.post_meal req) 400%nat) w Hr)
          as [e ->]. reflexivity. }
    rewrite (mongo_route_accepted _ _ _ Ha) in Hs |- *.
    rewrite try_catch_final. unfold status_of, answer, try_catch in Hs.
    destruct (mongo_stored_fields (file req) w) as (Hm & Hh & Hup).
    rewrite mongo_post_meal_run in Hs |- *. cbv zeta in Hs |- *.
    destruct (JSON_parse _); [|exact Hm].
    destruct (Mongo.assign _ "photo" _); [|exact Hm].
    destruct (match body_heading req with Some _ => _ | None => _ end); [|exact Hm].
    destruct (Mongo.new_Meal _ _); [|exact Hm].
    destruct (Mongo.invalid _); [exact Hm|].
    destruct (Mongo.db_up _); [|exact Hm].
    destruct (bool_decide _); [exact Hm|].
    contradiction Hs. reflexivity.
  - intros v Ha Hv Hcast. unfold Mongo.POST_meals.
    rewrite (mongo_route_accepted _ _ _ Ha). apply try_catch_answer_throw.
    rewrite mongo_post_meal_run. unfold body_id in Hv.
    destruct (body_meal req) as [parsed|]; [|discriminate].
    cbn [mbind option_bind JSON_parse] in Hv |- *.
    destruct parsed as [| | | | |m]; try (cbn in Hv; discriminate).
    cbn [Mongo.assign set_field]. unfold supplied in Hv. cbn [Mongo.own_fields] in Hv.
    set (withPhoto := <["photo" := _]> m).
    assert (Hbad : forall fields : gmap string json,
              fields !! "_id" = Some v ->
              Mongo.invalid (Mongo.set (JObj fields)
                (Mongo.Hydrated (Some (generated_id req))
                   (Mongo.Meal None None None None None)
                   (Mongo.Meal None None None None None) false true)) = true).
    { intros fields Hf. unfold Mongo.set, Mongo.set_fields. cbn [Mongo.own_fields].
      rewrite Hf. cbn [Mongo.set_path Mongo._id]. rewrite Hcast. set_paths.
      cbn [Mongo.invalid]. rewrite !orb_true_r. reflexivity. }
    assert (Hw : withPhoto !! "_id" = Some v).
    { unfold withPhoto. rewrite lookup_insert_ne by discriminate. exact Hv. }
    destruct (body_heading req) as [hd|].
    + destruct (negb (String.eqb hd "")).
      * cbn [Mongo.assign set_field Mongo.new_Meal]. rewrite Hbad; [reflexivity|].
        rewrite lookup_insert_ne by discriminate. exact Hw.
      * cbn [Mongo.new_Meal]. rewrite (Hbad _ Hw). reflexivity.
    + cbn [Mongo.new_Meal]. rewrite (Hbad _ Hw). reflexivity.
  - unfold Mongo.POST_meals.
    destruct (accepted (file req)) eqn:Ha.
    2:{ apply accepted_false in Ha as (f & Hf & Hr). rewrite Hf.
        destruct (mongo_route_rejected f (try_catch (Mongo.post_meal req) 400%nat) w Hr)
          as [e ->]. reflexivity. }
    rewrite (mongo_route_accepted _ _ _ Ha), try_catch_final.
    destruct (mongo_stored_fields (file req) w) as (Hm & Hh & Hup).
    rewrite mongo_post_meal_run. cbv zeta.
    destruct (JSON_parse _); [|exact Hh].
    destruct (Mongo.assign _ "photo" _); [|exact Hh].
    destruct (match body_heading req with Some _ => _ | None => _ end); [|exact Hh].
    destruct (Mongo.new_Meal _ _); [|exact Hh].
    destruct (Mongo.invalid _); [exact Hh|].
    destruct (Mongo.db_up _); [|exact Hh].
    destruct (bool_decide _); [exact Hh | exact Hh].
Qed.

(** Whenever DELETE /api/meals/:id answers 200, the id casts to the id of a
    stored meal, which is answered and removed from the collection, the
    other documents staying as they were; the file its [photo] named is no
    longer on disk; and the same DELETE sent again answers 404.  Whenever
    the answer is not 200 the collection is unchanged.  The headings are
    never touched. *)
Theorem mongo_DELETE_removes (req : request) (w : Mongo.world) :
  let o := Mongo.DELETE_meals req w in
  (status_of o = Some 200%nat ->
   exists oid meal,
     Mongo.castObjectId (JStr (params_id req)) = Some (Some oid)
     /\ Mongo.meals w !! oid = Some meal
     /\ answer o = Some (Response 200%nat (Entity (Mongo.EMeal (Some oid) meal)))
     /\ Mongo.meals (final o) = delete oid (Mongo.meals w)
     /\ (forall p, Mongo.photo meal = Some p -> p <> "" ->
                   p ∉ files (Mongo.disk (final o)))
     /\ answer (Mongo.DELETE_meals req (final o))
        = Some (Response 404%nat (ErrorText "Meal not found")))
  /\ (status_of o <> Some 200%nat -> Mongo.meals (final o) = Mongo.meals w)
  /\ Mongo.headings (final o) = Mongo.headings w.
Proof.
  cbv zeta. unfold Mongo.DELETE_meals, try_catch. rewrite mongo_delete_meal_run.
  destruct (Mongo.castObjectId (JStr (params_id req))) as [[oid|]|] eqn:Hc;
    try (split; [discriminate | split; reflexivity]).
  destruct (Mongo.db_up w) eqn:Hup; [|split; [discriminate | split; reflexivity]].
  destruct (Mongo.meals w !! oid) as [meal|] eqn:Hm;
    [|split; [discriminate | split; reflexivity]].
  cbv zeta.
  destruct (res (removePhoto (JStr <$> Mongo.photo meal) (Mongo.disk w)))
    as [u|] eqn:Hrm; [|split; [discriminate | split; reflexivity]].
  split; [|split; [intros Hn; contradiction Hn; reflexivity | reflexivity]].
  intros _. exists oid, meal. cbn [res final Mongo.disk].
  split; [reflexivity|]. split; [exact Hm|]. split; [reflexivity|].
  split; [reflexivity|]. split.
  - intros p Hp Hne. rewrite Hp in Hrm |- *.
    cbn [fmap option_fmap option_map] in Hrm |- *.
    exact (removePhoto_ok_gone p _ u Hrm Hne).
  - rewrite mongo_delete_meal_run, Hc. cbn [Mongo.db_up Mongo.meals].
    rewrite lookup_delete_eq. reflexivity.
Qed.

(** PUT /api/meals/:id never creates or removes a document and never
    touches the headings; every document other than the one it answers is
    as it was; and when the body names no [_id], or one that casts to the
    id of the request, every document other than the one the id of the
    request casts to is as it was. *)
Theorem mongo_PUT_touches_one (req : request) (w : Mongo.world) :
  let o := Mongo.PUT_meals req w in
  dom (Mongo.meals (final o)) = dom (Mongo.meals w)
  /\ Mongo.headings (final o) = Mongo.headings w
  /\ (forall k,
        (forall d, answer o <> Some (Response 200%nat (Entity (Mongo.EMeal (Some k) d)))) ->
        Mongo.meals (final o) !! k = Mongo.meals w !! k)
  /\ ((forall v, body_id req = Some v ->
                 Mongo.castObjectId v = Mongo.castObjectId (JStr (params_id req))) ->
      forall k, Mongo.castObjectId (JStr (params_id req)) <> Some (Some k) ->
        Mongo.meals (final o) !! k = Mongo.meals w !! k).
Proof.
  cbv zeta. unfold Mongo.PUT_meals.
  destruct (accepted (file req)) eqn:Ha.
  2:{ apply accepted_false in Ha as (f & Hf & Hr). rewrite Hf.
      destruct (mongo_route_rejected f (try_catch (Mongo.put_meal req) 400%nat) w Hr)
        as [e ->]. repeat split. }
  rewrite (mongo_route_accepted _ _ _ Ha).
  destruct (mongo_stored_fields (file req) w) as (Hm & Hh & Hup).
  assert (Hsame : forall (o : outcome Mongo.world (response Mongo.entity)),
            Mongo.meals (final o) = Mongo.meals w ->
            Mongo.headings (final o) = Mongo.headings w ->
            dom (Mongo.meals (final o)) = dom (Mongo.meals w)
            /\ Mongo.headings (final o) = Mongo.headings w
            /\ (forall k,
                  (forall d, answer o
                             <> Some (Response 200%nat (Entity (Mongo.EMeal (Some k) d)))) ->
                  Mongo.meals (final o) !! k = Mongo.meals w !! k)
            /\ ((forall v, body_id req = Some v ->
                           Mongo.castObjectId v
                           = Mongo.castObjectId (JStr (params_id req))) ->
                forall k, Mongo.castObjectId (JStr (params_id req)) <> Some (Some k) ->
                  Mongo.meals (final o) !! k = Mongo.meals w !! k)).
  { intros o -> ->. repeat split. }
  unfold try_catch. rewrite mongo_put_meal_run, Hm, Hh, Hup.
  destruct (JSON_parse _) as [parsed|] eqn:Hparse; [|apply Hsame; assumption].
  assert (Hb : body_meal req = Some parsed).
  { destruct (body_meal req); [injection Hparse as ->; reflexivity | discriminate]. }
  destruct (Mongo.castObjectId (JStr (params_id req))) as [[oid|]|] eqn:Hc;
    try (apply Hsame; assumption).
  destruct (Mongo.db_up w); [|apply Hsame; assumption].
  destruct (Mongo.meals w !! oid) as [meal|] eqn:Hl; [|apply Hsame; assumption].
  cbv zeta.
  destruct (res (photo_step _ _ _)); [|apply Hsame; reflexivity].
  destruct (Mongo.assign _ _ _) as [fields|] eqn:Hassign; [|apply Hsame; reflexivity].
  set (h := Mongo.set fields (Mongo.Hydrated (Some oid) meal meal false false)).
  destruct (Mongo.invalid h) eqn:Hinv; [apply Hsame; reflexivity|].
  destruct (Mongo._id h) as [key|] eqn:Hkey;
    cbn [mbind option_bind]; [|apply Hsame; reflexivity].
  destruct (Mongo.meals w !! key) as [target|] eqn:Htarget; [|apply Hsame; reflexivity].
  cbn [res final answer Mongo.meals Mongo.headings default from_option id].
  split; [|split; [reflexivity|split]].
  - rewrite dom_insert_L. apply (elem_of_dom_2 (D := gset string)) in Htarget.
    apply set_eq. intros x. rewrite elem_of_union, elem_of_singleton.
    split; [intros [->|Hx]; assumption | intros Hx; right; exact Hx].
  - intros k Hk. apply lookup_insert_ne. intros <-. exact (Hk _ eq_refl).
  - intros Hsame_id k Hk. apply lookup_insert_ne. intros <-. apply Hk. f_equal.
    destruct (set_fields_valid _ _ Hinv) as (_ & _ & _ & _ & _ & Hid).
    cbn [Mongo._id] in Hid.
    fold (Mongo.set fields (Mongo.Hydrated (Some oid) meal meal false false)) in Hid.
    fold h in Hid. rewrite Hkey in Hid.
    rewrite (assigned_lookup _ _ _ "_id" Hassign) in Hid by discriminate.
    unfold body_id in Hsame_id. rewrite Hb in Hsame_id. cbn [mbind option_bind] in Hsame_id.
    unfold overwrites in Hid. destruct (supplied parsed "_id") as [v|].
    + rewrite (Hsame_id v eq_refl) in Hid. congruence.
    + congruence.
Qed.

End MongoMeals.

(** The condition on [_id] is needed: a PUT whose body names the [_id] of
    another meal leaves the meal of the request's id as it was and changes
    the other one. *)
Lemma mongo_PUT_body_id_example :
  let o := @Mongo.PUT_meals Mongo.default_casts (ex_put_as ex_oid ex_oid2) ex_mw2 in
  @Mongo.castObjectId Mongo.default_casts (JStr ex_oid) = Some (Some ex_oid)
  /\ Mongo.meals (final o) !! ex_oid = Mongo.meals ex_mw2 !! ex_oid
  /\ Mongo.meals ex_mw2 !! ex_oid2 = Some ex_salad
  /\ Mongo.meals (final o) !! ex_oid2
     = Some (Mongo.Meal (Some "Stew") (Some "Green salad") None None None).
Proof. cbv zeta. repeat split; vm_compute; reflexivity. Qed.



Lemma set_fields_invalid_name `{!Mongo.SchemaCasts} fields h v :
  fields !! "name" = Some v -> Mongo.castString v = None ->
  Mongo.invalid (Mongo.set_fields fields h) = true.
Proof.
  intros Hn Hc. unfold Mongo.set_fields. rewrite Hn.
  cbn [Mongo.set_path]. rewrite Hc. set_paths.
  cbn [Mongo.invalid]. rewrite orb_true_r. reflexivity.
Qed.

(** PUT removes the old photo file before the document is validated and
    saved: when the body names a [name] that no String path takes, the
    answer is 400 and the document is stored as it was, still naming the
    old photo, but that file is gone, and the uploaded file stays on disk
    with no document naming it. *)
Theorem mongo_PUT_invalid_after_photo_removed `{!Mongo.SchemaCasts}
    (req : request) (f : upload) (fields : gmap string json) (v : json)
    (w : Mongo.world) (oid : string) (meal : Mongo.MealDoc) (p : string) :
  file req = Some f -> accepted (Some f) = true ->
  body_meal req = Some (JObj fields) ->
  fields !! "name" = Some v -> Mongo.castString v = None ->
  Mongo.castObjectId (JStr (params_id req)) = Some (Some oid) ->
  Mongo.db_up w = true ->
  Mongo.meals w !! oid = Some meal ->
  Mongo.photo meal = Some p ->
  p <> "" -> p ∈ files (Mongo.disk w) -> p ∉ locked (Mongo.disk w) ->
  p <> photo_path f ->
  let o := Mongo.PUT_meals req w in
  answer o = Some (Response 400%nat (ErrorMessage ValidationError))
  /\ Mongo.meals (final o) = Mongo.meals w
  /\ (p ∉ files (Mongo.disk (final o)))
  /\ (photo_path f ∈ files (Mongo.disk (final o))).
Proof.
  intros Hf Ha Hb Hn Hc Hid Hup Hm Hp Hne Hin Hnl Hpf o.
  unfold o, Mongo.PUT_meals. rewrite Hf, (mongo_route_accepted _ _ _ Ha).
  unfold try_catch. rewrite mongo_put_meal_run, Hb, Hid, Hf.
  cbn [JSON_parse mongo_stored Mongo.db_up Mongo.meals Mongo.headings Mongo.disk].
  rewrite Hup, Hm. cbv zeta. unfold photo_step, new_photo. rewrite Hp.
  cbn [fmap option_fmap option_map].
  rewrite removePhoto_present;
    [| exact Hne | cbn [files]; apply elem_of_union_r, Hin | exact Hnl ].
  cbn [res final Mongo.assign set_field]. unfold Mongo.set.
  cbn [Mongo.own_fields].
  rewrite (set_fields_invalid_name _ _ v)
    by (try exact Hc; rewrite lookup_insert_ne by discriminate; exact Hn).
  cbn [answer res final Mongo.meals Mongo.disk files].
  split; [reflexivity|]. split; [reflexivity|]. split.
  - intros [_ Hx]%elem_of_difference. apply Hx, elem_of_singleton. reflexivity.
  - apply elem_of_difference. split.
    + apply elem_of_union_l, elem_of_singleton. reflexivity.
    + intros Hx%elem_of_singleton. congruence.
Qed.

Lemma mongo_PUT_invalid_after_photo_removed_witness :
  let o := @Mongo.PUT_meals Mongo.default_casts (ex_bad_put ex_oid (Some ex_png)) ex_mw in
  status_of o = Some 400%nat
  /\ Mongo.meals (final o) !! ex_oid = Some ex_meal
  /\ ("/uploads/soup.png" ∉ files (Mongo.disk (final o))).
Proof.
  cbv zeta.
  pose proof (@mongo_PUT_invalid_after_photo_removed Mongo.default_casts
    (ex_bad_put ex_oid (Some ex_png)) ex_png {[ "name" := JObj ∅ ]} (JObj ∅)
    ex_mw ex_oid ex_meal "/uploads/soup.png"
    eq_refl eq_refl eq_refl ltac:(vm_compute; reflexivity) eq_refl
    ltac:(vm_compute; reflexivity) eq_refl ltac:(vm_compute; reflexivity) eq_refl
    ltac:(discriminate) ltac:(in_set) ltac:(not_in_set) ltac:(discriminate))
    as (H1 & H2 & H3 & _).
  split; [unfold status_of; rewrite H1; reflexivity|].
  split; [rewrite H2; vm_compute; reflexivity | exact H3].
Defined.



(** A photo file that cannot be removed fails DELETE and a PUT that brings
    a new photo: both answer 400 and the document stays stored as it was;
    after the PUT the uploaded file is on disk with no document naming
    it. *)
Theorem mongo_locked_photo_fails_request `{!Mongo.SchemaCasts}
    (req : request) (f : upload) (w : Mongo.world) (oid : string)
    (meal : Mongo.MealDoc) (p : string) :
  Mongo.castObjectId (JStr (params_id req)) = Some (Some oid) ->
  Mongo.db_up w = true ->
  Mongo.meals w !! oid = Some meal ->
  Mongo.photo meal = Some p ->
  p <> "" -> p ∈ files (Mongo.disk w) -> p ∈ locked (Mongo.disk w) ->
  file req = Some f -> accepted (Some f) = true -> is_Some (body_meal req) ->
  (answer (Mongo.DELETE_meals req w)
   = Some (Response 400%nat (ErrorMessage FsError))
   /\ final (Mongo.DELETE_meals req w) = w)
  /\ (answer (Mongo.PUT_meals req w)
      = Some (Response 400%nat (ErrorMessage FsError))
      /\ Mongo.meals (final (Mongo.PUT_meals req w)) = Mongo.meals w
      /\ files (Mongo.disk (final (Mongo.PUT_meals req w)))
         = {[photo_path f]} ∪ files (Mongo.disk w)).
Proof.
  intros Hid Hup Hm Hp Hne Hin Hlk Hf Ha [parsed Hb]. split.
  - unfold Mongo.DELETE_meals, try_catch.
    rewrite mongo_delete_meal_run, Hid, Hup, Hm. cbv zeta. rewrite Hp.
    cbn [fmap option_fmap option_map].
    rewrite (removePhoto_locked p _ Hne Hin Hlk). cbn [res final answer].
    split; [reflexivity|]. rewrite <- Hup. apply mongo_world_eta.
  - unfold Mongo.PUT_meals. rewrite Hf, (mongo_route_accepted _ _ _ Ha).
    unfold try_catch. rewrite mongo_put_meal_run, Hb, Hid, Hf.
    cbn [JSON_parse mongo_stored Mongo.db_up Mongo.meals Mongo.headings Mongo.disk].
    rewrite Hup, Hm. cbv zeta. unfold photo_step. rewrite Hp.
    cbn [fmap option_fmap option_map].
    rewrite removePhoto_locked;
      [| exact Hne | cbn [files]; apply elem_of_union_r, Hin | exact Hlk ].
    cbn [res final answer Mongo.meals Mongo.disk files].
    repeat split.
Qed.

Lemma mongo_locked_photo_fails_request_witness :
  let w := Mongo.World (Mongo.meals ex_mw) ∅ true
             (Assets {[ "/uploads/soup.png" ]} {[ "/uploads/soup.png" ]}) in
  final (@Mongo.DELETE_meals Mongo.default_casts (ex_put ex_oid (Some ex_png)) w) = w
  /\ status_of (@Mongo.PUT_meals Mongo.default_casts (ex_put ex_oid (Some ex_png)) w)
     = Some 400%nat.
Proof.
  cbv zeta.
  pose proof (@mongo_locked_photo_fails_request Mongo.default_casts
    (ex_put ex_oid (Some ex_png)) ex_png
    (Mongo.World (Mongo.meals ex_mw) ∅ true
       (Assets {[ "/uploads/soup.png" ]} {[ "/uploads/soup.png" ]}))
    ex_oid ex_meal "/uploads/soup.png"
    ltac:(vm_compute; reflexivity) eq_refl ltac:(vm_compute; reflexivity) eq_refl
    ltac:(discriminate) ltac:(in_set) ltac:(in_set) eq_refl eq_refl
    ltac:(eexists; reflexivity))
    as ((_ & H2) & (H3 & _)).
  split; [exact H2 | unfold status_of; rewrite H3; reflexivity].
Defined.

(** POST followed by DELETE under the id the meal was stored under (the
    [_id] POST answered, or the generated id when that is null) undoes the
    POST: DELETE answers 200 with the document POST answered, and the
    meals, the headings and the asset files are exactly as before the two
    requests (the uploaded file, if any, is gone again). *)
Theorem mongo_POST_then_DELETE `{!Mongo.SchemaCasts}
    (preq dreq : request) (w : Mongo.world) (id : option string) (doc : Mongo.MealDoc) :
  answer (Mongo.POST_meals preq w)
  = Some (Response 200%nat (Entity (Mongo.EMeal id doc))) ->
  Mongo.castObjectId (JStr (params_id dreq))
  = Some (Some (default (generated_id preq) id)) ->
  (forall f, file preq = Some f ->
             (photo_path f ∉ files (Mongo.disk w))
             /\ (photo_path f ∉ locked (Mongo.disk w))) ->
  let posted := Mongo.POST_meals preq w in
  let deleted := Mongo.DELETE_meals dreq (final posted) in
  answer deleted
  = Some (Response 200%nat
            (Entity (Mongo.EMeal (Some (default (generated_id preq) id)) doc)))
  /\ final deleted = w.
Proof.
  intros Hans Hid Hfresh posted deleted.
  assert (Hs : status_of (Mongo.POST_meals preq w) = Some 200%nat).
  { unfold status_of. rewrite Hans. reflexivity. }
  destruct (mongo_POST_200 preq w Hs)
    as (id' & doc' & Hnone & Hup & Hphoto & _ & Hposted).
  fold posted in Hposted, Hans. rewrite Hposted in Hans.
  cbn [answer res] in Hans. injection Hans as -> ->.
  set (key := default (generated_id preq) id) in *.
  assert (Hrm : removePhoto (JStr <$> Mongo.photo doc)
                  (Mongo.disk (mongo_stored (file preq) w))
                = Outcome (Ok tt) (Mongo.disk w) []).
  { rewrite Hphoto. cbn [fmap option_fmap option_map].
    destruct (file preq) as [f|] eqn:Hf.
    - destruct (Hfresh f eq_refl) as [Hnf Hnl]. cbn [mongo_stored Mongo.disk].
      rewrite removePhoto_present.
      + f_equal. destruct (Mongo.disk w) as [fs lk]. cbn [files locked] in *.
        f_equal. apply set_eq. intros x.
        rewrite elem_of_difference, elem_of_union, elem_of_singleton.
        split; [intros [[->|Hx] Hne]; [contradiction Hne; reflexivity | exact Hx]|].
        intros Hx. split; [right; exact Hx|]. intros ->. contradiction.
      + unfold photo_path. discriminate.
      + cbn [files]. apply elem_of_union_l, elem_of_singleton. reflexivity.
      + exact Hnl.
    - apply removePhoto_falsy. reflexivity. }
  assert (Hdel : deleted = Outcome (Ok (res_json (Mongo.EMeal (Some key) doc))) w []).
  { unfold deleted, Mongo.DELETE_meals, try_catch.
    rewrite mongo_delete_meal_run, Hid, Hposted.
    cbn [final Mongo.meals Mongo.headings Mongo.db_up Mongo.disk].
    rewrite lookup_insert_eq. cbv zeta. rewrite Hrm. cbn [res final].
    rewrite delete_insert_id by exact Hnone. rewrite <- Hup.
    rewrite mongo_world_eta. reflexivity. }
  rewrite Hdel. split; reflexivity.
Qed.

Lemma mongo_POST_then_DELETE_witness :
  final (@Mongo.DELETE_meals Mongo.default_casts
           (ex_delete "000000000000000000000001")
           (final (@Mongo.POST_meals Mongo.default_casts
                     (ex_post "000000000000000000000001") ex_mw)))
  = ex_mw.
Proof.
  exact (proj2 (@mongo_POST_then_DELETE Mongo.default_casts
           (ex_post "000000000000000000000001")
           (ex_delete "000000000000000000000001") ex_mw
           (Some "000000000000000000000001")
           (Mongo.Meal (Some "Soup") (Some "Tomato soup")
                       (Some (photo_path ex_png)) (Some true) None)
           ltac:(vm_compute; reflexivity) ltac:(vm_compute; reflexivity)
           ltac:(intros f [= <-]; split; not_in_set))).
Defined.

(** The two read routes of the document collection change nothing.  With
    the database answering they list the stored meals, respectively the
    stored headings; with the database down both answer 500, GET /api/data
    with a fixed text and GET /api/headings with the message of the
    error. *)
Theorem mongo_GET_routes (w : Mongo.world) :
  final (Mongo.GET_data w) = w
  /\ final (Mongo.GET_headings w) = w
  /\ (Mongo.db_up w = true ->
      answer (Mongo.GET_data w)
      = Some (Response 200%nat (Entity (Mongo.EData (map_to_list (Mongo.meals w)))))
      /\ answer (Mongo.GET_headings w)
         = Some (Response 200%nat
                   (Entity (Mongo.EHeadings (map_to_list (Mongo.headings w))))))
  /\ (Mongo.db_up w = false ->
      answer (Mongo.GET_data w)
      = Some (Response 500%nat (ErrorText "Failed to load data"))
      /\ answer (Mongo.GET_headings w)
         = Some (Response 500%nat (ErrorMessage MongoError))).
Proof.
  unfold Mongo.GET_data, Mongo.GET_headings, try_catch_text, try_catch,
    Mongo.find, Mongo.find_headings, bind.
  rewrite connected_run.
  destruct (Mongo.db_up w); cbn [res final reads answer];
    (split; [reflexivity|]; split; [reflexivity|]; split; intros Hd;
     try discriminate Hd; split; reflexivity).
Qed.
